(** * The dependency scraper of [scraper.py], embedded and verified

    The program loads a spreadsheet of library dependencies, visits the
    registry page of each one in a browser, reformats the scraped fields and
    writes the records back as JSON and as a new sheet.

    Conventions of the embedding.
    - A Python [str] is a [string]; each character is read as a code point
      below 256, so the whitespace class of [str.split()] and of the regular
      expression class [\s] is the one Unicode gives to that range.
    - A Python value is a [value]: a [str], a [datetime], or one of the three
      markers pandas puts in an empty cell: the float [nan] in a column that
      holds a text, the [numpy.float64] [nan] in a column that holds
      nothing, and [NaT] in a column of dates.
    - A raised exception is the [Raise] outcome of a [result].
    - The record dictionaries are objects of a [heap], and a Python list of
      records is a list of references into it.
    - The workbook file is given twice: by the cells of its sheets, as
      pandas reads them, and by the titles of its sheets with the cells the
      program sets, as openpyxl keeps them. *)

From Stdlib Require Import Ascii ZArith DecimalString DecimalPos DecimalN.
From stdpp Require Import gmap strings list fin_maps functions.

(** ** Python strings *)

Module Str.

Definition code (c : ascii) : nat := nat_of_ascii c.

(** [str.isspace] on one character, for code points below 256. *)
Definition isspace (c : ascii) : bool :=
  let n := code c in
  ((9 <=? n) && (n <=? 13)) || ((28 <=? n) && (n <=? 32))
  || (n =? 133) || (n =? 160).

(** The class [\d]: below 256 only the ASCII digits are decimal. *)
Definition isdigit (c : ascii) : bool :=
  let n := code c in (48 <=? n) && (n <=? 57).

Definition digit_value (c : ascii) : Z := Z.of_nat (code c) - 48.

(** [str.lower] on one ASCII letter; the month names below are ASCII. *)
Definition lower (c : ascii) : ascii :=
  let n := code c in
  if (65 <=? n) && (n <=? 90) then ascii_of_nat (n + 32) else c.

(** [s.split(sep)] for a one-character separator: every occurrence cuts,
    empty pieces are kept, the result is never empty. *)
Fixpoint split (sep : ascii) (s : string) : list string :=
  match s with
  | EmptyString => [EmptyString]
  | String c s' =>
      if Ascii.eqb c sep then EmptyString :: split sep s'
      else match split sep s' with
           | [] => [String c EmptyString]
           | t :: ts => String c t :: ts
           end
  end.

(** [s.split()]: cut at runs of whitespace, no empty piece is produced.
    [cur] is the piece being read, in reverse. *)
Fixpoint rev_string (acc s : string) : string :=
  match s with
  | EmptyString => acc
  | String c s' => rev_string (String c acc) s'
  end.

Definition flush (cur : string) (k : list string) : list string :=
  match cur with
  | EmptyString => k
  | _ => rev_string EmptyString cur :: k
  end.

Fixpoint split_ws_aux (cur : string) (s : string) : list string :=
  match s with
  | EmptyString => flush cur []
  | String c s' =>
      if isspace c then flush cur (split_ws_aux EmptyString s')
      else split_ws_aux (String c cur) s'
  end.

Definition split_ws (s : string) : list string := split_ws_aux EmptyString s.

(** [sep.join(l)] *)
Fixpoint join (sep : string) (l : list string) : string :=
  match l with
  | [] => EmptyString
  | [x] => x
  | x :: l' => x +:+ sep +:+ join sep l'
  end.

(** [l[-1]] and [l[:-1]] on a list of strings *)
Definition last (l : list string) : string := List.last l EmptyString.
Definition init (l : list string) : list string := removelast l.

Definition contains (c : ascii) (s : string) : Prop :=
  In c (String.list_ascii_of_string s).

Definition all (p : ascii -> bool) (s : string) : bool :=
  forallb p (String.list_ascii_of_string s).

End Str.

(** ** Values, exceptions and outcomes *)

Record datetime := Datetime {
  year : Z; month : Z; day : Z;
  hour : Z; minute : Z; second : Z; microsecond : Z
}.

Inductive value :=
| VStr (s : string)
| VNaN
| VDatetime (d : datetime)
| VNaN64
| VNaT.

Inductive exn :=
| ValueError
| TypeError
| AttributeError
| IndexError
| KeyError (k : string)
| WebDriverException
| UnboundLocalError
| IllegalCharacterError.

Inductive result (A : Type) :=
| Ok (a : A)
| Raise (e : exn).
Arguments Ok {A} a.
Arguments Raise {A} e.

#[global] Instance result_ret : MRet result := fun A a => Ok a.
#[global] Instance result_bind : MBind result := fun A B f r =>
  match r with
  | Ok a => f a
  | Raise e => Raise e
  end.

#[global] Instance datetime_eq_dec : EqDecision datetime.
Proof. solve_decision. Defined.
#[global] Instance value_eq_dec : EqDecision value.
Proof. solve_decision. Defined.
#[global] Instance exn_eq_dec : EqDecision exn.
Proof. solve_decision. Defined.

(** [not x or (type(x) is float and math.isnan(x))]: the test the three
    formatters open with.  The empty string is falsy; [nan] is a truthy
    float that [isnan] accepts; a [datetime] is truthy and no float, and so
    is [NaT]; the [nan] of numpy is truthy and its type is [numpy.float64],
    not [float]. *)
Definition is_absent (v : value) : bool :=
  match v with
  | VStr EmptyString => true
  | VStr _ => false
  | VNaN => true
  | VDatetime _ => false
  | VNaN64 => false
  | VNaT => false
  end.

(** ** The formatters *)

Definition formatLibrary (libName versionNumber : value) : result value :=
  if is_absent libName then Ok VNaN
  else match libName with
       | VStr name =>
           let libNameList := Str.split "-" name in
           let extension := Str.last (Str.split "." (Str.last libNameList)) in
           match versionNumber with
           | VStr version =>
               Ok (VStr (Str.join EmptyString (Str.init libNameList)
                           +:+ "-" +:+ version +:+ "." +:+ extension))
           | _ => Raise TypeError
           end
       | _ => Raise AttributeError
       end.

Definition formatVulnerability (vulnerabilitiesString : value) : result value :=
  if is_absent vulnerabilitiesString then Ok VNaN
  else match vulnerabilitiesString with
       | VStr s =>
           match Str.split_ws s with
           | t :: _ => Ok (VStr t)
           | [] => Raise IndexError
           end
       | _ => Raise AttributeError
       end.

(** ** [datetime.strptime(s, "%b %d, %Y")]

    The library compiles the format to the regular expression
    [(?P<b>jan|feb|...|dec)\s+(?P<d>3[0-1]|[1-2]\d|0[1-9]|[1-9]| [1-9]),\s+(?P<Y>\d\d\d\d)]
    matched without regard to case from the start of the text; the whole text
    has to be consumed, and the three groups have to name a date of the
    calendar.  Every failure is a [ValueError].  The month names are those of
    the C locale. *)

Module Strptime.

Local Open Scope Z_scope.

Definition month_abbr : list string :=
  ["jan"; "feb"; "mar"; "apr"; "may"; "jun";
   "jul"; "aug"; "sep"; "oct"; "nov"; "dec"].

Fixpoint lower_string (s : string) : string :=
  match s with
  | EmptyString => EmptyString
  | String c s' => String (Str.lower c) (lower_string s')
  end.

(** position of [x] in [l], counted from [n] *)
Fixpoint index_from (n : Z) (x : string) (l : list string) : option Z :=
  match l with
  | [] => None
  | y :: l' => if String.eqb x y then Some n else index_from (n + 1) x l'
  end.

(** group [b]: three characters that spell a month name in any case *)
Definition month_number (a b c : ascii) : option Z :=
  index_from 1 (lower_string (String a (String b (String c EmptyString))))
             month_abbr.

(** [\s+]: the longest run of whitespace, which must not be empty *)
Fixpoint skip_ws (s : string) : string :=
  match s with
  | String c s' => if Str.isspace c then skip_ws s' else s
  | EmptyString => s
  end.

Definition spaces1 (s : string) : option string :=
  match s with
  | String c s' => if Str.isspace c then Some (skip_ws s') else None
  | EmptyString => None
  end.

(** group [d] and the comma after it: one digit [1-9], or two digits
    spelling 01 to 31 *)
Definition day_comma (s : string) : option (Z * string) :=
  match s with
  | String d1 (String c2 r) =>
      if Ascii.eqb c2 "," then
        if Str.isdigit d1 && (1 <=? Str.digit_value d1)
        then Some (Str.digit_value d1, r) else None
      else
        match r with
        | String c3 r' =>
            let n := 10 * Str.digit_value d1 + Str.digit_value c2 in
            if Ascii.eqb c3 "," && Str.isdigit d1 && Str.isdigit c2
               && (1 <=? n) && (n <=? 31)
            then Some (n, r') else None
        | EmptyString => None
        end
  | _ => None
  end.

(** group [Y], which must end the text *)
Definition year_end (s : string) : option Z :=
  match s with
  | String a (String b (String c (String d EmptyString))) =>
      if Str.isdigit a && Str.isdigit b && Str.isdigit c && Str.isdigit d
      then Some (1000 * Str.digit_value a + 100 * Str.digit_value b
                 + 10 * Str.digit_value c + Str.digit_value d)
      else None
  | _ => None
  end.

Definition is_leap (y : Z) : bool :=
  (y mod 4 =? 0) && (negb (y mod 100 =? 0) || (y mod 400 =? 0)).

Definition days_in_month (y m : Z) : Z :=
  if m =? 2 then (if is_leap y then 29 else 28)
  else if (m =? 4) || (m =? 6) || (m =? 9) || (m =? 11) then 30
  else 31.

(** what the [datetime] constructor accepts *)
Definition valid_date (y m d : Z) : bool :=
  (1 <=? y) && (y <=? 9999) && (1 <=? m) && (m <=? 12)
  && (1 <=? d) && (d <=? days_in_month y m).

Definition at_midnight (y m d : Z) : datetime :=
  Datetime y m d 0 0 0 0.

Definition strptime (s : string) : result datetime :=
  match s with
  | String a (String b (String c r1)) =>
      match month_number a b c with
      | Some m =>
          match spaces1 r1 with
          | Some r2 =>
              match day_comma r2 with
              | Some (d, r3) =>
                  match spaces1 r3 with
                  | Some r4 =>
                      match year_end r4 with
                      | Some y =>
                          if valid_date y m d then Ok (at_midnight y m d)
                          else Raise ValueError
                      | None => Raise ValueError
                      end
                  | None => Raise ValueError
                  end
              | None => Raise ValueError
              end
          | None => Raise ValueError
          end
      | None => Raise ValueError
      end
  | _ => Raise ValueError
  end.

End Strptime.

Definition formatDate (dateString : value) : result value :=
  if is_absent dateString then Ok VNaN
  else match dateString with
       | VStr s => d ← Strptime.strptime s; Ok (VDatetime d)
       | _ => Raise TypeError
       end.

(** ** Printing dates: [isoformat] and [strftime('%Y%m%d')] *)

Module Fmt.

Local Open Scope Z_scope.

Definition digit (n : Z) : ascii := ascii_of_nat (48 + Z.to_nat (n mod 10)).

(** [%02d], [%04d] and [%06d] of a number that fits the width *)
Definition pad2 (n : Z) : string :=
  String (digit (n / 10)) (String (digit n) EmptyString).
Definition pad4 (n : Z) : string := pad2 (n / 100) +:+ pad2 n.
Definition pad6 (n : Z) : string := pad2 (n / 10000) +:+ pad4 n.

Definition isoformat (d : datetime) : string :=
  pad4 (year d) +:+ "-" +:+ pad2 (month d) +:+ "-" +:+ pad2 (day d)
  +:+ "T" +:+ pad2 (hour d) +:+ ":" +:+ pad2 (minute d)
  +:+ ":" +:+ pad2 (second d)
  +:+ (if microsecond d =? 0 then EmptyString
       else "." +:+ pad6 (microsecond d)).

Definition strftime_Ymd (d : datetime) : string :=
  pad4 (year d) +:+ pad2 (month d) +:+ pad2 (day d).

End Fmt.

(** ** Dependency records

    [load_excel] builds every record as a dictionary with the four keys
    below and nothing adds or removes a key afterwards. *)

Record dependency := Dependency {
  library : value;
  vulnerabilities : value;
  date : value;
  url : value
}.

#[global] Instance dependency_eq_dec : EqDecision dependency.
Proof. solve_decision. Defined.

(** ** [json.dump(dep_copy, file, indent=4, ensure_ascii=False)] *)

Module Json.

Definition quote : ascii := "034".
Definition newline : ascii := "010".
Definition nl : string := String newline EmptyString.

Definition hex_digit (n : nat) : ascii :=
  if n <? 10 then ascii_of_nat (48 + n) else ascii_of_nat (87 + n).

(** the escapes of the encoder; other characters are written as they are *)
Definition escape_char (c : ascii) : string :=
  let n := Str.code c in
  if n =? 34 then String "\" (String quote EmptyString)
  else if n =? 92 then "\\"
  else if n =? 10 then "\n"
  else if n =? 13 then "\r"
  else if n =? 9 then "\t"
  else if n =? 8 then "\b"
  else if n =? 12 then "\f"
  else if n <? 32 then
    "\u00" +:+ String (hex_digit (n / 16))
                 (String (hex_digit (n mod 16)) EmptyString)
  else String c EmptyString.

Fixpoint escape (s : string) : string :=
  match s with
  | EmptyString => EmptyString
  | String c s' => escape_char c +:+ escape s'
  end.

Definition encode_str (s : string) : string :=
  String quote (escape s +:+ String quote EmptyString).

(** a float [nan], of Python or of numpy, is written as the bare word; a
    [datetime] is refused, and so is [NaT] *)
Definition encode (v : value) : result string :=
  match v with
  | VStr s => Ok (encode_str s)
  | VNaN => Ok "NaN"
  | VDatetime _ => Raise TypeError
  | VNaN64 => Ok "NaN"
  | VNaT => Raise TypeError
  end.

Definition indent1 : string := "    ".
Definition indent2 : string := "        ".

Definition member (key : string) (v : value) : result string :=
  e ← encode v; Ok (indent2 +:+ encode_str key +:+ ": " +:+ e).

Definition object (d : dependency) : result string :=
  m1 ← member "library" (library d);
  m2 ← member "vulnerabilities" (vulnerabilities d);
  m3 ← member "date" (date d);
  m4 ← member "url" (url d);
  Ok ("{" +:+ nl +:+ m1 +:+ "," +:+ nl +:+ m2 +:+ "," +:+ nl
      +:+ m3 +:+ "," +:+ nl +:+ m4 +:+ nl +:+ indent1 +:+ "}").

Fixpoint items (l : list dependency) : result string :=
  match l with
  | [] => Ok EmptyString
  | d :: l' =>
      o ← object d;
      rest ← items l';
      Ok (match l' with
          | [] => indent1 +:+ o +:+ nl
          | _ => indent1 +:+ o +:+ "," +:+ nl +:+ rest
          end)
  end.

Definition dumps (l : list dependency) : result string :=
  match l with
  | [] => Ok "[]"
  | _ => body ← items l; Ok ("[" +:+ nl +:+ body +:+ "]")
  end.

End Json.

(** ** The spreadsheet as pandas reads it

    A sheet is given by its rows.  A cell holds a text, a date-time or
    nothing; a cell that holds nothing is written [VNaN] or, at the end of a
    row, left out.  Numbers, and the texts pandas takes for missing values,
    are left out of this development. *)

Definition sheet := list (list value).
Definition workbook := list sheet.

Record DataFrame := Frame {
  ncols : nat;
  rows : list (list value)
}.

Module Pandas.

Definition is_str (v : value) : bool :=
  match v with VStr _ => true | _ => false end.
Definition is_date (v : value) : bool :=
  match v with VDatetime _ => true | _ => false end.
Definition is_empty (v : value) : bool := negb (is_str v || is_date v).

(** a row brought to a given width, by empty cells *)
Definition pad (w : nat) (r : list value) : list value :=
  take w r ++ replicate (w - length r) VNaN.

Definition width (sh : sheet) : nat :=
  foldr (fun r w => max (length r) w) 0 sh.

(** the column [j] of the rows of a frame *)
Definition column (j : nat) (data : list (list value)) : list value :=
  map (fun r => nth j r VNaN) data.

(** The type of a column goes by what its cells hold, and the marker of an
    empty cell by the type: [object] when there is a text, with the float
    [nan] of Python; [datetime64] when there are dates and no text, with
    [NaT]; [float64] when there is nothing, with the [nan] of numpy. *)
Definition missing (col : list value) : value :=
  if existsb is_str col then VNaN
  else if existsb is_date col then VNaT
  else VNaN64.

Definition infer (data : list (list value)) : list (list value) :=
  map (imap (fun j v => if is_empty v then missing (column j data) else v))
      data.

(** [pd.read_excel(path, sheet_name=0)]: the first sheet, whose first row
    gives the column labels and is no row of the frame *)
Definition read_excel (wb : workbook) : result DataFrame :=
  match wb with
  | [] => Raise ValueError
  | sh :: _ =>
      Ok (Frame (width sh) (infer (map (pad (width sh)) (drop 1 sh))))
  end.

(** [df.iloc[r0:, c0:c1]] *)
Definition iloc_window (r0 c0 c1 : nat) (df : DataFrame) : DataFrame :=
  Frame (min c1 (ncols df) - c0)
        (map (fun r => take (c1 - c0) (drop c0 r)) (drop r0 (rows df))).

(** [df.iloc[:, j]]: a column, or [IndexError] past the last one *)
Definition iloc_column (j : nat) (df : DataFrame) : result (list value) :=
  if j <? ncols df then Ok (column j (rows df))
  else Raise IndexError.

(** [series.iloc[i]] *)
Definition iloc_at (i : nat) (s : list value) : result value :=
  match s !! i with
  | Some v => Ok v
  | None => Raise IndexError
  end.

End Pandas.

(** ** The browser

    What the browser launched for the record at position [k] shows when it is
    sent to [url]: either the navigation, one of the element lookups of the
    [try] block or the reading of a header text raises, or the page has a
    versions table with the texts of its header cells and the cells of its
    first body row, a cell whose text cannot be read being [None].  Launching
    and closing a browser are taken to succeed. *)

Inductive page :=
| Unreachable
| Versions (headers : list string) (cells : list (option string)).

Definition browser := nat -> value -> page.

Inductive event :=
| Launch (h : nat)
| Get (h : nat) (u : value)
| Close (h : nat)
| Quit (h : nat).

#[global] Instance event_eq_dec : EqDecision event.
Proof. solve_decision. Defined.

(** ** Program state

    The heap of record dictionaries, the browser sessions, what was written
    out, and the local variables of [scrape_data].

    [files] lists the JSON files written, and [book] the sheets of the
    workbook file as openpyxl has them, the first sheet first: the title of
    each, and the cells this program has set on it, which lie over what the
    sheet held before.  [sheet_title] is the title of [new_sheet], and
    [sheet_cells] lists the calls of [new_sheet.cell] that returned: the row,
    the column and the value given. *)

Definition cells := list (nat * nat * value).

Definition loc := nat.

Record state := State {
  heap : loc -> dependency;
  next_loc : loc;
  log : list event;
  first_rows_of_version_table : list (gmap string string);
  failed_url : gmap nat value;
  driver : option nat;
  var_i : nat;
  rowData : gmap string string;
  files : list (string * string);
  sheet_title : option string;
  sheet_cells : cells;
  book : list (string * cells)
}.

Definition blank : dependency := Dependency VNaN VNaN VNaN VNaN.

(** nothing has run, and the workbook file has one sheet *)
Definition initial : state :=
  State (fun _ => blank) 0 [] [] ∅ None 0 ∅ [] None [] [("Sheet1", [])].

Definition M (A : Type) : Type := state -> result A * state.

#[global] Instance M_ret : MRet M := fun A a s => (Ok a, s).
#[global] Instance M_bind : MBind M := fun A B f m s =>
  match m s with
  | (Ok a, s') => f a s'
  | (Raise e, s') => (Raise e, s')
  end.

Definition raise {A} (e : exn) : M A := fun s => (Raise e, s).
Definition lift {A} (r : result A) : M A := fun s => (r, s).
Definition gets {A} (f : state -> A) : M A := fun s => (Ok (f s), s).
Definition modify (f : state -> state) : M unit := fun s => (Ok tt, f s).

(** [try: body / except Exception: handler / finally: final].  The handler
    takes every exception of the body; [final] runs on every path, and an
    exception of its own replaces the one that was on its way. *)
Definition try_except_finally (body handler final : M unit) : M unit :=
  fun s =>
    match body s with
    | (Ok _, s1) => final s1
    | (Raise _, s1) =>
        match handler s1 with
        | (Ok _, s2) => final s2
        | (Raise e, s2) =>
            match final s2 with
            | (Ok _, s3) => (Raise e, s3)
            | (Raise e', s3) => (Raise e', s3)
            end
        end
    end.

Fixpoint for_each {A} (l : list A) (body : A -> M unit) : M unit :=
  match l with
  | [] => mret tt
  | x :: l' => body x ;; for_each l' body
  end.

Fixpoint enumerate_from {A} (n : nat) (l : list A) : list (nat * A) :=
  match l with
  | [] => []
  | x :: l' => (n, x) :: enumerate_from (S n) l'
  end.
Definition enumerate {A} (l : list A) : list (nat * A) := enumerate_from 0 l.

(** assignments to the state *)
Definition set_heap (f : (loc -> dependency) -> loc -> dependency) (s : state) : state :=
  State (f (heap s)) (next_loc s) (log s) (first_rows_of_version_table s)
        (failed_url s) (driver s) (var_i s) (rowData s) (files s)
        (sheet_title s) (sheet_cells s) (book s).
Definition set_next_loc (n : loc) (s : state) : state :=
  State (heap s) n (log s) (first_rows_of_version_table s)
        (failed_url s) (driver s) (var_i s) (rowData s) (files s)
        (sheet_title s) (sheet_cells s) (book s).
Definition set_log (f : list event -> list event) (s : state) : state :=
  State (heap s) (next_loc s) (f (log s)) (first_rows_of_version_table s)
        (failed_url s) (driver s) (var_i s) (rowData s) (files s)
        (sheet_title s) (sheet_cells s) (book s).
Definition set_first_rows (f : list (gmap string string) -> list (gmap string string))
    (s : state) : state :=
  State (heap s) (next_loc s) (log s) (f (first_rows_of_version_table s))
        (failed_url s) (driver s) (var_i s) (rowData s) (files s)
        (sheet_title s) (sheet_cells s) (book s).
Definition set_failed_url (f : gmap nat value -> gmap nat value) (s : state) : state :=
  State (heap s) (next_loc s) (log s) (first_rows_of_version_table s)
        (f (failed_url s)) (driver s) (var_i s) (rowData s) (files s)
        (sheet_title s) (sheet_cells s) (book s).
Definition set_driver (d : option nat) (s : state) : state :=
  State (heap s) (next_loc s) (log s) (first_rows_of_version_table s)
        (failed_url s) d (var_i s) (rowData s) (files s)
        (sheet_title s) (sheet_cells s) (book s).
Definition set_i (i : nat) (s : state) : state :=
  State (heap s) (next_loc s) (log s) (first_rows_of_version_table s)
        (failed_url s) (driver s) i (rowData s) (files s)
        (sheet_title s) (sheet_cells s) (book s).
Definition set_rowData (f : gmap string string -> gmap string string) (s : state) : state :=
  State (heap s) (next_loc s) (log s) (first_rows_of_version_table s)
        (failed_url s) (driver s) (var_i s) (f (rowData s)) (files s)
        (sheet_title s) (sheet_cells s) (book s).
Definition set_files (f : list (string * string) -> list (string * string))
    (s : state) : state :=
  State (heap s) (next_loc s) (log s) (first_rows_of_version_table s)
        (failed_url s) (driver s) (var_i s) (rowData s) (f (files s))
        (sheet_title s) (sheet_cells s) (book s).
Definition set_sheet_title (t : option string) (s : state) : state :=
  State (heap s) (next_loc s) (log s) (first_rows_of_version_table s)
        (failed_url s) (driver s) (var_i s) (rowData s) (files s)
        t (sheet_cells s) (book s).
Definition set_sheet_cells (f : cells -> cells) (s : state) : state :=
  State (heap s) (next_loc s) (log s) (first_rows_of_version_table s)
        (failed_url s) (driver s) (var_i s) (rowData s) (files s)
        (sheet_title s) (f (sheet_cells s)) (book s).
Definition set_book (b : list (string * cells)) (s : state) : state :=
  State (heap s) (next_loc s) (log s) (first_rows_of_version_table s)
        (failed_url s) (driver s) (var_i s) (rowData s) (files s)
        (sheet_title s) (sheet_cells s) b.

(** ** Dictionary access on a record *)

Inductive key := KLibrary | KVulnerabilities | KDate | KUrl.

(** [dep.items()] lists the keys in the order [load_excel] inserted them *)
Definition keys : list key := [KLibrary; KVulnerabilities; KDate; KUrl].

Definition key_name (k : key) : string :=
  match k with
  | KLibrary => "library"
  | KVulnerabilities => "vulnerabilities"
  | KDate => "date"
  | KUrl => "url"
  end.

Definition getitem (k : key) (d : dependency) : value :=
  match k with
  | KLibrary => library d
  | KVulnerabilities => vulnerabilities d
  | KDate => date d
  | KUrl => url d
  end.

Definition setitem (k : key) (v : value) (d : dependency) : dependency :=
  match k with
  | KLibrary => Dependency v (vulnerabilities d) (date d) (url d)
  | KVulnerabilities => Dependency (library d) v (date d) (url d)
  | KDate => Dependency (library d) (vulnerabilities d) v (url d)
  | KUrl => Dependency (library d) (vulnerabilities d) (date d) v
  end.

(** [dep[k]] and [dep[k] = v] through a reference *)
Definition load (dep : loc) (k : key) : M value :=
  gets (fun s => getitem k (heap s dep)).

Definition store (dep : loc) (k : key) (v : value) : M unit :=
  modify (set_heap (fun h => <[dep := setitem k v (h dep)]> h)).

(** a new dictionary *)
Definition alloc (d : dependency) : M loc :=
  fun s => (Ok (next_loc s),
            set_next_loc (S (next_loc s))
                         (set_heap (fun h => <[next_loc s := d]> h) s)).

(** [l[i]] on a Python list *)
Definition index {A} (l : list A) (i : nat) : result A :=
  match l !! i with
  | Some x => Ok x
  | None => Raise IndexError
  end.

(** [row[k]] on a scraped row *)
Definition lookup_key (row : gmap string string) (k : string) : result string :=
  match row !! k with
  | Some x => Ok x
  | None => Raise (KeyError k)
  end.

(** ** [load_excel] *)

Fixpoint collect {A B} (l : list A) (f : A -> M B) : M (list B) :=
  match l with
  | [] => mret []
  | x :: l' => y ← f x; ys ← collect l' f; mret (y :: ys)
  end.

(** the body of the loop: one dictionary per row of the cropped frame *)
Definition load_row (libraries vulnerabilities date url : list value)
    (i : nat) : M loc :=
  lib ← lift (Pandas.iloc_at i libraries);
  vul ← lift (Pandas.iloc_at i vulnerabilities);
  dat ← lift (Pandas.iloc_at i date);
  u ← lift (Pandas.iloc_at i url);
  alloc (Dependency lib vul dat u).

Definition load_excel (excelPath : workbook) : M (list loc) :=
  df ← lift (Pandas.read_excel excelPath);
  let cropped := Pandas.iloc_window 1 5 12 df in
  libraries ← lift (Pandas.iloc_column 0 cropped);
  vulnerabilities ← lift (Pandas.iloc_column 1 cropped);
  date ← lift (Pandas.iloc_column 3 cropped);
  url ← lift (Pandas.iloc_column 5 cropped);
  collect (seq 0 (length libraries))
          (load_row libraries vulnerabilities date url).

(** ** [scrape_data] *)

Definition default_row : gmap string string :=
  {[ "Version" := EmptyString;
     "Vulnerabilities" := EmptyString;
     "Date" := EmptyString ]}.

Definition is_launch (e : event) : bool :=
  match e with Launch _ => true | _ => false end.

(** [webdriver.Chrome()]: a session nobody holds yet *)
Definition webdriver_Chrome : M nat :=
  fun s =>
    let h := length (List.filter is_launch (log s)) in
    (Ok h, set_log (fun l => l ++ [Launch h]) s).

(** the local variable [driver], unbound until the loop assigns it *)
Definition the_driver : M nat :=
  fun s =>
    match driver s with
    | Some h => (Ok h, s)
    | None => (Raise UnboundLocalError, s)
    end.

Definition driver_get (u : value) : M unit :=
  h ← the_driver; modify (set_log (fun l => l ++ [Get h u])).
Definition driver_close : M unit :=
  h ← the_driver; modify (set_log (fun l => l ++ [Close h])).
Definition driver_quit : M unit :=
  h ← the_driver; modify (set_log (fun l => l ++ [Quit h])).

(** the body of the inner loop, which takes the loop variable [i] of the
    outer loop for its own counter *)
Definition read_cell (headers : list string) (jc : nat * option string) : M unit :=
  let '(j, cell) := jc in
  modify (set_i j);;
  let x := default EmptyString cell in
  i ← gets var_i;
  hd ← lift (index headers i);
  modify (set_rowData (fun r => <[hd := x]> r)).

(** the body of the [try] block for the record at position [k] *)
Definition scrape_page (br : browser) (k : nat) (u : value) : M unit :=
  driver_get u;;
  match br k u with
  | Unreachable => raise WebDriverException
  | Versions headers cells =>
      modify (set_rowData (fun _ => ∅));;
      for_each (enumerate cells) (read_cell headers)
  end.

Definition scrape_failed (u : value) : M unit :=
  modify (set_rowData (fun _ => default_row));;
  i ← gets var_i;
  modify (set_failed_url (fun m => <[i := u]> m)).

Definition scrape_one (br : browser) (k : nat) (dep : loc) : M unit :=
  modify (set_i k);;
  h ← webdriver_Chrome;
  modify (set_driver (Some h));;
  u ← load dep KUrl;
  try_except_finally (scrape_page br k u) (scrape_failed u) driver_close;;
  r ← gets rowData;
  modify (set_first_rows (fun l => l ++ [r])).

Definition scrape_loop (br : browser) (dependencies : list loc) : M unit :=
  for_each (enumerate dependencies) (fun '(k, dep) => scrape_one br k dep).

Definition format_one (dependencies : list loc) (i : nat) : M unit :=
  modify (set_i i);;
  table ← gets first_rows_of_version_table;
  row ← lift (index table i);
  versionNumber ← lift (lookup_key row "Version");
  dateString ← lift (lookup_key row "Date");
  vulnerabilitiesString ← lift (lookup_key row "Vulnerabilities");
  dep ← lift (index dependencies i);
  libName ← load dep KLibrary;
  formatedVersion ← lift (formatLibrary libName (VStr versionNumber));
  formatedVulnerability ← lift (formatVulnerability (VStr vulnerabilitiesString));
  formatedDate ← lift (formatDate (VStr dateString));
  store dep KDate formatedDate;;
  store dep KLibrary formatedVersion;;
  store dep KVulnerabilities formatedVulnerability.

Definition format_loop (dependencies : list loc) : M unit :=
  for_each (seq 0 (length dependencies)) (format_one dependencies).

(** A call starts with its local variable [driver] unbound; the statement
    after the loop reads it. *)
Definition scrape_data (br : browser) (dependencies : list loc) : M (list loc) :=
  modify (set_driver None);;
  modify (set_first_rows (fun _ => []));;
  modify (set_failed_url (fun _ => ∅));;
  scrape_loop br dependencies;;
  driver_quit;;
  format_loop dependencies;;
  mret dependencies.

(** ** [write_json] *)

(** The body of the inner loop.  A [numpy.float64] is a [float] for
    [isinstance], and [NaT] is a [datetime], whose [isoformat] is the word
    NaT. *)
Definition json_item (dep : loc) (k : key) : M unit :=
  v ← load dep k;
  (match v with
   | VNaN | VNaN64 => store dep k (VStr EmptyString)
   | _ => mret tt
   end);;
  (match v with
   | VDatetime d => store dep k (VStr (Fmt.isoformat d))
   | VNaT => store dep k (VStr "NaT")
   | _ => mret tt
   end).

Definition write_json (now : datetime) (dependencies : list loc) : M unit :=
  let filename := Fmt.strftime_Ymd now +:+ "_dependencies.json" in
  let dep_copy := dependencies in
  for_each dep_copy (fun dep => for_each keys (json_item dep));;
  records ← gets (fun s => map (heap s) dep_copy);
  text ← lift (Json.dumps records);
  modify (set_files (fun l => l ++ [(filename, text)])).

(** ** The workbook as openpyxl handles it

    The titles of a workbook file are those of a file that can be loaded:
    valid titles, no two of them the same.  No cell of the first sheet is
    merged with another.  Loading and saving the file are taken to
    succeed. *)

Module Openpyxl.

(** [ILLEGAL_CHARACTERS_RE], the class [\000-\010]|[\013-\014]|[\016-\037] *)
Definition illegal (c : ascii) : bool :=
  let n := Str.code c in
  (n <=? 8) || ((11 <=? n) && (n <=? 12)) || ((14 <=? n) && (n <=? 31)).

Definition legal (c : ascii) : bool := negb (illegal c).

(** [value[:n]] *)
Fixpoint truncate (n : N) (s : string) : string :=
  match s with
  | EmptyString => EmptyString
  | String c s' =>
      if (n =? 0)%N then EmptyString else String c (truncate (N.pred n) s')
  end.

(** [Cell.check_string]: the text is cut at 32767 characters, and refused
    if what is left holds an illegal character *)
Definition check_string (value : string) : result string :=
  let value := truncate 32767 value in
  if Str.all legal value then Ok value else Raise IllegalCharacterError.

(** the value setter of a cell: a text is checked, a number or a date-time
    is taken as it is *)
Definition bind_value (v : value) : result value :=
  match v with
  | VStr s => s' ← check_string s; Ok (VStr s')
  | _ => Ok v
  end.

(** [str.lower] on one character, for code points below 256 *)
Definition lower (c : ascii) : ascii :=
  let n := Str.code c in
  if ((65 <=? n) && (n <=? 90))
     || ((192 <=? n) && (n <=? 222) && negb (n =? 215))
  then ascii_of_nat (n + 32) else c.

Fixpoint lower_title (s : string) : string :=
  match s with
  | EmptyString => EmptyString
  | String c s' => String (lower c) (lower_title s')
  end.

(** [n.lower() == value.lower()] *)
Definition same_title (value n : string) : bool :=
  String.eqb (lower_title n) (lower_title value).

(** what follows [value] at the start of [s], read without regard to case *)
Fixpoint after (value s : string) : option string :=
  match value, s with
  | EmptyString, _ => Some s
  | String a value', String b s' =>
      if Ascii.eqb (lower a) (lower b) then after value' s' else None
  | String _ _, EmptyString => None
  end.

(** the group [\d*] and what follows it *)
Fixpoint digits (s : string) : string :=
  match s with
  | String c s' => if Str.isdigit c then String c (digits s') else EmptyString
  | EmptyString => EmptyString
  end.

Fixpoint skip_digits (s : string) : string :=
  match s with
  | String c s' => if Str.isdigit c then skip_digits s' else s
  | EmptyString => s
  end.

(** [findall] of the expression that reads [value], then a group of digits
    [\d*], then [,?], without regard to case, for a [value] that is not
    empty: the digits of every match, the matches being taken from the left
    and not overlapping.  The first [skip] characters of [s] belong to the
    match before. *)
Fixpoint findall (skip : nat) (value s : string) : list string :=
  match s with
  | EmptyString => []
  | String _ s' =>
      match skip with
      | S k => findall k value s'
      | O =>
          match after value s with
          | Some r =>
              let count := digits r in
              let comma :=
                match skip_digits r with
                | String "," _ => 1
                | _ => 0
                end in
              count :: findall (String.length value + String.length count
                                + comma - 1) value s'
          | None => findall 0 value s'
          end
      end
  end.

(** [int(idx)] of a text of digits and [str(n)] of a number *)
Definition int (idx : string) : N :=
  match NilEmpty.uint_of_string idx with
  | Some u => N.of_uint u
  | None => 0
  end.

Definition str (n : N) : string := NilEmpty.string_of_uint (N.to_uint n).

(** [avoid_duplicate_name(names, value)]: a title that some sheet has
    already, whatever the case of its letters, gets a number, one more than
    the highest number that follows the title anywhere in the titles joined
    by commas *)
Definition avoid_duplicate_name (names : list string) (value : string) : string :=
  if existsb (same_title value) names then
    let matches := findall 0 value (Str.join "," names) in
    match matches with
    | [] => value
    | _ =>
        let counts :=
          map int (List.filter (fun idx => negb (String.eqb idx EmptyString))
                               matches) in
        let highest := foldr N.max 0%N counts in
        value +:+ str (highest + 1)
    end
  else value.

(** the title setter of a sheet titled [current], in a workbook whose sheets
    are titled [names] *)
Definition set_title (names : list string) (current value : string) : string :=
  if String.eqb current value then value
  else avoid_duplicate_name names value.

(** [workbook.copy_worksheet(ws)]: a new sheet at the end, which holds what
    [ws] holds and is titled after it *)
Definition copy_worksheet (workbook : list (string * cells))
    (ws : string * cells) : string * cells :=
  (set_title (map fst workbook) EmptyString (ws.1 +:+ " Copy"), ws.2).

(** [l.index(x)] *)
Fixpoint index_of (x : string) (l : list string) : result nat :=
  match l with
  | [] => Raise ValueError
  | y :: l' => if String.eqb y x then Ok 0 else n ← index_of x l'; Ok (S n)
  end.

End Openpyxl.

(** ** [write_excel] *)

(** [new_sheet.cell(row, column, value)]: the cell that is set *)
Definition cell (row column : nat) (v : value) : M (nat * nat * value) :=
  stored ← lift (Openpyxl.bind_value v);
  modify (set_sheet_cells (fun l => l ++ [(row, column, v)]));;
  mret (row, column, stored).

(** the body of the loop: the three cells of one record *)
Definition write_row (rd : nat * loc) : M cells :=
  let '(row_idx, row_data) := rd in
  lib ← load row_data KLibrary;
  c1 ← cell row_idx 6 lib;
  vul ← load row_data KVulnerabilities;
  c2 ← cell row_idx 7 vul;
  dat ← load row_data KDate;
  c3 ← cell row_idx 9 dat;
  mret [c1; c2; c3].

(** [load_workbook] gives the sheets of the file.  The copy of the first
    sheet is added at the end, gets its title, and the sheet found under
    that title is moved to the front; the workbook is saved.  The cells are
    then set on [new_sheet], which is the sheet at position [at_new], and
    the workbook is saved again. *)
Definition write_excel (now : datetime) (dependencies : list loc) : M unit :=
  workbook ← gets book;
  sheet_to_duplicate ← lift (index workbook 0);
  let new_sheet := Openpyxl.copy_worksheet workbook sheet_to_duplicate in
  let formatted_date := Fmt.strftime_Ymd now in
  let title :=
    Openpyxl.set_title (map fst workbook ++ [new_sheet.1]) new_sheet.1
                       ("t" +:+ formatted_date) in
  modify (set_sheet_title (Some title));;
  let sheets := workbook ++ [(title, new_sheet.2)] in
  i ← lift (Openpyxl.index_of title (map fst sheets));
  moved ← lift (index sheets i);
  let sheets := moved :: delete i sheets in
  let at_new := if i =? length workbook then 0 else length workbook in
  modify (set_book sheets);;
  written ← collect (enumerate_from 3 dependencies) write_row;
  modify (set_book (alter (fun ws => (ws.1, ws.2 ++ concat written))
                          at_new sheets)).

(** ** [run]

    The workbook file at [excelPath] is read twice: pandas reads the cells
    of its first sheet, which are the argument, and openpyxl lists its
    sheets, which are the [book] of the state. *)

Definition run (excelPath : workbook) (br : browser) (now1 now2 : datetime) : M unit :=
  dependencies ← load_excel excelPath;
  dependencies ← scrape_data br dependencies;
  write_json now1 dependencies;;
  write_excel now2 dependencies.

(** ** Vocabulary of the specification *)

(** the texts of the first body row paired with the header labels, as the
    inner loop writes them: a label that occurs twice keeps the later cell *)
Definition pair_cells (r : gmap string string) (hs : list string)
    (cs : list (option string)) : gmap string string :=
  foldl (fun r hc => <[hc.1 := default EmptyString hc.2]> r) r (zip hs cs).

(** the [try] block runs to its end *)
Definition completes (p : page) : bool :=
  match p with
  | Unreachable => false
  | Versions hs cs => bool_decide (length cs ≤ length hs)
  end.

(** the raw outcome appended for a page *)
Definition row_of_page (p : page) : gmap string string :=
  match p with
  | Unreachable => default_row
  | Versions hs cs => if completes p then pair_cells ∅ hs cs else default_row
  end.

(** the key under which the handler files the url, if the handler runs:
    the loop variable [i] is the position of the record until the inner loop
    has used it for the cells *)
Definition failure_key (k : nat) (p : page) : option nat :=
  match p with
  | Unreachable => Some k
  | Versions hs cs => if completes p then None else Some (length hs)
  end.

Definition file_failure (k : nat) (p : page) (u : value)
    (m : gmap nat value) : gmap nat value :=
  match failure_key k p with
  | Some j => <[j := u]> m
  | None => m
  end.

(** sessions launched and not closed, latest first *)
Fixpoint open_sessions (acc : list nat) (l : list event) : list nat :=
  match l with
  | [] => acc
  | Launch h :: l' => open_sessions (h :: acc) l'
  | Close h :: l' => open_sessions (filter (fun x => x ≠ h) acc) l'
  | _ :: l' => open_sessions acc l'
  end.

(** the session of one record *)
Definition session (h : nat) (u : value) : list event :=
  [Launch h; Get h u; Close h].

(** the form a field takes in the JSON file *)
Definition json_value (v : value) : value :=
  match v with
  | VStr s => VStr s
  | VNaN => VStr EmptyString
  | VDatetime d => VStr (Fmt.isoformat d)
  | VNaN64 => VStr EmptyString
  | VNaT => VStr "NaT"
  end.

Definition json_form (d : dependency) : dependency :=
  Dependency (json_value (library d)) (json_value (vulnerabilities d))
             (json_value (date d)) (json_value (url d)).

(** a row under the label row holds a text, or a date, in column [c] *)
Definition holds_text (sh : sheet) (c : nat) : bool :=
  existsb (fun row => match row !! c with Some (VStr _) => true | _ => false end)
          (drop 1 sh).

Definition holds_date (sh : sheet) (c : nat) : bool :=
  existsb (fun row => match row !! c with Some (VDatetime _) => true | _ => false end)
          (drop 1 sh).

(** what is read in the cell of a sheet at a row and a column counted from
    0: the text or the date the cell holds, and for an empty or missing cell
    the marker of the column, which is [nan] under a text, [NaT] under dates
    and the [nan] of numpy in a column with nothing in it *)
Definition sheet_cell (sh : sheet) (r c : nat) : value :=
  match nth r sh [] !! c with
  | Some (VStr t) => VStr t
  | Some (VDatetime d) => VDatetime d
  | _ => if holds_text sh c then VNaN
         else if holds_date sh c then VNaT
         else VNaN64
  end.

Definition record_of_row (sh : sheet) (r : nat) : dependency :=
  Dependency (sheet_cell sh r 5) (sheet_cell sh r 6)
             (sheet_cell sh r 8) (sheet_cell sh r 10).

(** the sessions of consecutive records, the first one on handle [h] *)
Fixpoint sessions (h : nat) (us : list value) : list event :=
  match us with
  | [] => []
  | u :: us' => session h u ++ sessions (S h) us'
  end.

(** the raw outcomes of the records from position [k] on, given their urls *)
Fixpoint raw_rows (br : browser) (k : nat) (us : list value)
    : list (gmap string string) :=
  match us with
  | [] => []
  | u :: us' => row_of_page (br k u) :: raw_rows br (S k) us'
  end.

(** the failure map after the records from position [k] on *)
Fixpoint failures (br : browser) (k : nat) (us : list value)
    (m : gmap nat value) : gmap nat value :=
  match us with
  | [] => m
  | u :: us' => failures br (S k) us' (file_failure k (br k u) u m)
  end.

Definition urls_of (s : state) (deps : list loc) : list value :=
  map (fun dep => url (heap s dep)) deps.

Definition launches (s : state) : nat := length (List.filter is_launch (log s)).

(** what the scrape loop over [deps], numbered from [k], makes of [s] *)
Record scrape_loop_post (br : browser) (k : nat) (deps : list loc)
    (s s' : state) : Prop := ScrapeLoopPost {
  slp_heap : heap s' = heap s;
  slp_next_loc : next_loc s' = next_loc s;
  slp_files : files s' = files s;
  slp_sheet_title : sheet_title s' = sheet_title s;
  slp_sheet_cells : sheet_cells s' = sheet_cells s;
  slp_log : log s' = log s ++ sessions (launches s) (urls_of s deps);
  slp_rows : first_rows_of_version_table s' =
             first_rows_of_version_table s ++ raw_rows br k (urls_of s deps);
  slp_failed : failed_url s' = failures br k (urls_of s deps) (failed_url s);
  slp_driver : driver s' =
               match deps with
               | [] => driver s
               | _ => Some (launches s + length deps - 1)
               end
}.

Definition is_ok {A} (r : result A) : bool :=
  match r with Ok _ => true | Raise _ => false end.

(** a raw outcome the formatting phase can digest: the three labels are
    there, the date is empty or well formed, the vulnerabilities text is
    empty or has a word *)
Definition normalizable (row : gmap string string) : bool :=
  match row !! "Version", row !! "Date", row !! "Vulnerabilities" with
  | Some _, Some d, Some vu =>
      is_ok (formatDate (VStr d)) && is_ok (formatVulnerability (VStr vu))
  | _, _, _ => false
  end.

(** a library cell that holds text or the absent marker *)
Definition is_text (v : value) : bool :=
  match v with
  | VStr _ | VNaN => true
  | _ => false
  end.

(** the first of the three labels, in the order the formatting phase reads
    them, that a raw outcome lacks *)
Definition missing_key (row : gmap string string) : option string :=
  match row !! "Version", row !! "Date", row !! "Vulnerabilities" with
  | None, _, _ => Some "Version"
  | Some _, None, _ => Some "Date"
  | Some _, Some _, None => Some "Vulnerabilities"
  | Some _, Some _, Some _ => None
  end.

(** the state in which the formatting phase of [scrape_data] starts *)
Record scraped_all (br : browser) (deps : list loc) (s s2 : state) : Prop :=
  ScrapedAll {
  sa_heap : heap s2 = heap s;
  sa_next_loc : next_loc s2 = next_loc s;
  sa_files : files s2 = files s;
  sa_sheet_title : sheet_title s2 = sheet_title s;
  sa_sheet_cells : sheet_cells s2 = sheet_cells s;
  sa_rows : first_rows_of_version_table s2 = raw_rows br 0 (urls_of s deps);
  sa_failed : failed_url s2 = failures br 0 (urls_of s deps) ∅;
  sa_log : log s2 = log s ++ sessions (launches s) (urls_of s deps)
                      ++ [Quit (launches s + length deps - 1)]
}.

(** ** Tokens and segments of a library name *)

(** the tokens written one after the other *)
Fixpoint cat (l : list string) : string :=
  match l with
  | [] => EmptyString
  | x :: l' => x +:+ cat l'
  end.

Definition free_of (c : ascii) (s : string) : Prop := ¬ Str.contains c s.

(** [ext] is the final dot-delimited segment of [tok] *)
Definition final_segment (tok ext : string) : Prop :=
  free_of "." ext
  /\ (tok = ext \/ exists pre, tok = pre +:+ "." +:+ ext).

(** ** The pattern "abbreviated month, day, comma, four-digit year" *)

Module Pattern.

Local Open Scope Z_scope.

(** one or more whitespace characters *)
Definition whitespace1 (ws : string) : Prop :=
  ws ≠ EmptyString /\ Str.all Str.isspace ws = true.

(** [mon] spells, in any case, the abbreviated name of month [m] *)
Definition month_text (m : Z) (mon : string) : Prop :=
  1 <= m /\
  Strptime.month_abbr !! Z.to_nat (m - 1) = Some (Strptime.lower_string mon).

(** [dd] is the day [d] of a month in one or two digits *)
Definition day_text (d : Z) (dd : string) : Prop :=
  (exists c, dd = String c EmptyString /\ Str.isdigit c = true
             /\ d = Str.digit_value c /\ 1 <= d)
  \/ (exists c1 c2, dd = String c1 (String c2 EmptyString)
                    /\ Str.isdigit c1 = true /\ Str.isdigit c2 = true
                    /\ d = 10 * Str.digit_value c1 + Str.digit_value c2
                    /\ 1 <= d <= 31).

(** [yyyy] is the year [y] in four digits *)
Definition year_text (y : Z) (yyyy : string) : Prop :=
  exists a b c e,
    yyyy = String a (String b (String c (String e EmptyString)))
    /\ Str.isdigit a = true /\ Str.isdigit b = true
    /\ Str.isdigit c = true /\ Str.isdigit e = true
    /\ y = 1000 * Str.digit_value a + 100 * Str.digit_value b
           + 10 * Str.digit_value c + Str.digit_value e.

Definition date_pattern (s : string) (y m d : Z) : Prop :=
  exists mon ws1 dd ws2 yyyy,
    s = mon +:+ ws1 +:+ dd +:+ "," +:+ ws2 +:+ yyyy
    /\ month_text m mon /\ whitespace1 ws1 /\ day_text d dd
    /\ whitespace1 ws2 /\ year_text y yyyy.

(** the text matches the pattern and names a date of the calendar *)
Definition names_date (s : string) (y m d : Z) : Prop :=
  date_pattern s y m d /\ Strptime.valid_date y m d = true.

End Pattern.

(** the record built from row [i] of four columns *)
Definition row_at (libs vuls dats us : list value) (i : nat) : dependency :=
  Dependency (nth i libs VNaN) (nth i vuls VNaN)
             (nth i dats VNaN) (nth i us VNaN).

(** the urls of the records are those of [urls] *)
Definition urls_are (urls : loc -> value) (s : state) : Prop :=
  forall l, url (heap s l) = urls l.

(** the state after the body of the outer loop has run for one record *)
Definition scraped (br : browser) (k : nat) (dep : loc) (i' : nat) (s : state) : state :=
  let u := url (heap s dep) in
  let h := length (List.filter is_launch (log s)) in
  let row := row_of_page (br k u) in
  State (heap s) (next_loc s) (log s ++ session h u)
        (first_rows_of_version_table s ++ [row])
        (file_failure k (br k u) u (failed_url s))
        (Some h) i' row (files s) (sheet_title s) (sheet_cells s) (book s).


(** the rows of the cropped frame *)
Definition cropped_rows (sh : sheet) : list (list value) :=
  map (fun r => take (12 - 5) (drop 5 r))
      (drop 1 (Pandas.infer (map (Pandas.pad (Pandas.width sh)) (drop 1 sh)))).


(** the three cells [write_excel] writes for a record *)
Definition cells_of (s : state) (rd : nat * loc) : list (nat * nat * value) :=
  [(rd.1, 6, library (heap s rd.2));
   (rd.1, 7, vulnerabilities (heap s rd.2));
   (rd.1, 9, date (heap s rd.2))].

(** ** What a cell of a sheet takes and keeps *)

(** a character a cell takes: no control character but the tab, the line
    feed and the carriage return *)
Definition cell_char (c : ascii) : bool :=
  bool_decide (32 ≤ Str.code c \/ Str.code c = 9 \/ Str.code c = 10
               \/ Str.code c = 13).

(** a cell keeps the first 32767 characters of a text *)
Definition cell_limit : N := 32767.

Definition cell_keeps (v : value) : value :=
  match v with
  | VStr t => VStr (Openpyxl.truncate cell_limit t)
  | _ => v
  end.

(** a cell takes every value that is no text, and a text when the
    characters it keeps of it are characters a cell takes *)
Definition cell_takes (v : value) : bool :=
  match v with
  | VStr t => Str.all cell_char (Openpyxl.truncate cell_limit t)
  | _ => true
  end.

Definition takes (c : nat * nat * value) : bool := cell_takes c.2.

Definition keeps (c : nat * nat * value) : nat * nat * value :=
  (c.1.1, c.1.2, cell_keeps c.2).

(** the cells set before the first one that is refused *)
Fixpoint taken (l : cells) : cells :=
  match l with
  | [] => []
  | c :: l' => if takes c then c :: taken l' else []
  end.

(** the title [write_excel] asks for, and the one the new sheet gets in a
    workbook whose sheets are titled [names], the first of them [first] *)
Definition wanted_title (now : datetime) : string :=
  "t" +:+ Fmt.strftime_Ymd now.

Definition copy_title (names : list string) (first : string) : string :=
  Openpyxl.avoid_duplicate_name names (first +:+ " Copy").

Definition new_title (now : datetime) (names : list string) (first : string)
    : string :=
  Openpyxl.avoid_duplicate_name (names ++ [copy_title names first])
                                (wanted_title now).


(** the text [json.dump] writes for one record, line by line *)
Definition example_json : string :=
  let q := String Json.quote EmptyString in
  "[" +:+ Json.nl
  +:+ "    {" +:+ Json.nl
  +:+ "        " +:+ q +:+ "library" +:+ q +:+ ": "
      +:+ q +:+ "foobar-9.9.9.jar" +:+ q +:+ "," +:+ Json.nl
  +:+ "        " +:+ q +:+ "vulnerabilities" +:+ q +:+ ": "
      +:+ q +:+ q +:+ "," +:+ Json.nl
  +:+ "        " +:+ q +:+ "date" +:+ q +:+ ": "
      +:+ q +:+ "2024-01-05T00:00:00" +:+ q +:+ "," +:+ Json.nl
  +:+ "        " +:+ q +:+ "url" +:+ q +:+ ": "
      +:+ q +:+ "http://x" +:+ q +:+ Json.nl
  +:+ "    }" +:+ Json.nl
  +:+ "]".


(** [new] is [old] with its three fields formatted from the raw outcome
    [row] *)
Definition formatted_from (row : gmap string string) (old new : dependency)
    : Prop :=
  exists v d vu,
    row !! "Version" = Some v /\ row !! "Date" = Some d
    /\ row !! "Vulnerabilities" = Some vu
    /\ formatLibrary (library old) (VStr v) = Ok (library new)
    /\ formatVulnerability (VStr vu) = Ok (vulnerabilities new)
    /\ formatDate (VStr d) = Ok (date new)
    /\ url new = url old.

(** what [scrape_data] writes to: neither the files nor the sheet *)
Definition outputs_are (f : list (string * string)) (t : option string)
    (c : list (nat * nat * value)) (s : state) : Prop :=
  files s = f /\ sheet_title s = t /\ sheet_cells s = c.

(** ** Reading a JSON text back

    A reader of the JSON texts that are arrays of objects whose values are
    strings.  It gives what [json.load] gives for such a text, an object
    being the list of its members in the order of the text. *)

Module Reader.

(** the whitespace of JSON *)
Definition space (c : ascii) : bool :=
  let n := Str.code c in (n =? 32) || (n =? 10) || (n =? 13) || (n =? 9).

Fixpoint skip (s : string) : string :=
  match s with
  | String c s' => if space c then skip s' else s
  | EmptyString => s
  end.

Definition hex (c : ascii) : option nat :=
  let n := Str.code c in
  if (48 <=? n) && (n <=? 57) then Some (n - 48)
  else if (97 <=? n) && (n <=? 102) then Some (n - 87)
  else if (65 <=? n) && (n <=? 70) then Some (n - 55)
  else None.

(** the character a backslash and [e] stand for *)
Definition escaped (e : ascii) : option ascii :=
  let n := Str.code e in
  if n =? 34 then Some e
  else if n =? 92 then Some e
  else if n =? 47 then Some e
  else if n =? 98 then Some (ascii_of_nat 8)
  else if n =? 102 then Some (ascii_of_nat 12)
  else if n =? 110 then Some (ascii_of_nat 10)
  else if n =? 114 then Some (ascii_of_nat 13)
  else if n =? 116 then Some (ascii_of_nat 9)
  else None.

(** the text of a string literal, read after its opening quote, and what
    follows its closing quote; a control character has to be escaped, and
    the characters of this development are those below 256 *)
Fixpoint literal (s : string) : option (string * string) :=
  match s with
  | EmptyString => None
  | String c r =>
      if Str.code c =? 34 then Some (EmptyString, r)
      else if Str.code c =? 92 then
        match r with
        | String e r' =>
            match escaped e with
            | Some x => '(t, rest) ← literal r'; Some (String x t, rest)
            | None =>
                if Str.code e =? 117 then
                  match r' with
                  | String h1 (String h2 (String h3 (String h4 r''))) =>
                      a ← hex h1; b ← hex h2; c ← hex h3; d ← hex h4;
                      let n := 4096 * a + 256 * b + 16 * c + d in
                      if n <? 256
                      then '(t, rest) ← literal r'';
                           Some (String (ascii_of_nat n) t, rest)
                      else None
                  | _ => None
                  end
                else None
            end
        | EmptyString => None
        end
      else if Str.code c <? 32 then None
      else '(t, rest) ← literal r; Some (String c t, rest)
  end.

(** a string literal at the start of [s] *)
Definition text (s : string) : option (string * string) :=
  match s with
  | String c r => if Str.code c =? 34 then literal r else None
  | EmptyString => None
  end.

(** the members of an object, read after its opening brace or after a
    comma, up to its closing brace *)
Fixpoint members (fuel : nat) (s : string)
    : option (list (string * string) * string) :=
  match fuel with
  | O => None
  | S fuel' =>
      '(k, r1) ← text (skip s);
      match skip r1 with
      | String ":" r2 =>
          '(v, r3) ← text (skip r2);
          match skip r3 with
          | String "," r4 =>
              '(ms, r5) ← members fuel' r4; Some ((k, v) :: ms, r5)
          | String "}" r4 => Some ([(k, v)], r4)
          | _ => None
          end
      | _ => None
      end
  end.

Definition object (fuel : nat) (s : string)
    : option (list (string * string) * string) :=
  match skip s with
  | String "{" r =>
      match skip r with
      | String "}" r' => Some ([], r')
      | _ => members fuel r
      end
  | _ => None
  end.

(** the elements of an array, read after its opening bracket or after a
    comma, up to its closing bracket *)
Fixpoint elements (fuel : nat) (s : string)
    : option (list (list (string * string)) * string) :=
  match fuel with
  | O => None
  | S fuel' =>
      '(o, r1) ← object fuel s;
      match skip r1 with
      | String "," r2 =>
          '(os, r3) ← elements fuel' r2; Some (o :: os, r3)
      | String "]" r2 => Some ([o], r2)
      | _ => None
      end
  end.

Definition ended (s : string) : bool :=
  match skip s with EmptyString => true | _ => false end.

(** the whole text; no element and no member is shorter than a character,
    so that the length of the text is fuel enough *)
Definition loads (s : string) : option (list (list (string * string))) :=
  match skip s with
  | String "[" r =>
      match skip r with
      | String "]" r' => if ended r' then Some [] else None
      | _ =>
          '(os, r') ← elements (String.length s) r;
          if ended r' then Some os else None
      end
  | _ => None
  end.

End Reader.

(** what is read back for a record: its four members, with the text of
    each *)
Definition member_text (v : value) : string :=
  match json_value v with
  | VStr t => t
  | _ => EmptyString
  end.

Definition read_back (d : dependency) : list (string * string) :=
  [("library", member_text (library d));
   ("vulnerabilities", member_text (vulnerabilities d));
   ("date", member_text (date d));
   ("url", member_text (url d))].

(** the number of spaces a line starts with, and the lines of a text *)
Fixpoint indentation (line : string) : nat :=
  match line with
  | String " " r => S (indentation r)
  | _ => 0
  end.

Definition lines (text : string) : list string := Str.split Json.newline text.

(** the indentation of the lines of an array of [n] objects of four members
    written with an indentation of four spaces *)
Definition pretty_layout (n : nat) : list nat :=
  match n with
  | O => [0]
  | _ => [0] ++ concat (replicate n [4; 8; 8; 8; 8; 4]) ++ [0]
  end.

(** ** The date in the name of the file *)

(** the number a text of digits writes *)
Fixpoint number_from (acc : Z) (s : string) : option Z :=
  match s with
  | EmptyString => Some acc
  | String c r =>
      if Str.isdigit c then number_from (10 * acc + Str.digit_value c) r
      else None
  end.

Definition number (s : string) : option Z := number_from 0 s.

(** [stamp] writes the date as the four digits of the year, the two of the
    month and the two of the day *)
Definition date_stamp (y m d : Z) (stamp : string) : Prop :=
  exists yyyy mm dd,
    stamp = yyyy +:+ mm +:+ dd
    /\ String.length yyyy = 4 /\ String.length mm = 2 /\ String.length dd = 2
    /\ number yyyy = Some y /\ number mm = Some m /\ number dd = Some d.

(** ** Texts a cell takes whole or cut *)




(** ** The lines of the JSON text *)

(** the line of a member, as the encoder writes it for a text *)
Definition member_line (key v : string) : string :=
  Json.indent2 +:+ Json.encode_str key +:+ ": " +:+ Json.encode_str v.

(** the text the encoder writes for a record whose values are texts *)
Definition object_text (l v d u : string) : string :=
  "{" +:+ Json.nl +:+ member_line "library" l +:+ "," +:+ Json.nl
  +:+ member_line "vulnerabilities" v +:+ "," +:+ Json.nl
  +:+ member_line "date" d +:+ "," +:+ Json.nl
  +:+ member_line "url" u +:+ Json.nl +:+ Json.indent1 +:+ "}".

(** a character that does not end a line *)
Definition not_newline (c : ascii) : bool := negb (Ascii.eqb c Json.newline).

(** what the loader and [scrape_data] write: nothing *)
Definition written_are (f : list (string * string)) (c : cells)
    (b : list (string * cells)) (s : state) : Prop :=
  files s = f /\ sheet_cells s = c /\ book s = b.

(** * Reasoning about programs of [M] *)

Section MonadLaws.

Context {A B : Type}.

Lemma run_bind (m : M A) (f : A -> M B) (s : state) :
  (m ≫= f) s = match m s with
               | (Ok a, s') => f a s'
               | (Raise e, s') => (Raise e, s')
               end.
Proof. reflexivity. Qed.

Lemma run_bind_ok (m : M A) (f : A -> M B) (s s' : state) (a : A) :
  m s = (Ok a, s') -> (m ≫= f) s = f a s'.
Proof. intros H. rewrite run_bind, H. reflexivity. Qed.

Lemma run_bind_raise (m : M A) (f : A -> M B) (s s' : state) (e : exn) :
  m s = (Raise e, s') -> (m ≫= f) s = (Raise e, s').
Proof. intros H. rewrite run_bind, H. reflexivity. Qed.

End MonadLaws.

(** running the primitive steps of a program on a given state *)
Ltac setters :=
  unfold set_heap, set_next_loc, set_log, set_first_rows, set_failed_url,
    set_driver, set_i, set_rowData, set_files, set_sheet_title,
    set_sheet_cells, set_book in *.

Ltac mrun :=
  unfold load, store;
  unfold mbind, M_bind, mret, M_ret, gets, modify, lift, raise;
  setters; simpl.

Lemma for_each_cons {A} (x : A) (l : list A) (body : A -> M unit) (s : state) :
  for_each (x :: l) body s =
  match body x s with
  | (Ok _, s') => for_each l body s'
  | (Raise e, s') => (Raise e, s')
  end.
Proof. reflexivity. Qed.

Lemma for_each_app {A} (l1 l2 : list A) (body : A -> M unit) (s : state) :
  for_each (l1 ++ l2) body s =
  match for_each l1 body s with
  | (Ok _, s') => for_each l2 body s'
  | (Raise e, s') => (Raise e, s')
  end.
Proof.
  revert s. induction l1 as [|x l1 IH]; intros s; simpl.
  - reflexivity.
  - rewrite !run_bind. destruct (body x s) as [[[]|e] s1]; [apply IH|reflexivity].
Qed.

Lemma enumerate_from_app {A} (n : nat) (l1 l2 : list A) :
  enumerate_from n (l1 ++ l2) =
  enumerate_from n l1 ++ enumerate_from (n + length l1) l2.
Proof.
  revert n. induction l1 as [|x l1 IH]; intros n; simpl.
  - by rewrite Nat.add_0_r.
  - rewrite IH. do 3 f_equal. lia.
Qed.

Lemma enumerate_from_length {A} (n : nat) (l : list A) :
  length (enumerate_from n l) = length l.
Proof. revert n. induction l; intros; simpl; auto. Qed.

Lemma enumerate_from_lookup {A} (n : nat) (l : list A) (j : nat) (x : A) :
  l !! j = Some x -> enumerate_from n l !! j = Some (n + j, x).
Proof.
  revert n j. induction l as [|y l IH]; intros n [|j] H; simplify_eq/=.
  - by rewrite Nat.add_0_r.
  - rewrite (IH (S n) j H). do 2 f_equal. lia.
Qed.

(** ** Properties of the state that a program keeps, however it ends *)

Definition preserves {A} (P : state -> Prop) (m : M A) : Prop :=
  forall s, P s -> P (m s).2.

Section Preserves.

Variable P : state -> Prop.

Lemma preserves_ret {A} (a : A) : preserves P (mret a).
Proof. intros s H. exact H. Qed.

Lemma preserves_raise {A} (e : exn) : preserves P (@raise A e).
Proof. intros s H. exact H. Qed.

Lemma preserves_lift {A} (r : result A) : preserves P (lift r).
Proof. intros s H. exact H. Qed.

Lemma preserves_gets {A} (f : state -> A) : preserves P (gets f).
Proof. intros s H. exact H. Qed.

Lemma preserves_modify (f : state -> state) :
  (forall s, P s -> P (f s)) -> preserves P (modify f).
Proof. intros Hf s H. apply Hf, H. Qed.

Lemma preserves_bind {A B} (m : M A) (f : A -> M B) :
  preserves P m -> (forall a, preserves P (f a)) -> preserves P (m ≫= f).
Proof.
  intros Hm Hf s H. rewrite run_bind.
  specialize (Hm s H). destruct (m s) as [[a|e] s1]; simpl in *.
  - apply Hf, Hm.
  - exact Hm.
Qed.

Lemma preserves_for_each {A} (l : list A) (body : A -> M unit) :
  (forall x, preserves P (body x)) -> preserves P (for_each l body).
Proof.
  intros Hb. induction l as [|x l IH]; simpl.
  - apply preserves_ret.
  - apply preserves_bind; [apply Hb|intros _; exact IH].
Qed.

Lemma preserves_collect {A B} (l : list A) (f : A -> M B) :
  (forall x, preserves P (f x)) -> preserves P (collect l f).
Proof.
  intros Hf. induction l as [|x l IH]; simpl.
  - apply preserves_ret.
  - apply preserves_bind; [apply Hf|intros y].
    apply preserves_bind; [exact IH|intros ys; apply preserves_ret].
Qed.

Lemma preserves_try (body handler final : M unit) :
  preserves P body -> preserves P handler -> preserves P final ->
  preserves P (try_except_finally body handler final).
Proof.
  intros Hb Hh Hf s H. unfold try_except_finally.
  specialize (Hb s H). destruct (body s) as [[[]|e] s1]; simpl in *.
  - apply Hf, Hb.
  - specialize (Hh s1 Hb). destruct (handler s1) as [[[]|e'] s2]; simpl in *.
    + apply Hf, Hh.
    + specialize (Hf s2 Hh). by destruct (final s2) as [[[]|e''] s3].
Qed.

Lemma preserves_the_driver : preserves P the_driver.
Proof. intros s H. unfold the_driver. destruct (driver s); exact H. Qed.

Lemma preserves_webdriver_Chrome :
  (forall s f, P s -> P (set_log f s)) -> preserves P webdriver_Chrome.
Proof. intros Hf s H. apply Hf, H. Qed.

Lemma preserves_load (dep : loc) (k : key) : preserves P (load dep k).
Proof. intros s H. exact H. Qed.

End Preserves.

(** the structural steps of a preservation proof *)
Ltac preserve_step :=
  lazymatch goal with
  | |- preserves _ (mret _) => apply preserves_ret
  | |- preserves _ (raise _) => apply preserves_raise
  | |- preserves _ (lift _) => apply preserves_lift
  | |- preserves _ (gets _) => apply preserves_gets
  | |- preserves _ the_driver => apply preserves_the_driver
  | |- preserves _ (load _ _) => apply preserves_load
  | |- preserves _ webdriver_Chrome =>
      apply preserves_webdriver_Chrome; intros ? ? ?
  | |- preserves _ (mbind _ _) => apply preserves_bind; [|intros ?]
  | |- preserves _ (for_each _ _) => apply preserves_for_each; intros ?
  | |- preserves _ (collect _ _) => apply preserves_collect; intros ?
  | |- preserves _ (try_except_finally _ _ _) => apply preserves_try
  | |- preserves _ (modify _) => apply preserves_modify; intros ? ?
  | |- preserves _ (let '(_, _) := ?x in _) => destruct x
  end.

Ltac preserve := repeat preserve_step.

(** * What [scrape_data] leaves alone *)

Lemma setitem_url (k : key) (v : value) (d : dependency) :
  k ≠ KUrl -> url (setitem k v d) = url d.
Proof. destruct k; intros H; [reflexivity..|congruence]. Qed.

Lemma preserves_store (P : state -> Prop) (dep : loc) (k : key) (v : value) :
  (forall s, P s -> P (set_heap (fun h => <[dep := setitem k v (h dep)]> h) s)) ->
  preserves P (store dep k v).
Proof. intros H. apply preserves_modify, H. Qed.

Section UrlFrame.

Variable urls : loc -> value.


Lemma urls_store (dep : loc) (k : key) (v : value) :
  k ≠ KUrl -> preserves (urls_are urls) (store dep k v).
Proof.
  intros Hk. apply preserves_store. intros s H l. simpl.
  destruct (decide (dep = l)) as [->|Hne].
  - rewrite fn_lookup_insert, setitem_url by done. apply H.
  - rewrite fn_lookup_insert_ne by done. apply H.
Qed.

Lemma urls_scrape_page br k u : preserves (urls_are urls) (scrape_page br k u).
Proof.
  unfold scrape_page, driver_get. preserve; try done.
  destruct (br k u); preserve; try done.
  unfold read_cell. preserve; done.
Qed.

Lemma urls_scrape_one br k dep : preserves (urls_are urls) (scrape_one br k dep).
Proof.
  unfold scrape_one. preserve; try done.
  - apply urls_scrape_page.
  - unfold scrape_failed. preserve; done.
  - unfold driver_close. preserve; done.
Qed.

Lemma urls_format_one deps i : preserves (urls_are urls) (format_one deps i).
Proof.
  unfold format_one. preserve; try done; by apply urls_store.
Qed.

Lemma urls_scrape_data br deps : preserves (urls_are urls) (scrape_data br deps).
Proof.
  unfold scrape_data, scrape_loop, format_loop, driver_quit.
  preserve; try done.
  - apply urls_scrape_one.
  - apply urls_format_one.
Qed.

End UrlFrame.

Lemma result_of_bind_ret {A B} (m : M A) (b : B) (s : state) (out : B) :
  ((m ;; mret b) s).1 = Ok out -> out = b.
Proof.
  rewrite run_bind. destruct (m s) as [[a|e] s1]; simpl; congruence.
Qed.

Lemma result_of_bind {A B} (m : M A) (f : A -> M B) (s : state) (out : B) :
  ((m ≫= f) s).1 = Ok out ->
  exists a s1, m s = (Ok a, s1) /\ (f a s1).1 = Ok out.
Proof.
  rewrite run_bind. destruct (m s) as [[a|e] s1]; simpl; [eauto|congruence].
Qed.

Lemma scrape_data_returns_its_argument br deps s out :
  (scrape_data br deps s).1 = Ok out -> out = deps.
Proof.
  unfold scrape_data. intros H.
  repeat (apply result_of_bind in H as (? & ? & _ & H)).
  simpl in H. congruence.
Qed.

(** C8: the url of every record is the same after [scrape_data] as before,
    whether the scrape of the record failed or not and whether the function
    returns or raises; the list it returns is the list it was given, so
    each returned record still carries the url loaded for it; the three
    assignments of the formatting phase go to the other keys. *)
Theorem url_never_mutated (br : browser) (dependencies : list loc) (s : state) :
  (forall dep, url (heap (scrape_data br dependencies s).2 dep) = url (heap s dep))
  /\ (forall out, (scrape_data br dependencies s).1 = Ok out -> out = dependencies)
  /\ (forall dep k v d, k ∈ [KDate; KLibrary; KVulnerabilities] ->
        url (heap (store dep k v s).2 d) = url (heap s d)).
Proof.
  split; [|split].
  - intros dep.
    apply (urls_scrape_data (fun l => url (heap s l)) br dependencies s).
    intros l. reflexivity.
  - intros out. apply scrape_data_returns_its_argument.
  - intros dep k v d Hk.
    apply (urls_store (fun l => url (heap s l)) dep k v); [|by intros l].
    intros ->. rewrite !elem_of_cons, elem_of_nil in Hk.
    destruct Hk as [?|[?|[?|[]]]]; discriminate.
Qed.

(** * Splitting and joining *)

Lemma append_cons (c : ascii) (s t : string) :
  String c s +:+ t = String c (s +:+ t).
Proof. reflexivity. Qed.

Lemma append_nil_l (t : string) : EmptyString +:+ t = t.
Proof. reflexivity. Qed.

Lemma append_nil_r (s : string) : s +:+ EmptyString = s.
Proof.
  induction s as [|c s IH]; [done|]. by rewrite append_cons, IH.
Qed.

Lemma append_assoc (a b c : string) : (a +:+ b) +:+ c = a +:+ b +:+ c.
Proof.
  induction a as [|x a IH]; [done|]. by rewrite !append_cons, IH.
Qed.

Lemma free_of_cons (sep c : ascii) (s : string) :
  free_of sep (String c s) <-> c ≠ sep /\ free_of sep s.
Proof.
  unfold free_of, Str.contains. simpl. split.
  - intros H. split; [intros ->|intros H']; apply H; auto.
  - intros [Hc Hs] [->|H]; auto.
Qed.

Lemma free_of_nil (sep : ascii) : free_of sep EmptyString.
Proof. intros []. Qed.

Lemma free_of_app (c : ascii) (a b : string) :
  free_of c (a +:+ b) <-> free_of c a /\ free_of c b.
Proof.
  induction a as [|x a IH].
  - rewrite append_nil_l. split; [intros H; split; [apply free_of_nil|done]|].
    by intros [_ H].
  - rewrite append_cons, !free_of_cons, IH. tauto.
Qed.

Lemma split_nonempty (sep : ascii) (s : string) : Str.split sep s ≠ [].
Proof.
  destruct s as [|c s]; simpl; [done|].
  destruct (Ascii.eqb c sep); [done|]. by destruct (Str.split sep s).
Qed.

Lemma split_cons_sep (sep : ascii) (s : string) :
  Str.split sep (String sep s) = EmptyString :: Str.split sep s.
Proof. simpl. by rewrite Ascii.eqb_refl. Qed.

Lemma split_cons_other (sep c : ascii) (s t : string) (ts : list string) :
  c ≠ sep -> Str.split sep s = t :: ts ->
  Str.split sep (String c s) = String c t :: ts.
Proof.
  intros Hc Hs. simpl. rewrite Hs.
  destruct (Ascii.eqb_spec c sep); [done|reflexivity].
Qed.

(** a separator between two texts puts the pieces of one before the pieces
    of the other *)
Lemma split_app (sep : ascii) (a b : string) :
  Str.split sep (a +:+ String sep b) = Str.split sep a ++ Str.split sep b.
Proof.
  induction a as [|c a IH].
  - rewrite append_nil_l. by rewrite split_cons_sep.
  - rewrite append_cons. simpl Str.split at 1 2.
    destruct (Ascii.eqb c sep).
    + by rewrite IH.
    + rewrite IH. destruct (Str.split sep a) eqn:Ha; [|done].
      by apply split_nonempty in Ha.
Qed.

Lemma split_free (sep : ascii) (s : string) :
  free_of sep s -> Str.split sep s = [s].
Proof.
  induction s as [|c s IH]; intros H; [done|].
  apply free_of_cons in H as [Hc Hs].
  by apply split_cons_other; [|apply IH].
Qed.

Lemma split_pieces_free (sep : ascii) (s : string) :
  Forall (free_of sep) (Str.split sep s).
Proof.
  induction s as [|c s IH]; simpl.
  - constructor; [apply free_of_nil|constructor].
  - destruct (Ascii.eqb_spec c sep) as [->|Hne].
    + constructor; [apply free_of_nil|exact IH].
    + destruct (Str.split sep s) as [|t ts]; [repeat constructor|].
      * apply free_of_cons. split; [done|apply free_of_nil].
      * inversion IH; subst. constructor; [|done].
        apply free_of_cons. by split.
Qed.

Lemma join_cons (sep x y : string) (l : list string) :
  Str.join sep (x :: y :: l) = x +:+ sep +:+ Str.join sep (y :: l).
Proof. reflexivity. Qed.

Lemma split_join (sep : ascii) (l : list string) :
  l ≠ [] -> Forall (free_of sep) l ->
  Str.split sep (Str.join (String sep EmptyString) l) = l.
Proof.
  induction l as [|x l IH]; intros Hne Hall; [done|].
  inversion Hall as [|? ? Hx Hl]; subst.
  destruct l as [|y l].
  - simpl. by apply split_free.
  - rewrite join_cons, append_cons, append_nil_l.
    rewrite split_app, (split_free _ _ Hx), IH by done. reflexivity.
Qed.

Lemma join_split (sep : ascii) (s : string) :
  Str.join (String sep EmptyString) (Str.split sep s) = s.
Proof.
  induction s as [|c s IH]; [done|]. simpl Str.split.
  destruct (Ascii.eqb_spec c sep) as [->|Hne].
  - pose proof (split_nonempty sep s) as Hn.
    destruct (Str.split sep s) as [|t ts]; [done|].
    rewrite join_cons in *. by rewrite append_nil_l, append_cons, IH.
  - pose proof (split_nonempty sep s) as Hn.
    destruct (Str.split sep s) as [|t ts]; [done|].
    destruct ts as [|t' ts].
    + simpl in *. by rewrite IH.
    + rewrite join_cons in *. by rewrite append_cons, IH.
Qed.

Lemma join_empty_cat (l : list string) : Str.join EmptyString l = cat l.
Proof.
  induction l as [|x l IH]; [done|]. destruct l as [|y l].
  - simpl. by rewrite append_nil_r.
  - rewrite join_cons, IH. reflexivity.
Qed.

Lemma join_snoc (sep : string) (l : list string) (x y : string) :
  Str.join sep (l ++ [x; y]) = Str.join sep (l ++ [x]) +:+ sep +:+ y.
Proof.
  induction l as [|z l IH]; [done|].
  destruct l as [|z' l].
  - simpl. by rewrite !append_assoc.
  - change ((z :: z' :: l) ++ [x; y]) with (z :: z' :: (l ++ [x; y])).
    change ((z :: z' :: l) ++ [x]) with (z :: z' :: (l ++ [x])).
    rewrite !join_cons. change (z' :: l ++ [x; y]) with ((z' :: l) ++ [x; y]).
    rewrite IH. simpl app. by rewrite !append_assoc.
Qed.

Lemma last_snoc (l : list string) (x : string) : Str.last (l ++ [x]) = x.
Proof. unfold Str.last. apply last_last. Qed.

Lemma init_snoc (l : list string) (x : string) : Str.init (l ++ [x]) = l.
Proof. unfold Str.init. apply removelast_last. Qed.

Lemma last_split_app (sep : ascii) (a b : string) :
  Str.last (Str.split sep (a +:+ String sep b)) = Str.last (Str.split sep b).
Proof.
  rewrite split_app. unfold Str.last.
  destruct (exists_last (split_nonempty sep b)) as (l & x & ->).
  by rewrite app_assoc, !last_last.
Qed.

(** the last piece of a split at the dot is the final segment *)
Lemma last_split_final (tok ext : string) :
  final_segment tok ext -> Str.last (Str.split "." tok) = ext.
Proof.
  intros [Hfree [->|[pre ->]]].
  - by rewrite split_free.
  - rewrite append_cons, append_nil_l. by rewrite last_split_app, split_free.
Qed.

Lemma final_segment_last (tok : string) :
  final_segment tok (Str.last (Str.split "." tok)).
Proof.
  pose proof (split_pieces_free "." tok) as Hfree.
  pose proof (join_split "." tok) as Hjoin.
  destruct (exists_last (split_nonempty "." tok)) as (l & x & Hl).
  rewrite Hl in *. rewrite last_snoc. split.
  - apply Forall_app in Hfree as [_ Hx]. by inversion Hx.
  - destruct (decide (l = [])) as [->|Hne].
    + left. by simpl in Hjoin.
    + right. destruct (exists_last Hne) as (l' & y & ->).
      rewrite <- app_assoc in Hjoin. simpl in Hjoin.
      rewrite join_snoc in Hjoin. eexists. symmetry. exact Hjoin.
Qed.

(** * [strptime] against the pattern *)

Section StrptimeFacts.

Import Pattern Strptime.
Local Open Scope Z_scope.

Lemma digit_not_space (c : ascii) :
  Str.isdigit c = true -> Str.isspace c = false.
Proof.
  destruct c as [[] [] [] [] [] [] [] []]; vm_compute; congruence.
Qed.

Lemma digit_not_comma (c : ascii) :
  Str.isdigit c = true -> Ascii.eqb c "," = false.
Proof.
  destruct c as [[] [] [] [] [] [] [] []]; vm_compute; congruence.
Qed.

Lemma skip_ws_split (s : string) :
  exists ws, s = ws +:+ skip_ws s /\ Str.all Str.isspace ws = true.
Proof.
  induction s as [|c s (ws & Hs & Hws)].
  - by exists EmptyString.
  - simpl. destruct (Str.isspace c) eqn:Hc.
    + exists (String c ws). rewrite append_cons, <- Hs. split; [done|].
      unfold Str.all in *. simpl. by rewrite Hc.
    + by exists EmptyString.
Qed.

Lemma skip_ws_app (ws r : string) (c : ascii) :
  Str.all Str.isspace ws = true -> Str.isspace c = false ->
  skip_ws (ws +:+ String c r) = String c r.
Proof.
  intros Hws Hc. induction ws as [|x ws IH].
  - rewrite append_nil_l. simpl. by rewrite Hc.
  - unfold Str.all in Hws. simpl in Hws. apply andb_true_iff in Hws as [Hx Hws].
    rewrite append_cons. simpl. rewrite Hx. by apply IH.
Qed.

Lemma spaces1_sound (s r : string) :
  spaces1 s = Some r -> exists ws, s = ws +:+ r /\ whitespace1 ws.
Proof.
  destruct s as [|c s]; [done|]. simpl.
  destruct (Str.isspace c) eqn:Hc; [|done]. intros [= <-].
  destruct (skip_ws_split s) as (ws & Hs & Hws).
  exists (String c ws). rewrite append_cons, <- Hs. split; [done|].
  split; [done|]. unfold Str.all in *. simpl. by rewrite Hc.
Qed.

Lemma spaces1_complete (ws r : string) (c : ascii) :
  whitespace1 ws -> Str.isspace c = false ->
  spaces1 (ws +:+ String c r) = Some (String c r).
Proof.
  intros [Hne Hws] Hc. destruct ws as [|x ws]; [done|].
  unfold Str.all in Hws. simpl in Hws. apply andb_true_iff in Hws as [Hx Hws].
  rewrite append_cons. simpl. rewrite Hx. f_equal. by apply skip_ws_app.
Qed.

Lemma day_comma_sound (s r : string) (d : Z) :
  day_comma s = Some (d, r) ->
  exists dd, s = dd +:+ "," +:+ r /\ day_text d dd.
Proof.
  destruct s as [|d1 [|c2 s]]; try done. simpl.
  destruct (Ascii.eqb_spec c2 ",") as [->|Hc2].
  - destruct (Str.isdigit d1) eqn:Hd1; [|done]. simpl.
    destruct (1 <=? Str.digit_value d1) eqn:Hle; [|done].
    intros [= <- <-]. exists (String d1 EmptyString). split; [done|].
    left. exists d1. repeat split; try done. by apply Z.leb_le.
  - destruct s as [|c3 s]; [done|].
    destruct (Ascii.eqb_spec c3 ",") as [->|Hc3]; [|done]. simpl.
    destruct (Str.isdigit d1) eqn:Hd1; [|done].
    destruct (Str.isdigit c2) eqn:Hd2; [|done]. simpl.
    destruct (1 <=? _) eqn:Hle; [|done].
    destruct (_ <=? 31) eqn:Hle'; [|done].
    intros [= <- <-]. exists (String d1 (String c2 EmptyString)).
    split; [done|]. right. exists d1, c2.
    apply Z.leb_le in Hle, Hle'. repeat split; done.
Qed.

Lemma day_comma_complete (dd r : string) (d : Z) :
  day_text d dd -> day_comma (dd +:+ "," +:+ r) = Some (d, r).
Proof.
  intros [(c & -> & Hc & -> & Hle)|(c1 & c2 & -> & Hc1 & Hc2 & -> & Hle & Hle')].
  - rewrite !append_cons, !append_nil_l. simpl. rewrite Hc. simpl.
    apply Z.leb_le in Hle. by rewrite Hle.
  - rewrite !append_cons, !append_nil_l. simpl.
    rewrite (digit_not_comma c2 Hc2), Hc1, Hc2. simpl.
    apply Z.leb_le in Hle, Hle'. by rewrite Hle, Hle'.
Qed.

Lemma year_end_iff (s : string) (y : Z) :
  year_end s = Some y <-> year_text y s.
Proof.
  split.
  - destruct s as [|a [|b [|c [|e [|]]]]]; try done. simpl.
    destruct (Str.isdigit a) eqn:Ha; [|done].
    destruct (Str.isdigit b) eqn:Hb; [|done].
    destruct (Str.isdigit c) eqn:Hc; [|done].
    destruct (Str.isdigit e) eqn:He; [|done]. simpl.
    intros [= <-]. exists a, b, c, e. repeat split; done.
  - intros (a & b & c & e & -> & Ha & Hb & Hc & He & ->). simpl.
    by rewrite Ha, Hb, Hc, He.
Qed.

Lemma lower_string_three (mon : string) (x y z : ascii) :
  lower_string mon = String x (String y (String z EmptyString)) ->
  exists a b c, mon = String a (String b (String c EmptyString)).
Proof.
  destruct mon as [|a [|b [|c [|]]]]; try done. by exists a, b, c.
Qed.

Lemma month_text_three (m : Z) (mon : string) :
  month_text m mon ->
  exists a b c, mon = String a (String b (String c EmptyString))
                /\ month_number a b c = Some m.
Proof.
  intros [Hm Hl].
  assert (m = Z.of_nat (S (Z.to_nat (m - 1)))) as Hm' by lia.
  revert Hm' Hl. generalize (Z.to_nat (m - 1)). intros n -> Hl.
  do 12 (destruct n as [|n];
    [ simpl in Hl; injection Hl as Hl; symmetry in Hl;
      destruct (lower_string_three _ _ _ _ Hl) as (a & b & c & ->);
      exists a, b, c; split; [done|];
      unfold month_number; rewrite Hl; reflexivity |]).
  done.
Qed.

Lemma index_from_lookup (x : string) (l : list string) (n m : Z) :
  index_from n x l = Some m ->
  n <= m /\ l !! Z.to_nat (m - n) = Some x.
Proof.
  revert n. induction l as [|y l IH]; intros n; [done|]. simpl.
  destruct (String.eqb_spec x y) as [->|Hne].
  - intros [= <-]. split; [lia|]. by rewrite Z.sub_diag.
  - intros H. apply IH in H as [Hle Hl]. split; [lia|].
    replace (Z.to_nat (m - n)) with (S (Z.to_nat (m - (n + 1)))) by lia.
    done.
Qed.

Lemma month_number_text (a b c : ascii) (m : Z) :
  month_number a b c = Some m ->
  month_text m (String a (String b (String c EmptyString))).
Proof. intros H. by apply index_from_lookup in H. Qed.

(** [strptime] raises nothing but [ValueError] *)
Lemma strptime_raises (s : string) (e : exn) :
  strptime s = Raise e -> e = ValueError.
Proof.
  unfold strptime.
  repeat (match goal with
          | |- context [match ?x with _ => _ end] => destruct x
          end; try congruence).
Qed.

Lemma strptime_sound (s : string) (dt : datetime) :
  strptime s = Ok dt ->
  exists y m d, names_date s y m d /\ dt = at_midnight y m d.
Proof.
  unfold strptime.
  destruct s as [|a [|b [|c r1]]]; try done.
  destruct (month_number a b c) as [m|] eqn:Hm; [|done].
  destruct (spaces1 r1) as [r2|] eqn:H1; [|done].
  destruct (day_comma r2) as [[d r3]|] eqn:H2; [|done].
  destruct (spaces1 r3) as [r4|] eqn:H3; [|done].
  destruct (year_end r4) as [y|] eqn:H4; [|done].
  destruct (valid_date y m d) eqn:Hv; [|done].
  intros [= <-]. exists y, m, d. split; [|done]. split; [|done].
  apply spaces1_sound in H1 as (ws1 & -> & Hws1).
  apply day_comma_sound in H2 as (dd & -> & Hdd).
  apply spaces1_sound in H3 as (ws2 & -> & Hws2).
  apply year_end_iff in H4.
  exists (String a (String b (String c EmptyString))), ws1, dd, ws2, r4.
  split; [done|]. split; [by apply month_number_text|done].
Qed.

Lemma strptime_complete (s : string) (y m d : Z) :
  names_date s y m d -> strptime s = Ok (at_midnight y m d).
Proof.
  intros [(mon & ws1 & dd & ws2 & yyyy & -> & Hm & Hws1 & Hdd & Hws2 & Hy) Hv].
  destruct (month_text_three m mon Hm) as (a & b & c & -> & Hnum).
  remember (ws1 +:+ dd +:+ "," +:+ ws2 +:+ yyyy) as tail eqn:Ht.
  rewrite !append_cons, append_nil_l. subst tail.
  unfold strptime. rewrite Hnum.
  assert (exists x dd', dd = String x dd' /\ Str.isdigit x = true)
    as (x & dd' & -> & Hx).
  { destruct Hdd as [(x & -> & Hx & _)|(x & x' & -> & Hx & _)]; eauto. }
  rewrite append_cons.
  rewrite (spaces1_complete ws1 _ x Hws1 (digit_not_space x Hx)).
  rewrite <- append_cons, (day_comma_complete _ _ d Hdd).
  pose proof Hy as (y1 & y2 & y3 & y4 & -> & Hy1 & _).
  rewrite (spaces1_complete ws2 _ y1 Hws2 (digit_not_space y1 Hy1)).
  apply year_end_iff in Hy. by rewrite Hy, Hv.
Qed.

End StrptimeFacts.

(** * The scrape phase *)

Lemma state_eta (s : state) :
  s = State (heap s) (next_loc s) (log s) (first_rows_of_version_table s)
            (failed_url s) (driver s) (var_i s) (rowData s) (files s)
            (sheet_title s) (sheet_cells s) (book s).
Proof. destruct s; reflexivity. Qed.

Lemma pair_cells_cons r h hs c cs :
  pair_cells r (h :: hs) (c :: cs) =
  pair_cells (<[h := default EmptyString c]> r) hs cs.
Proof. reflexivity. Qed.

Lemma read_cell_run (hs : list string) (j : nat) (c : option string) (s : state) :
  read_cell hs (j, c) s =
  match hs !! j with
  | Some hd =>
      (Ok tt, set_rowData (fun r => <[hd := default EmptyString c]> r) (set_i j s))
  | None => (Raise IndexError, set_i j s)
  end.
Proof.
  unfold read_cell, index. mrun. destruct (hs !! j); reflexivity.
Qed.

(** The inner loop from cell [j] on: it ends normally when the header row
    has a label for every cell, and otherwise raises with [i] at the first
    cell that has none. *)
Lemma read_cells_spec (hs : list string) (cs : list (option string))
    (j : nat) (s : state) :
  j ≤ length hs ->
  exists i' r',
    for_each (enumerate_from j cs) (read_cell hs) s =
      (if bool_decide (j + length cs ≤ length hs) then Ok tt
       else Raise IndexError,
       set_rowData (fun _ => r') (set_i i' s))
    /\ (j + length cs ≤ length hs ->
        r' = pair_cells (rowData s) (drop j hs) cs)
    /\ (¬ j + length cs ≤ length hs -> i' = length hs).
Proof.
  revert j s. induction cs as [|c cs IH]; intros j s Hj.
  - exists (var_i s), (rowData s). simpl.
    rewrite bool_decide_eq_true_2 by lia. split; [|split].
    + f_equal. destruct s; reflexivity.
    + intros _. unfold pair_cells. by destruct (drop j hs).
    + lia.
  - change (enumerate_from j (c :: cs)) with ((j, c) :: enumerate_from (S j) cs).
    rewrite for_each_cons, read_cell_run.
    destruct (hs !! j) as [hd|] eqn:Hhd.
    + apply lookup_lt_Some in Hhd as Hlt.
      destruct (IH (S j)
        (set_rowData (fun r => <[hd := default EmptyString c]> r) (set_i j s)))
        as (i' & r' & Hrun & Hok & Hfail); [lia|].
      exists i', r'. rewrite Hrun. simpl length.
      replace (bool_decide (S j + length cs ≤ length hs))
        with (bool_decide (j + S (length cs) ≤ length hs))
        by (apply bool_decide_ext; lia).
      split; [reflexivity|split].
      * intros H. rewrite Hok by lia. simpl rowData.
        rewrite (drop_S _ _ _ Hhd). reflexivity.
      * intros H. apply Hfail. lia.
    + apply lookup_ge_None in Hhd.
      exists j, (rowData s). simpl length.
      rewrite bool_decide_eq_false_2 by lia.
      split; [|split].
      * f_equal.
      * lia.
      * intros _. lia.
Qed.

Lemma scrape_one_spec (br : browser) (k : nat) (dep : loc) (s : state) :
  exists i', scrape_one br k dep s = (Ok tt, scraped br k dep i' s).
Proof.
  unfold scrape_one, webdriver_Chrome, try_except_finally, scrape_page,
    scrape_failed, driver_get, driver_close, the_driver, scraped.
  mrun.
  set (u := url (heap s dep)). set (h := length (List.filter is_launch (log s))).
  destruct (br k u) as [|hs cs] eqn:Hp.
  - exists k. simpl. unfold session. by rewrite <- !app_assoc.
  - unfold enumerate. simpl.
    match goal with |- context [for_each _ _ ?s0] =>
      destruct (read_cells_spec hs cs 0 s0) as (i' & r' & Hrun & Hok & Hfail);
        [lia|]
    end.
    rewrite Hrun. clear Hrun. simpl in Hok, Hfail.
    exists i'. unfold file_failure, failure_key, row_of_page, completes.
    destruct (decide (length cs ≤ length hs)) as [Hc|Hc].
    + rewrite !bool_decide_eq_true_2 by done. simpl.
      rewrite (Hok Hc), drop_0. unfold session. by rewrite <- !app_assoc.
    + rewrite !bool_decide_eq_false_2 by done. simpl.
      rewrite (Hfail Hc). unfold session. by rewrite <- !app_assoc.
Qed.

Lemma launches_session (l : list event) (h : nat) (u : value) :
  length (List.filter is_launch (l ++ session h u))
  = S (length (List.filter is_launch l)).
Proof. rewrite List.filter_app, length_app. simpl. lia. Qed.

Lemma scrape_loop_from (br : browser) (deps : list loc) (k : nat) (s : state) :
  exists s',
    for_each (enumerate_from k deps) (fun '(k, dep) => scrape_one br k dep) s
      = (Ok tt, s')
    /\ scrape_loop_post br k deps s s'.
Proof.
  revert k s. induction deps as [|dep deps IH]; intros k s.
  - exists s. split; [reflexivity|].
    split; simpl; rewrite ?app_nil_r; reflexivity.
  - change (enumerate_from k (dep :: deps))
      with ((k, dep) :: enumerate_from (S k) deps).
    rewrite for_each_cons.
    destruct (scrape_one_spec br k dep s) as (i' & ->).
    destruct (IH (S k) (scraped br k dep i' s)) as (s' & -> & Hpost).
    exists s'. split; [reflexivity|].
    destruct Hpost as [H1 H2 H3 H4 H5 H6 H7 H8 H9].
    unfold launches, urls_of in *. simpl in *. 
    rewrite launches_session in *.
    split; simpl; try done.
    + rewrite H6. by rewrite <- app_assoc.
    + rewrite H7. by rewrite <- app_assoc.
    + rewrite H9. unfold launches. destruct deps; simpl.
      * f_equal. lia.
      * f_equal. lia.
Qed.

Lemma scrape_loop_spec (br : browser) (deps : list loc) (s : state) :
  exists s', scrape_loop br deps s = (Ok tt, s')
             /\ scrape_loop_post br 0 deps s s'.
Proof. apply scrape_loop_from. Qed.

Lemma raw_rows_length (br : browser) (k : nat) (us : list value) :
  length (raw_rows br k us) = length us.
Proof. revert k. induction us; intros; simpl; auto. Qed.

(** * The loader *)

Lemma alloc_run (d : dependency) (s : state) :
  alloc d s = (Ok (next_loc s),
               set_next_loc (S (next_loc s))
                 (set_heap (fun h => <[next_loc s := d]> h) s)).
Proof. reflexivity. Qed.

Section LoadRows.

Variables libs vuls dats us : list value.

Hypothesis Hvuls : length vuls = length libs.
Hypothesis Hdats : length dats = length libs.
Hypothesis Hus : length us = length libs.

Lemma load_row_run (i : nat) (s : state) :
  i < length libs ->
  load_row libs vuls dats us i s = alloc (row_at libs vuls dats us i) s.
Proof.
  intros Hi. unfold load_row, Pandas.iloc_at, row_at.
  destruct (lookup_lt_is_Some_2 libs i Hi) as [a Ha].
  destruct (lookup_lt_is_Some_2 vuls i ltac:(lia)) as [b Hb].
  destruct (lookup_lt_is_Some_2 dats i ltac:(lia)) as [c Hc].
  destruct (lookup_lt_is_Some_2 us i ltac:(lia)) as [d Hd].
  rewrite !run_bind. unfold lift. rewrite Ha. cbv iota beta.
  rewrite !run_bind. unfold lift. rewrite Hb. cbv iota beta.
  rewrite !run_bind. unfold lift. rewrite Hc. cbv iota beta.
  rewrite !run_bind. unfold lift. rewrite Hd. cbv iota beta.
  by rewrite !(nth_lookup_Some _ _ _ _ Ha), !(nth_lookup_Some _ _ _ _ Hb),
    !(nth_lookup_Some _ _ _ _ Hc), !(nth_lookup_Some _ _ _ _ Hd).
Qed.

Lemma load_rows_run (k i0 : nat) (s : state) :
  i0 + k ≤ length libs ->
  exists s',
    collect (seq i0 k) (load_row libs vuls dats us) s
      = (Ok (seq (next_loc s) k), s')
    /\ next_loc s' = next_loc s + k
    /\ (forall j, j < k ->
          heap s' (next_loc s + j) = row_at libs vuls dats us (i0 + j))
    /\ (forall l, l < next_loc s -> heap s' l = heap s l).
Proof.
  revert i0 s. induction k as [|k IH]; intros i0 s Hk.
  - exists s. simpl. split; [done|split; [lia|split; [intros; lia|done]]].
  - change (seq i0 (S k)) with (i0 :: seq (S i0) k).
    simpl collect. rewrite run_bind, load_row_run, alloc_run by lia.
    match goal with |- context [collect _ _ ≫= _] => idtac end.
    rewrite run_bind.
    match goal with |- context [collect _ _ ?s0] =>
      destruct (IH (S i0) s0) as (s' & -> & Hn & Hnew & Hold); [lia|]
    end.
    simpl in *. exists s'. split; [reflexivity|]. split; [lia|]. split.
    + intros [|j] Hj.
      * rewrite !Nat.add_0_r. rewrite Hold by lia.
        by rewrite fn_lookup_insert.
      * replace (next_loc s + S j) with (S (next_loc s + j)) by lia.
        replace (i0 + S j) with (S (i0 + j)) by lia.
        apply Hnew. lia.
    + intros l Hl. rewrite Hold by lia.
      rewrite fn_lookup_insert_ne by lia. done.
Qed.

End LoadRows.

Lemma width_ge (sh : sheet) (r : list value) :
  r ∈ sh -> length r ≤ Pandas.width sh.
Proof.
  induction sh as [|r0 sh IH]; intros H; [by apply elem_of_nil in H|].
  apply elem_of_cons in H as [->|H]; simpl; [lia|].
  specialize (IH H). lia.
Qed.

Lemma nth_replicate_nan (n i : nat) : nth i (replicate n VNaN) VNaN = VNaN.
Proof. revert i. induction n as [|n IH]; intros [|i]; simpl; auto. Qed.

Lemma nth_pad (w c : nat) (r : list value) :
  c < w -> nth c (Pandas.pad w r) VNaN = nth c r VNaN.
Proof.
  intros Hc. unfold Pandas.pad.
  destruct (decide (c < length r)) as [Hlt|Hge].
  - rewrite app_nth1 by (rewrite length_take; lia).
    destruct (lookup_lt_is_Some_2 r c Hlt) as [v Hv].
    rewrite (nth_lookup_Some _ _ _ _ Hv).
    apply nth_lookup_Some. by rewrite lookup_take_lt.
  - rewrite (nth_overflow r) by lia.
    rewrite app_nth2 by (rewrite length_take; lia).
    apply nth_replicate_nan.
Qed.

Lemma length_pad (w : nat) (r : list value) : length (Pandas.pad w r) = w.
Proof.
  unfold Pandas.pad. rewrite length_app, length_take, length_replicate. lia.
Qed.

Lemma window_cell (c : nat) (r : list value) :
  c < 7 -> nth c (take 7 (drop 5 r)) VNaN = nth (5 + c) r VNaN.
Proof.
  intros Hc. rewrite !nth_lookup. by rewrite lookup_take_lt, lookup_drop.
Qed.

Lemma is_str_nth (c : nat) (r : list value) :
  Pandas.is_str (nth c r VNaN)
  = match r !! c with Some (VStr _) => true | _ => false end.
Proof.
  rewrite nth_lookup. by destruct (r !! c) as [[]|].
Qed.

Lemma is_date_nth (c : nat) (r : list value) :
  Pandas.is_date (nth c r VNaN)
  = match r !! c with Some (VDatetime _) => true | _ => false end.
Proof.
  rewrite nth_lookup. by destruct (r !! c) as [[]|].
Qed.

(** the marker of a column of the padded rows is the marker of the column
    of the sheet *)
Lemma missing_column (sh : sheet) (c : nat) :
  c < Pandas.width sh ->
  Pandas.missing
    (Pandas.column c (map (Pandas.pad (Pandas.width sh)) (drop 1 sh)))
  = if holds_text sh c then VNaN
    else if holds_date sh c then VNaT else VNaN64.
Proof.
  intros Hc. unfold Pandas.missing, Pandas.column, holds_text, holds_date.
  rewrite map_map.
  assert (forall (p : value -> bool) (q : list value -> bool) (l : sheet),
            (forall r, p (nth c r VNaN) = q r) ->
            existsb p (map (fun r => nth c (Pandas.pad (Pandas.width sh) r) VNaN) l)
            = existsb q l) as Hex.
  { intros p q l Hpq. induction l as [|r l IH]; [done|]. simpl.
    by rewrite nth_pad, Hpq, IH. }
  rewrite (Hex Pandas.is_str _ _ (is_str_nth c)).
  by rewrite (Hex Pandas.is_date _ _ (is_date_nth c)).
Qed.

Lemma nth_imap {A B} (f : nat -> A -> B) (l : list A) (c : nat) (a : A) (b : B) :
  c < length l -> nth c (imap f l) b = f c (nth c l a).
Proof.
  intros Hc. destruct (lookup_lt_is_Some_2 l c Hc) as [x Hx].
  rewrite (nth_lookup_Some _ _ a x Hx).
  apply nth_lookup_Some. by rewrite list_lookup_imap, Hx.
Qed.

(** a cell of the frame is what is read in the cell of the sheet *)
Lemma infer_cell (sh : sheet) (r c : nat) :
  c < Pandas.width sh -> 1 ≤ r < length sh ->
  nth c (nth (r - 1)
           (Pandas.infer (map (Pandas.pad (Pandas.width sh)) (drop 1 sh))) [])
      VNaN
  = sheet_cell sh r c.
Proof.
  intros Hc Hr. unfold sheet_cell, Pandas.infer.
  destruct (lookup_lt_is_Some_2 sh r ltac:(lia)) as [row Hrow].
  rewrite (nth_lookup_Some sh r [] row Hrow).
  set (data := map (Pandas.pad (Pandas.width sh)) (drop 1 sh)).
  assert (data !! (r - 1) = Some (Pandas.pad (Pandas.width sh) row)) as Hd.
  { subst data. rewrite list_lookup_fmap, lookup_drop.
    replace (1 + (r - 1)) with r by lia. by rewrite Hrow. }
  erewrite (nth_lookup_Some _ (r - 1) []);
    [|by rewrite list_lookup_fmap, Hd].
  rewrite (nth_imap _ _ _ VNaN) by (by rewrite length_pad).
  rewrite nth_pad by done. subst data. rewrite missing_column by done.
  rewrite nth_lookup. by destruct (row !! c) as [[]|].
Qed.

Lemma length_column (j : nat) (data : list (list value)) :
  length (Pandas.column j data) = length data.
Proof. apply length_map. Qed.

Lemma cropped_rows_length (sh : sheet) :
  length (cropped_rows sh) = length sh - 2.
Proof.
  unfold cropped_rows, Pandas.infer.
  rewrite length_map, length_drop, length_map, length_map, length_drop.
  lia.
Qed.

Lemma cropped_column (sh : sheet) (c j : nat) :
  c < 7 -> 5 + c < Pandas.width sh -> j < length sh - 2 ->
  nth j (Pandas.column c (cropped_rows sh)) VNaN
  = sheet_cell sh (j + 2) (5 + c).
Proof.
  intros Hc Hw Hj.
  rewrite <- (infer_cell sh (j + 2) (5 + c)) by lia.
  set (frame := Pandas.infer _).
  assert (j + 1 < length frame) as Hlen.
  { subst frame. unfold Pandas.infer.
    rewrite length_map, length_map, length_drop. lia. }
  destruct (lookup_lt_is_Some_2 frame (j + 1) Hlen) as [row Hrow].
  replace (j + 2 - 1) with (j + 1) by lia.
  rewrite (nth_lookup_Some frame (j + 1) [] row Hrow).
  apply nth_lookup_Some. unfold Pandas.column, cropped_rows. fold frame.
  rewrite !list_lookup_fmap, lookup_drop.
  replace (1 + j) with (j + 1) by lia. rewrite Hrow. simpl.
  f_equal. by apply window_cell.
Qed.

Lemma load_excel_run (sh : sheet) (others : list sheet) (s : state) :
  11 ≤ Pandas.width sh ->
  exists s',
    load_excel (sh :: others) s = (Ok (seq (next_loc s) (length sh - 2)), s')
    /\ next_loc s' = next_loc s + (length sh - 2)
    /\ (forall j, j < length sh - 2 ->
          heap s' (next_loc s + j) = record_of_row sh (j + 2))
    /\ (forall l, l < next_loc s -> heap s' l = heap s l).
Proof.
  intros Hw. unfold load_excel, Pandas.read_excel, Pandas.iloc_window,
    Pandas.iloc_column.
  cbn [ncols rows]. fold (cropped_rows sh).
  assert (forall c, c < 6 -> (c <? 12 `min` Pandas.width sh - 5) = true) as Hcol.
  { intros c Hc. apply Nat.ltb_lt. lia. }
  rewrite run_bind. unfold lift at 1. cbv iota beta.
  rewrite run_bind. unfold lift at 1. rewrite Hcol by lia. cbv iota beta.
  rewrite run_bind. unfold lift at 1. rewrite Hcol by lia. cbv iota beta.
  rewrite run_bind. unfold lift at 1. rewrite Hcol by lia. cbv iota beta.
  rewrite run_bind. unfold lift at 1. rewrite Hcol by lia. cbv iota beta.
  cbn [ncols rows]. fold (cropped_rows sh).
  rewrite length_column, cropped_rows_length.
  match goal with |- context [load_row ?a ?b ?c ?d] =>
    destruct (load_rows_run a b c d) with (k := length sh - 2) (i0 := 0) (s := s)
      as (s' & Hrun & Hn & Hnew & Hold)
  end; rewrite ?length_column, ?cropped_rows_length; try done.
  exists s'. split; [exact Hrun|]. split; [exact Hn|]. split; [|exact Hold].
  intros j Hj. rewrite (Hnew j Hj). unfold row_at, record_of_row. simpl.
  by rewrite !cropped_column by lia.
Qed.

(** * The formatting phase *)

Lemma formatLibrary_text (lib : value) (v : string) :
  is_text lib = true ->
  exists r, formatLibrary lib (VStr v) = Ok r /\ is_text r = true.
Proof.
  destruct lib as [[|c n]| |d| |]; intros H; try discriminate; simpl; eauto.
Qed.

Section FormatOne.

Variables (deps : list loc) (i : nat) (s : state).
Variable row : gmap string string.
Hypothesis Hrow : first_rows_of_version_table s !! i = Some row.

Lemma format_one_missing (k : string) :
  missing_key row = Some k ->
  format_one deps i s = (Raise (KeyError k), set_i i s).
Proof.
  unfold missing_key, format_one, index, lookup_key. mrun. rewrite Hrow. simpl.
  destruct (row !! "Version"); simpl; [|by intros [= <-]].
  destruct (row !! "Date"); simpl; [|by intros [= <-]].
  destruct (row !! "Vulnerabilities"); simpl; [|by intros [= <-]].
  discriminate.
Qed.

Lemma format_one_ok (dep : loc) :
  normalizable row = true ->
  deps !! i = Some dep ->
  is_text (library (heap s dep)) = true ->
  exists s',
    format_one deps i s = (Ok tt, s')
    /\ first_rows_of_version_table s' = first_rows_of_version_table s
    /\ (forall l, l ≠ dep -> heap s' l = heap s l)
    /\ is_text (library (heap s' dep)) = true.
Proof.
  intros Hn Hdep Hlib.
  unfold normalizable in Hn.
  unfold format_one, index, lookup_key. mrun. rewrite Hrow. simpl.
  destruct (row !! "Version") as [v|]; [|discriminate].
  destruct (row !! "Date") as [d|]; [|discriminate].
  destruct (row !! "Vulnerabilities") as [vu|]; [|discriminate].
  simpl. rewrite Hdep. simpl.
  destruct (formatLibrary_text _ v Hlib) as (fv & -> & Hfv).
  apply andb_true_iff in Hn as [Hd Hvu].
  destruct (formatVulnerability (VStr vu)) as [fvu|]; [|discriminate].
  destruct (formatDate (VStr d)) as [fd|]; [|discriminate].
  simpl. eexists. split; [reflexivity|]. simpl.
  split; [reflexivity|split].
  - intros l Hl. by rewrite !fn_lookup_insert_ne.
  - rewrite !fn_lookup_insert. simpl. exact Hfv.
Qed.

End FormatOne.

Lemma rows_format_one (t : list (gmap string string)) deps i :
  preserves (fun s => first_rows_of_version_table s = t) (format_one deps i).
Proof.
  unfold format_one. preserve; try done; apply preserves_store; by intros.
Qed.

(** a raw outcome that lacks a label stops the loop, at that record if not
    before *)
Lemma format_loop_aborts (deps : list loc) (n i0 k : nat) (s : state)
    (row : gmap string string) :
  i0 ≤ k < i0 + n ->
  first_rows_of_version_table s !! k = Some row ->
  is_Some (missing_key row) ->
  exists e s', for_each (seq i0 n) (format_one deps) s = (Raise e, s').
Proof.
  revert i0 s. induction n as [|n IH]; intros i0 s Hk Hrow [key Hkey]; [lia|].
  change (seq i0 (S n)) with (i0 :: seq (S i0) n). rewrite for_each_cons.
  destruct (decide (i0 = k)) as [->|Hne].
  - rewrite (format_one_missing deps k s row Hrow key Hkey). eauto.
  - pose proof (rows_format_one (first_rows_of_version_table s) deps i0 s eq_refl)
      as Hrows.
    destruct (format_one deps i0 s) as [[[]|e] s1]; [|eauto].
    simpl in Hrows. apply IH; [lia|by rewrite Hrows|by exists key].
Qed.

(** raw outcomes that can all be digested let the loop run to its end *)
Lemma format_loop_ok (deps : list loc) (n i0 : nat) (s : state) :
  (forall i, i0 ≤ i < i0 + n ->
     exists row dep, first_rows_of_version_table s !! i = Some row
                     /\ normalizable row = true /\ deps !! i = Some dep
                     /\ is_text (library (heap s dep)) = true) ->
  exists s', for_each (seq i0 n) (format_one deps) s = (Ok tt, s').
Proof.
  revert i0 s. induction n as [|n IH]; intros i0 s Hrows.
  - exists s. reflexivity.
  - change (seq i0 (S n)) with (i0 :: seq (S i0) n). rewrite for_each_cons.
    destruct (Hrows i0) as (row & dep & Hrow & Hn & Hdep & Hlib); [lia|].
    destruct (format_one_ok deps i0 s row Hrow dep Hn Hdep Hlib) as
      (s1 & -> & Ht & Hother & Hself).
    apply IH.
    intros i Hi. rewrite Ht.
    destruct (Hrows i) as (row' & dep' & ? & ? & ? & Hlib'); [lia|].
    exists row', dep'. repeat split; try done.
    destruct (decide (dep' = dep)) as [->|Hne]; [exact Hself|].
    by rewrite Hother.
Qed.

(** the first raw outcome that lacks a label raises the lookup error *)
Lemma format_loop_first_missing (deps : list loc) (n k : nat) (s : state)
    (row : gmap string string) (key : string) :
  k < n ->
  (forall i, i < k ->
     exists row dep, first_rows_of_version_table s !! i = Some row
                     /\ normalizable row = true /\ deps !! i = Some dep
                     /\ is_text (library (heap s dep)) = true) ->
  first_rows_of_version_table s !! k = Some row ->
  missing_key row = Some key ->
  exists s', for_each (seq 0 n) (format_one deps) s = (Raise (KeyError key), s').
Proof.
  intros Hk Hpre Hrow Hkey.
  replace n with (k + S (n - S k)) by lia.
  rewrite seq_app, for_each_app. simpl seq.
  destruct (format_loop_ok deps k 0 s) as (s1 & Hrun).
  { intros i Hi. apply Hpre. lia. }
  pose proof (preserves_for_each
    (fun s' => first_rows_of_version_table s' = first_rows_of_version_table s)
    (seq 0 k) (format_one deps)
    (fun i => rows_format_one _ deps i) s eq_refl) as Hrows.
  rewrite Hrun in *. simpl in Hrows.
  rewrite for_each_cons.
  rewrite (format_one_missing deps k s1 row) with (k := key); [eauto| |done].
  by rewrite Hrows.
Qed.

(** * The writers *)

Lemma json_value_idem (v : value) : json_value (json_value v) = json_value v.
Proof. by destruct v. Qed.

Lemma json_form_idem (d : dependency) : json_form (json_form d) = json_form d.
Proof. unfold json_form. simpl. by rewrite !json_value_idem. Qed.

Lemma setitem_getitem (k : key) (d : dependency) : setitem k (getitem k d) d = d.
Proof. by destruct k, d. Qed.

Lemma json_item_run (dep : loc) (k : key) (s : state) :
  exists s',
    json_item dep k s = (Ok tt, s')
    /\ heap s' dep = setitem k (json_value (getitem k (heap s dep))) (heap s dep)
    /\ (forall l, l ≠ dep -> heap s' l = heap s l).
Proof.
  unfold json_item, load, store. rewrite run_bind. unfold gets at 1.
  cbv iota beta.
  destruct (getitem k (heap s dep)) as [x| |d| |] eqn:Hv.
  1: { exists s. split; [reflexivity|]. split; [|done].
       simpl. by rewrite <- Hv, setitem_getitem. }
  all: eexists; (split; [reflexivity|]); simpl; split;
    [by rewrite fn_lookup_insert
    |intros l Hl; by rewrite fn_lookup_insert_ne].
Qed.

Lemma json_items_run (dep : loc) (s : state) :
  exists s',
    for_each keys (json_item dep) s = (Ok tt, s')
    /\ heap s' dep = json_form (heap s dep)
    /\ (forall l, l ≠ dep -> heap s' l = heap s l).
Proof.
  unfold keys.
  destruct (json_item_run dep KLibrary s) as (s1 & H1 & Hd1 & Ho1).
  destruct (json_item_run dep KVulnerabilities s1) as (s2 & H2 & Hd2 & Ho2).
  destruct (json_item_run dep KDate s2) as (s3 & H3 & Hd3 & Ho3).
  destruct (json_item_run dep KUrl s3) as (s4 & H4 & Hd4 & Ho4).
  exists s4. rewrite for_each_cons, H1, for_each_cons, H2, for_each_cons, H3,
    for_each_cons, H4.
  split; [reflexivity|]. split.
  - rewrite Hd4, Hd3, Hd2, Hd1. by destruct (heap s dep).
  - intros l Hl. by rewrite Ho4, Ho3, Ho2, Ho1.
Qed.

(** the conversion loop of [write_json]: every record of the list is put in
    its JSON form, once, however often the list names it *)
Lemma convert_all_run (deps : list loc) (s : state) :
  exists s',
    for_each deps (fun dep => for_each keys (json_item dep)) s = (Ok tt, s')
    /\ (forall dep, dep ∈ deps -> heap s' dep = json_form (heap s dep))
    /\ (forall l, l ∉ deps -> heap s' l = heap s l).
Proof.
  revert s. induction deps as [|dep deps IH]; intros s.
  - exists s. split; [reflexivity|]. split; [|done].
    intros dep H. by apply elem_of_nil in H.
  - rewrite for_each_cons.
    destruct (json_items_run dep s) as (s1 & -> & Hd & Ho).
    destruct (IH s1) as (s' & -> & Hin & Hout).
    exists s'. split; [reflexivity|]. split.
    + intros l Hl. destruct (decide (l ∈ deps)) as [Hl'|Hl'].
      * rewrite (Hin l Hl'). destruct (decide (l = dep)) as [->|Hne].
        -- by rewrite Hd, json_form_idem.
        -- by rewrite Ho.
      * rewrite (Hout l Hl'). apply elem_of_cons in Hl as [->|Hl]; done.
    + intros l Hl. apply not_elem_of_cons in Hl as [Hne Hl].
      by rewrite (Hout l Hl), Ho.
Qed.

Lemma encode_json_value (v : value) : is_ok (Json.encode (json_value v)) = true.
Proof. by destruct v. Qed.

Lemma object_json_form (d : dependency) :
  exists o, Json.object (json_form d) = Ok o.
Proof.
  unfold Json.object, Json.member, json_form. simpl.
  destruct d as [[] [] [] []]; simpl; eauto.
Qed.

Lemma items_json_form (l : list dependency) :
  exists t, Json.items (map json_form l) = Ok t.
Proof.
  induction l as [|d l (t & IH)]; simpl; [eauto|].
  destruct (object_json_form d) as (o & ->). rewrite IH. simpl. eauto.
Qed.

Lemma dumps_json_form (l : list dependency) :
  exists t, Json.dumps (map json_form l) = Ok t.
Proof.
  destruct l as [|d l]; [by eexists|]. unfold Json.dumps.
  destruct (items_json_form (d :: l)) as (t & Ht).
  change (map json_form (d :: l)) with (json_form d :: map json_form l) in *.
  rewrite Ht. simpl. eauto.
Qed.

Lemma map_heap_converted (deps : list loc) (s s' : state) :
  (forall dep, dep ∈ deps -> heap s' dep = json_form (heap s dep)) ->
  map (heap s') deps = map json_form (map (heap s) deps).
Proof.
  intros H. rewrite map_map. apply map_ext_in. intros dep Hdep.
  apply H. by apply list_elem_of_In.
Qed.

Lemma files_convert (f : list (string * string)) (deps : list loc) :
  preserves (fun s => files s = f)
            (for_each deps (fun dep => for_each keys (json_item dep))).
Proof.
  unfold json_item. preserve; try done;
    match goal with
    | |- preserves _ (match ?v with VStr _ => _ | _ => _ end) => destruct v
    end; preserve; apply preserves_store; by intros.
Qed.

Lemma cells_convert (c : list (nat * nat * value)) (deps : list loc) :
  preserves (fun s => sheet_cells s = c)
            (for_each deps (fun dep => for_each keys (json_item dep))).
Proof.
  unfold json_item. preserve; try done;
    match goal with
    | |- preserves _ (match ?v with VStr _ => _ | _ => _ end) => destruct v
    end; preserve; apply preserves_store; by intros.
Qed.

(** [write_json] never raises: it writes the JSON forms of the records *)
Lemma write_json_run (now : datetime) (deps : list loc) (s : state) :
  exists text s',
    write_json now deps s = (Ok tt, s')
    /\ Json.dumps (map (fun dep => json_form (heap s dep)) deps) = Ok text
    /\ files s' = files s ++ [(Fmt.strftime_Ymd now +:+ "_dependencies.json", text)]
    /\ sheet_cells s' = sheet_cells s
    /\ (forall dep, dep ∈ deps -> heap s' dep = json_form (heap s dep))
    /\ (forall l, l ∉ deps -> heap s' l = heap s l).
Proof.
  unfold write_json. rewrite run_bind.
  destruct (convert_all_run deps s) as (s1 & Hrun & Hin & Hout).
  pose proof (files_convert (files s) deps s eq_refl) as Hfiles.
  pose proof (cells_convert (sheet_cells s) deps s eq_refl) as Hcells.
  rewrite Hrun in *. simpl in Hfiles, Hcells.
  rewrite run_bind. unfold gets at 1. cbv iota beta.
  rewrite (map_heap_converted deps s s1 Hin).
  destruct (dumps_json_form (map (heap s) deps)) as (text & Ht).
  rewrite run_bind. unfold lift at 1. rewrite Ht. cbv iota beta.
  exists text. eexists. split; [reflexivity|]. simpl.
  rewrite Hfiles, Hcells. repeat split; try done.
  by rewrite map_map in Ht.
Qed.


(** what [write_json] leaves alone: whatever no store and no file touches *)
Lemma kept_write_json (P : state -> Prop) (now : datetime) (deps : list loc) :
  (forall s f, P s -> P (set_heap f s)) ->
  (forall s f, P s -> P (set_files f s)) ->
  preserves P (write_json now deps).
Proof.
  intros Hheap Hfiles. unfold write_json, json_item. cbv zeta.
  preserve; try (by apply Hfiles);
    match goal with
    | |- preserves _ (match ?v with VStr _ => _ | _ => _ end) => destruct v
    end; preserve; apply preserves_store; intros; by apply Hheap.
Qed.

(** * The workbook: cells *)

Lemma legal_cell_char (c : ascii) : Openpyxl.legal c = cell_char c.
Proof.
  unfold Openpyxl.legal, Openpyxl.illegal, cell_char.
  generalize (Str.code c). intros n.
  destruct (n <=? 8) eqn:H1; destruct (11 <=? n) eqn:H2;
    destruct (n <=? 12) eqn:H3; destruct (14 <=? n) eqn:H4;
    destruct (n <=? 31) eqn:H5; simpl;
    rewrite ?Nat.leb_le, ?Nat.leb_gt in *;
    first [ rewrite bool_decide_eq_true_2 by lia; reflexivity
          | rewrite bool_decide_eq_false_2 by lia; reflexivity ].
Qed.

Lemma all_ext (p q : ascii -> bool) (s : string) :
  (forall c, p c = q c) -> Str.all p s = Str.all q s.
Proof.
  intros H. unfold Str.all.
  induction (String.list_ascii_of_string s) as [|c l IH]; [done|].
  simpl. by rewrite H, IH.
Qed.

Lemma bind_value_takes (v : value) :
  Openpyxl.bind_value v =
  if cell_takes v then Ok (cell_keeps v) else Raise IllegalCharacterError.
Proof.
  destruct v; try reflexivity. simpl.
  unfold Openpyxl.check_string, cell_limit.
  rewrite (all_ext _ _ _ legal_cell_char).
  by destruct (Str.all cell_char _).
Qed.

Lemma cell_run (r c : nat) (v : value) (s : state) :
  cell r c v s =
  if cell_takes v
  then (Ok (r, c, cell_keeps v), set_sheet_cells (fun l => l ++ [(r, c, v)]) s)
  else (Raise IllegalCharacterError, s).
Proof.
  unfold cell. rewrite run_bind. unfold lift at 1. rewrite bind_value_takes.
  by destruct (cell_takes v).
Qed.

Lemma set_sheet_cells_nil (s : state) :
  set_sheet_cells (fun l => l ++ []) s = s.
Proof. destruct s. unfold set_sheet_cells. simpl. by rewrite app_nil_r. Qed.

Lemma set_sheet_cells_app (a b : cells) (s : state) :
  set_sheet_cells (fun l => l ++ b) (set_sheet_cells (fun l => l ++ a) s)
  = set_sheet_cells (fun l => l ++ a ++ b) s.
Proof. unfold set_sheet_cells. simpl. by rewrite app_assoc. Qed.

Lemma taken_all (l : cells) : forallb takes l = true -> taken l = l.
Proof.
  induction l as [|c l IH]; simpl; [done|].
  destruct (takes c); simpl; [|done]. intros H. by rewrite IH.
Qed.

Lemma taken_app (a b : cells) :
  taken (a ++ b) = if forallb takes a then a ++ taken b else taken a.
Proof.
  induction a as [|c a IH]; simpl; [done|].
  destruct (takes c); simpl; [|done]. rewrite IH. by destruct (forallb takes a).
Qed.

Lemma taken_prefix (l : cells) : exists n, taken l = take n l.
Proof.
  induction l as [|c l (n & IH)]; [by exists 0|]. simpl.
  destruct (takes c); [exists (S n); simpl; by rewrite IH|by exists 0].
Qed.

(** the three cells of a record: the first value that is refused stops the
    row *)
Lemma write_row_run (r : nat) (dep : loc) (s : state) :
  write_row (r, dep) s =
  (if forallb takes (cells_of s (r, dep))
   then Ok (map keeps (cells_of s (r, dep)))
   else Raise IllegalCharacterError,
   set_sheet_cells (fun l => l ++ taken (cells_of s (r, dep))) s).
Proof.
  unfold write_row, cells_of, takes. cbn [fst snd forallb taken map].
  unfold takes. cbn [fst snd].
  rewrite run_bind. unfold load at 1, gets at 1. cbv iota beta.
  rewrite run_bind, cell_run. cbn [getitem].
  destruct (cell_takes (library (heap s dep))); cbn [andb];
    [|by rewrite set_sheet_cells_nil].
  rewrite run_bind. unfold load at 1, gets at 1. cbv iota beta.
  rewrite run_bind, cell_run. cbn [getitem heap set_sheet_cells].
  destruct (cell_takes (vulnerabilities (heap s dep))); cbn [andb]; [|done].
  rewrite run_bind. unfold load at 1, gets at 1. cbv iota beta.
  rewrite run_bind, cell_run. cbn [getitem heap set_sheet_cells].
  destruct (cell_takes (date (heap s dep))); cbn [andb].
  - unfold mret, M_ret, set_sheet_cells. simpl. by rewrite <- !app_assoc.
  - unfold set_sheet_cells. simpl. by rewrite <- !app_assoc.
Qed.

Lemma concat_kept (s : state) (l : list (nat * loc)) :
  concat (map (fun rd => map keeps (cells_of s rd)) l)
  = map keeps (flat_map (cells_of s) l).
Proof.
  induction l as [|rd l IH]; [done|]. cbn [map concat flat_map].
  by rewrite IH, map_app.
Qed.

(** the loop of [write_excel]: it stops at the first value that is refused,
    with the cells before it set *)
Lemma write_rows_run (deps : list loc) (r : nat) (s : state) :
  collect (enumerate_from r deps) write_row s =
  (if forallb takes (flat_map (cells_of s) (enumerate_from r deps))
   then Ok (map (fun rd => map keeps (cells_of s rd)) (enumerate_from r deps))
   else Raise IllegalCharacterError,
   set_sheet_cells
     (fun l => l ++ taken (flat_map (cells_of s) (enumerate_from r deps))) s).
Proof.
  revert r s. induction deps as [|dep deps IH]; intros r s.
  - simpl. by rewrite set_sheet_cells_nil.
  - change (enumerate_from r (dep :: deps))
      with ((r, dep) :: enumerate_from (S r) deps).
    cbn [collect flat_map map]. rewrite run_bind, write_row_run.
    rewrite forallb_app, taken_app.
    destruct (forallb takes (cells_of s (r, dep))) eqn:Hrow; cbn [andb]; [|done].
    rewrite run_bind, IH.
    change (cells_of (set_sheet_cells _ s)) with (cells_of s).
    rewrite (taken_all _ Hrow), set_sheet_cells_app.
    by destruct (forallb takes (flat_map _ _)).
Qed.

(** * The workbook: titles *)

Lemma length_append (a b : string) :
  String.length (a +:+ b) = String.length a + String.length b.
Proof.
  induction a as [|c a IH]; [done|]. rewrite append_cons. simpl. by rewrite IH.
Qed.

Lemma all_cons (p : ascii -> bool) (c : ascii) (s : string) :
  Str.all p (String c s) = p c && Str.all p s.
Proof. reflexivity. Qed.

Lemma all_app (p : ascii -> bool) (a b : string) :
  Str.all p (a +:+ b) = Str.all p a && Str.all p b.
Proof.
  induction a as [|c a IH]; [done|].
  rewrite append_cons, !all_cons, IH. by rewrite andb_assoc.
Qed.

Lemma all_free (p : ascii -> bool) (c : ascii) (s : string) :
  Str.all p s = true -> p c = false -> free_of c s.
Proof.
  intros Hs Hc. induction s as [|x s IH]; [apply free_of_nil|].
  rewrite all_cons in Hs. apply andb_true_iff in Hs as [Hx Hs].
  apply free_of_cons. split; [|by apply IH]. intros ->. congruence.
Qed.

Lemma contains_app_r (c : ascii) (a b : string) :
  Str.contains c b -> Str.contains c (a +:+ b).
Proof.
  intros H. induction a as [|x a IH]; [done|].
  rewrite append_cons. right. exact IH.
Qed.

Lemma contains_app_l (c : ascii) (a b : string) :
  Str.contains c a -> Str.contains c (a +:+ b).
Proof.
  induction a as [|x a IH]; [intros []|].
  rewrite append_cons. intros [->|H]; [by left|right; by apply IH].
Qed.

(** ** Letters and case *)

Lemma lower_digit (c : ascii) : Str.isdigit c = true -> Openpyxl.lower c = c.
Proof.
  unfold Str.isdigit, Openpyxl.lower. intros H.
  apply andb_true_iff in H as [H1 H2].
  apply Nat.leb_le in H1, H2.
  replace (65 <=? Str.code c) with false by (symmetry; apply Nat.leb_gt; lia).
  replace (192 <=? Str.code c) with false by (symmetry; apply Nat.leb_gt; lia).
  reflexivity.
Qed.

Lemma lower_code (c : ascii) :
  Str.code (Openpyxl.lower c) = Str.code c
  \/ (97 ≤ Str.code (Openpyxl.lower c)).
Proof.
  unfold Openpyxl.lower.
  destruct (_ || _) eqn:H; [|by left]. right.
  unfold Str.code at 1. rewrite nat_ascii_embedding.
  - apply orb_true_iff in H as [H|H].
    + apply andb_true_iff in H as [H _]. apply Nat.leb_le in H. lia.
    + apply andb_true_iff in H as [H _]. apply andb_true_iff in H as [H _].
      apply Nat.leb_le in H. lia.
  - apply orb_true_iff in H as [H|H].
    + apply andb_true_iff in H as [_ H]. apply Nat.leb_le in H. lia.
    + apply andb_true_iff in H as [H _]. apply andb_true_iff in H as [_ H].
      apply Nat.leb_le in H. lia.
Qed.

Lemma code_inj (a b : ascii) : Str.code a = Str.code b -> a = b.
Proof.
  unfold Str.code. intros H.
  by rewrite <- (ascii_nat_embedding a), <- (ascii_nat_embedding b), H.
Qed.

(** a character before the letters is the lower case of itself alone *)
Lemma lower_fixed (c : ascii) : Str.code c < 65 -> Openpyxl.lower c = c.
Proof.
  intros H. unfold Openpyxl.lower.
  replace (65 <=? Str.code c) with false by (symmetry; apply Nat.leb_gt; lia).
  replace (192 <=? Str.code c) with false by (symmetry; apply Nat.leb_gt; lia).
  reflexivity.
Qed.

Lemma lower_is (x c : ascii) :
  Str.code c < 65 -> Openpyxl.lower x = Openpyxl.lower c -> x = c.
Proof.
  intros Hc H. rewrite (lower_fixed c Hc) in H.
  destruct (lower_code x) as [Hx|Hx].
  - apply code_inj. by rewrite <- Hx, H.
  - rewrite H in Hx. lia.
Qed.

Lemma lower_title_free (c : ascii) (s : string) :
  Str.code c < 65 -> free_of c s -> free_of c (Openpyxl.lower_title s).
Proof.
  intros Hc. induction s as [|x s IH]; intros H; [apply free_of_nil|].
  apply free_of_cons in H as [Hx Hs]. simpl. apply free_of_cons.
  split; [|by apply IH]. intros E. apply Hx.
  apply lower_is; [done|]. by rewrite (lower_fixed c Hc).
Qed.

Lemma lower_title_contains (c : ascii) (s : string) :
  Str.code c < 65 -> Str.contains c s -> Str.contains c (Openpyxl.lower_title s).
Proof.
  intros Hc. induction s as [|x s IH]; [intros []|].
  intros [->|H]; simpl.
  - left. by apply lower_fixed.
  - right. by apply IH.
Qed.

(** ** Matches of a title among the titles *)

Section Findall.

Variable v : string.
Hypothesis v_nonempty : v ≠ EmptyString.
Hypothesis v_free : free_of "," v.

Lemma after_nil : Openpyxl.after v EmptyString = None.
Proof. by destruct v. Qed.

Lemma after_self (w r : string) : Openpyxl.after w (w +:+ r) = Some r.
Proof.
  induction w as [|c w IH]; [by destruct r|].
  rewrite append_cons. simpl. by rewrite Ascii.eqb_refl.
Qed.

Lemma after_length (w a r : string) :
  Openpyxl.after w a = Some r ->
  String.length a = String.length w + String.length r.
Proof.
  revert a. induction w as [|c w IH]; intros a H.
  - destruct a; simpl in H; by injection H as <-.
  - destruct a as [|x a]; [done|]. simpl in H.
    destruct (Ascii.eqb _ _); [|done]. simpl. by rewrite (IH a H).
Qed.

Lemma after_sep (w a b : string) :
  free_of "," w ->
  Openpyxl.after w (a +:+ String "," b) =
  match Openpyxl.after w a with
  | Some r => Some (r +:+ String "," b)
  | None => None
  end.
Proof.
  revert a. induction w as [|c w IH]; intros a Hw.
  - destruct a; [by rewrite append_nil_l|by rewrite append_cons].
  - apply free_of_cons in Hw as [Hc Hw]. destruct a as [|x a].
    + rewrite append_nil_l. simpl.
      destruct (Ascii.eqb_spec (Openpyxl.lower c) (Openpyxl.lower ",")) as [E|E];
        [|done].
      exfalso. apply Hc. apply lower_is; [vm_compute; lia|exact E].
    + rewrite append_cons. simpl.
      destruct (Ascii.eqb _ _); [by apply IH|done].
Qed.

Lemma digits_sep (r b : string) :
  Openpyxl.digits (r +:+ String "," b) = Openpyxl.digits r.
Proof.
  induction r as [|c r IH]; [done|].
  rewrite append_cons. simpl. by rewrite IH.
Qed.

Lemma skip_digits_sep (r b : string) :
  Openpyxl.skip_digits (r +:+ String "," b)
  = Openpyxl.skip_digits r +:+ String "," b.
Proof.
  induction r as [|c r IH]; [done|].
  rewrite append_cons. simpl. destruct (Str.isdigit c); [exact IH|done].
Qed.

Lemma digits_length (r : string) :
  String.length r
  = String.length (Openpyxl.digits r) + String.length (Openpyxl.skip_digits r).
Proof.
  induction r as [|c r IH]; [done|]. simpl.
  destruct (Str.isdigit c); simpl; [by rewrite IH|done].
Qed.

Lemma findall_short (k : nat) (a : string) :
  String.length a ≤ k -> Openpyxl.findall k v a = [].
Proof.
  revert k. induction a as [|c a IH]; intros k H; [done|].
  simpl in H. destruct k as [|k]; [lia|]. simpl. apply IH. lia.
Qed.

(** a comma between two texts: the matches of one, then those of the
    other *)
Lemma findall_sep (k : nat) (a b : string) :
  k ≤ String.length a + 1 ->
  Openpyxl.findall k v (a +:+ String "," b)
  = Openpyxl.findall k v a ++ Openpyxl.findall 0 v b.
Proof.
  revert k. induction a as [|c a IH]; intros k Hk.
  - rewrite append_nil_l. destruct k as [|[|k]]; [|done|simpl in Hk; lia].
    cbn [Openpyxl.findall].
    pose proof (after_sep v EmptyString b v_free) as H.
    rewrite append_nil_l, after_nil in H. by rewrite H.
  - destruct k as [|k].
    + rewrite append_cons. cbn [Openpyxl.findall]. rewrite <- append_cons.
      rewrite (after_sep v (String c a) b v_free).
      destruct (Openpyxl.after v (String c a)) as [r|] eqn:Hr.
      * rewrite digits_sep, skip_digits_sep.
        pose proof (after_length _ _ _ Hr) as Hlen.
        pose proof (digits_length r) as Hd. simpl in Hlen.
        destruct (Openpyxl.skip_digits r) as [|x r1] eqn:Hs.
        -- rewrite append_nil_l. simpl in Hd. cbn [app]. f_equal.
           rewrite IH by lia.
           rewrite (findall_short (_ + 1 - 1) a) by lia.
           rewrite (findall_short (_ + 0 - 1) a) by lia. reflexivity.
        -- rewrite append_cons. simpl in Hd. cbn [app]. f_equal.
           rewrite IH; [reflexivity|].
           destruct x as [[] [] [] [] [] [] [] []]; cbv iota; lia.
      * apply IH. lia.
    + rewrite append_cons. cbn [Openpyxl.findall]. apply IH. simpl in Hk. lia.
Qed.

Lemma findall_join (names : list string) :
  Openpyxl.findall 0 v (Str.join "," names)
  = flat_map (Openpyxl.findall 0 v) names.
Proof.
  induction names as [|x names IH]; [done|].
  destruct names as [|y names].
  - simpl. by rewrite app_nil_r.
  - rewrite join_cons, append_cons, append_nil_l.
    rewrite findall_sep by lia. by rewrite IH.
Qed.

Lemma digits_all (d : string) :
  Str.all Str.isdigit d = true ->
  Openpyxl.digits d = d /\ Openpyxl.skip_digits d = EmptyString.
Proof.
  induction d as [|c d IH]; [done|]. rewrite all_cons. intros H.
  apply andb_true_iff in H as [Hc Hd]. simpl. rewrite Hc.
  destruct (IH Hd) as [-> ->]. done.
Qed.

(** the title followed by digits is one match, with those digits *)
Lemma findall_exact (d : string) :
  Str.all Str.isdigit d = true ->
  Openpyxl.findall 0 v (v +:+ d) = [d].
Proof.
  intros Hd. destruct (digits_all d Hd) as [H1 H2].
  destruct v as [|c w] eqn:Hv; [done|]. rewrite <- Hv.
  assert (v +:+ d = String c (w +:+ d)) as E by (by rewrite Hv).
  rewrite E. cbn [Openpyxl.findall]. rewrite <- E, after_self, H1, H2.
  f_equal. apply findall_short. rewrite length_append.
  rewrite Hv. simpl. lia.
Qed.

End Findall.

(** ** Numbers after a title *)

Lemma string_of_uint_digits (d : Decimal.uint) :
  Str.all Str.isdigit (NilEmpty.string_of_uint d) = true.
Proof. induction d; simpl; try done; by rewrite all_cons, IHd. Qed.

Lemma str_digits (n : N) : Str.all Str.isdigit (Openpyxl.str n) = true.
Proof. apply string_of_uint_digits. Qed.

Lemma str_nonempty (n : N) : Openpyxl.str n ≠ EmptyString.
Proof.
  unfold Openpyxl.str. destruct n as [|p]; [done|]. simpl.
  pose proof (DecimalPos.Unsigned.to_uint_nonnil p) as H.
  by destruct (Pos.to_uint p).
Qed.

Lemma int_str (n : N) : Openpyxl.int (Openpyxl.str n) = n.
Proof.
  unfold Openpyxl.int, Openpyxl.str.
  by rewrite NilEmpty.usu, DecimalN.Unsigned.of_to.
Qed.

Lemma max_ge (n : N) (l : list N) : n ∈ l -> (n <= foldr N.max 0 l)%N.
Proof.
  induction l as [|x l IH]; intros H; [by apply elem_of_nil in H|].
  apply elem_of_cons in H as [->|H]; simpl; [lia|].
  specialize (IH H). lia.
Qed.

(** the title a sheet gets is the title asked for, or that title and a
    number *)
Lemma avoid_duplicate_name_cases (names : list string) (v : string) :
  Openpyxl.avoid_duplicate_name names v = v
  \/ exists n, Openpyxl.avoid_duplicate_name names v = v +:+ Openpyxl.str n.
Proof.
  unfold Openpyxl.avoid_duplicate_name.
  destruct (existsb _ _); [|by left].
  destruct (Openpyxl.findall _ _ _); [by left|right; by eexists].
Qed.


(** no sheet has the title a sheet gets *)
Lemma avoid_duplicate_name_fresh (names : list string) (v : string) :
  v ≠ EmptyString -> free_of "," v ->
  Openpyxl.avoid_duplicate_name names v ∉ names.
Proof.
  intros Hv Hfree Hin. unfold Openpyxl.avoid_duplicate_name in Hin.
  destruct (existsb (Openpyxl.same_title v) names) eqn:Hex.
  - rewrite (findall_join v Hv Hfree) in Hin.
    destruct (flat_map (Openpyxl.findall 0 v) names) as [|m ms] eqn:Hm.
    + assert (EmptyString ∈ flat_map (Openpyxl.findall 0 v) names) as H.
      { apply list_elem_of_In, in_flat_map. exists v.
        split; [by apply list_elem_of_In|].
        pose proof (findall_exact v Hv Hfree EmptyString eq_refl) as E.
        rewrite append_nil_r in E. rewrite E. by left. }
      rewrite Hm in H. by apply elem_of_nil in H.
    + rewrite <- Hm in Hin. clear Hm m ms.
      set (found := flat_map (Openpyxl.findall 0 v) names) in *.
      set (counts := map Openpyxl.int (List.filter _ found)) in *.
      set (highest := foldr N.max 0%N counts) in *.
      assert (Openpyxl.str (highest + 1) ∈ found) as H.
      { apply list_elem_of_In, in_flat_map. eexists.
        split; [apply list_elem_of_In, Hin|].
        rewrite (findall_exact v Hv Hfree _ (str_digits _)). by left. }
      assert ((highest + 1)%N ∈ counts) as Hc.
      { subst counts. rewrite <- (int_str (highest + 1)) at 1.
        apply list_elem_of_In, in_map, filter_In.
        split; [by apply list_elem_of_In|].
        apply negb_true_iff, String.eqb_neq, str_nonempty. }
      apply max_ge in Hc. fold highest in Hc. lia.
  - apply not_true_iff_false in Hex. apply Hex, existsb_exists.
    exists v. split; [by apply list_elem_of_In|].
    apply String.eqb_refl.
Qed.

(** ** The title of the new sheet *)

Lemma digit_isdigit (n : Z) : Str.isdigit (Fmt.digit n) = true.
Proof.
  unfold Str.isdigit, Fmt.digit, Str.code.
  pose proof (Z.mod_pos_bound n 10 ltac:(lia)) as H.
  rewrite nat_ascii_embedding by lia.
  apply andb_true_iff. split; apply Nat.leb_le; lia.
Qed.

Lemma pad2_digits (n : Z) : Str.all Str.isdigit (Fmt.pad2 n) = true.
Proof.
  unfold Fmt.pad2. by rewrite !all_cons, !digit_isdigit.
Qed.

Lemma strftime_digits (now : datetime) :
  Str.all Str.isdigit (Fmt.strftime_Ymd now) = true.
Proof.
  unfold Fmt.strftime_Ymd, Fmt.pad4. by rewrite !all_app, !pad2_digits.
Qed.

Lemma wanted_title_cons (now : datetime) :
  wanted_title now = String "t" (Fmt.strftime_Ymd now).
Proof. reflexivity. Qed.

Lemma wanted_title_free (now : datetime) (c : ascii) :
  c ≠ "t"%char -> Str.isdigit c = false -> free_of c (wanted_title now).
Proof.
  intros Hc Hd. rewrite wanted_title_cons. apply free_of_cons. split; [done|].
  by apply (all_free Str.isdigit), Hd; [apply strftime_digits].
Qed.

Lemma copy_title_space (names : list string) (first : string) :
  Str.contains " " (copy_title names first).
Proof.
  assert (Str.contains " " (first +:+ " Copy")) as H.
  { apply contains_app_r. by left. }
  unfold copy_title.
  destruct (avoid_duplicate_name_cases names (first +:+ " Copy"))
    as [->|[n ->]]; [done|by apply contains_app_l].
Qed.

Lemma copy_title_not_wanted (now : datetime) (names : list string)
    (first : string) :
  Openpyxl.same_title (wanted_title now) (copy_title names first) = false.
Proof.
  unfold Openpyxl.same_title. apply String.eqb_neq. intros E.
  apply (lower_title_free " " (wanted_title now)).
  - vm_compute. lia.
  - by apply wanted_title_free.
  - rewrite <- E. apply lower_title_contains; [vm_compute; lia|].
    apply copy_title_space.
Qed.

Lemma same_title_refl (a : string) : Openpyxl.same_title a a = true.
Proof. apply String.eqb_refl. Qed.

(** what [copy_worksheet] and the assignment of the title come to *)
Lemma copy_worksheet_title (wb : list (string * cells)) (ws : string * cells) :
  Openpyxl.copy_worksheet wb ws = (copy_title (map fst wb) ws.1, ws.2).
Proof.
  unfold Openpyxl.copy_worksheet, Openpyxl.set_title, copy_title.
  by destruct ws as [[|c t] cs].
Qed.

Lemma set_title_new (now : datetime) (names : list string) (first : string) :
  Openpyxl.set_title (names ++ [copy_title names first])
                     (copy_title names first) (wanted_title now)
  = new_title now names first.
Proof.
  unfold Openpyxl.set_title, new_title.
  destruct (String.eqb_spec (copy_title names first) (wanted_title now))
    as [E|E]; [|done].
  pose proof (copy_title_not_wanted now names first) as H.
  by rewrite E, same_title_refl in H.
Qed.

Lemma new_title_fresh (now : datetime) (names : list string) (first : string) :
  new_title now names first ∉ names.
Proof.
  intros H.
  apply (avoid_duplicate_name_fresh (names ++ [copy_title names first])
           (wanted_title now)).
  - by rewrite wanted_title_cons.
  - by apply wanted_title_free.
  - apply elem_of_app. by left.
Qed.


Lemma index_of_fresh (x : string) (l : list string) :
  x ∉ l -> Openpyxl.index_of x (l ++ [x]) = Ok (length l).
Proof.
  induction l as [|y l IH]; intros H; simpl.
  - by rewrite String.eqb_refl.
  - apply not_elem_of_cons in H as [Hne H].
    destruct (String.eqb_spec y x) as [E|E]; [by subst|].
    by rewrite (IH H).
Qed.

(** * [write_excel] *)

Lemma index_snoc {A} (l : list A) (x : A) : index (l ++ [x]) (length l) = Ok x.
Proof.
  unfold index. rewrite lookup_app_r by lia. by rewrite Nat.sub_diag.
Qed.

Lemma delete_snoc {A} (l : list A) (x : A) : delete (length l) (l ++ [x]) = l.
Proof. induction l as [|y l IH]; simpl; [done|]. by rewrite IH. Qed.

(** [write_excel] on a workbook without a sheet *)
Lemma write_excel_no_sheet (now : datetime) (deps : list loc) (s : state) :
  book s = [] -> write_excel now deps s = (Raise IndexError, s).
Proof.
  intros H. unfold write_excel. rewrite run_bind. unfold gets at 1.
  cbv iota beta. rewrite H. reflexivity.
Qed.

(** [write_excel] on a workbook with a sheet: the copy of the first sheet is
    put in front under its new title and saved; then the cells are set, up
    to the first value that is refused, and when none is refused the
    workbook is saved with them *)
Lemma write_excel_run (now : datetime) (deps : list loc) (s : state)
    (first : string * cells) (rest : list (string * cells)) :
  book s = first :: rest ->
  let title := new_title now (map fst (book s)) first.1 in
  let handed := flat_map (cells_of s) (enumerate_from 3 deps) in
  write_excel now deps s =
  (if forallb takes handed then Ok tt else Raise IllegalCharacterError,
   set_book ((title, if forallb takes handed
                     then first.2 ++ map keeps handed else first.2) :: book s)
     (set_sheet_cells (fun l => l ++ taken handed)
        (set_sheet_title (Some title) s))).
Proof.
  intros Hbook title handed. unfold write_excel.
  rewrite run_bind. unfold gets at 1. cbv iota beta.
  rewrite run_bind. unfold lift at 1. rewrite Hbook at 1.
  change (index (first :: rest) 0) with (Ok (A := string * cells) first).
  cbv iota beta zeta.
  rewrite copy_worksheet_title. cbn [fst snd].
  change ("t" +:+ Fmt.strftime_Ymd now) with (wanted_title now).
  rewrite set_title_new. fold title.
  rewrite run_bind. unfold modify at 1. cbv iota beta.
  rewrite run_bind. unfold lift at 1.
  rewrite map_app. cbn [map fst].
  rewrite index_of_fresh by apply new_title_fresh.
  cbv iota beta. rewrite length_map.
  rewrite run_bind. unfold lift at 1. rewrite index_snoc. cbv iota beta.
  rewrite delete_snoc, Nat.eqb_refl.
  rewrite run_bind. unfold modify at 1. cbv iota beta.
  rewrite run_bind, write_rows_run.
  change (cells_of (set_book _ (set_sheet_title _ s))) with (cells_of s).
  fold handed.
  destruct (forallb takes handed); cbv iota beta.
  - unfold modify. rewrite concat_kept. fold handed. reflexivity.
  - reflexivity.
Qed.

(** * [scrape_data] as a whole *)

(** With no record the loop never binds [driver], and the call after it
    raises. *)
Lemma scrape_data_nil (br : browser) (s : state) :
  (scrape_data br [] s).1 = Raise UnboundLocalError.
Proof. reflexivity. Qed.

(** With a record, the scrape phase always reaches the formatting phase. *)
Lemma scrape_data_run (br : browser) (deps : list loc) (s : state) :
  deps ≠ [] ->
  exists s2,
    scraped_all br deps s s2
    /\ scrape_data br deps s =
       (match (format_loop deps s2).1 with
        | Ok _ => Ok deps
        | Raise e => Raise e
        end, (format_loop deps s2).2).
Proof.
  intros Hne. unfold scrape_data.
  rewrite run_bind. simpl. rewrite run_bind. simpl. rewrite run_bind. simpl.
  rewrite run_bind.
  match goal with |- context [scrape_loop br deps ?s0] =>
    destruct (scrape_loop_spec br deps s0) as (s1 & -> & Hpost)
  end.
  destruct Hpost as [H1 H2 H3 H4 H5 H6 H7 H8 H9].
  unfold launches, urls_of in *. simpl in *.
  rewrite run_bind. unfold driver_quit, the_driver. mrun.
  rewrite H9. destruct deps as [|d0 deps']; [done|]. simpl.
  match goal with |- context [format_loop _ ?s0] => exists s0 end.
  split.
  - split; simpl; try done.
    unfold launches. simpl. rewrite H6. by rewrite <- app_assoc.
  - match goal with |- context [format_loop ?d ?s0] =>
      destruct (format_loop d s0) as [[[]|e] s3]; reflexivity
    end.
Qed.

Lemma raw_rows_lookup (br : browser) (k j : nat) (us : list value) (u : value) :
  us !! j = Some u -> raw_rows br k us !! j = Some (row_of_page (br (k + j) u)).
Proof.
  revert k j. induction us as [|u0 us IH]; intros k [|j] H; simplify_eq/=.
  - by rewrite Nat.add_0_r.
  - rewrite (IH (S k) j H). do 3 f_equal. lia.
Qed.

Lemma urls_of_lookup (s : state) (deps : list loc) (k : nat) (dep : loc) :
  deps !! k = Some dep -> urls_of s deps !! k = Some (url (heap s dep)).
Proof. intros H. unfold urls_of. by rewrite list_lookup_fmap, H. Qed.

Lemma rows_format_loop (t : list (gmap string string)) deps :
  preserves (fun s => first_rows_of_version_table s = t) (format_loop deps).
Proof.
  unfold format_loop. apply preserves_for_each. intros i. apply rows_format_one.
Qed.

Lemma failed_format_loop (m : gmap nat value) deps :
  preserves (fun s => failed_url s = m) (format_loop deps).
Proof.
  unfold format_loop, format_one.
  preserve; try done; apply preserves_store; by intros.
Qed.

Lemma log_format_loop (l : list event) deps :
  preserves (fun s => log s = l) (format_loop deps).
Proof.
  unfold format_loop, format_one.
  preserve; try done; apply preserves_store; by intros.
Qed.

Lemma failures_none (br : browser) (k0 : nat) (us : list value)
    (m : gmap nat value) :
  (forall j u, us !! j = Some u -> completes (br (k0 + j) u) = true) ->
  failures br k0 us m = m.
Proof.
  revert k0 m. induction us as [|u us IH]; intros k0 m H; [done|].
  simpl. rewrite IH.
  - specialize (H 0 u eq_refl). rewrite Nat.add_0_r in H.
    unfold file_failure, failure_key. destruct (br k0 u); [done|].
    by rewrite H.
  - intros j u' Hj. replace (S k0 + j) with (k0 + S j) by lia. by apply H.
Qed.

Lemma failures_one (br : browser) (k0 j : nat) (us : list value)
    (u : value) (m : gmap nat value) :
  us !! j = Some u ->
  br (k0 + j) u = Unreachable ->
  (forall j' u', j' ≠ j -> us !! j' = Some u' ->
     completes (br (k0 + j') u') = true) ->
  failures br k0 us m = <[k0 + j := u]> m.
Proof.
  revert k0 j m. induction us as [|u0 us IH]; intros k0 j m Hj Hbr Hrest;
    [done|].
  destruct j as [|j]; simpl in *.
  - simplify_eq. rewrite Nat.add_0_r in *.
    rewrite failures_none.
    + unfold file_failure, failure_key. by rewrite Hbr.
    + intros j u' Hj. replace (S k0 + j) with (k0 + S j) by lia.
      by apply Hrest.
  - rewrite (IH (S k0) j); try done.
    + specialize (Hrest 0 u0 ltac:(lia) eq_refl). rewrite Nat.add_0_r in Hrest.
      unfold file_failure, failure_key. destruct (br k0 u0); [done|].
      rewrite Hrest. f_equal. lia.
    + by replace (S k0 + j) with (k0 + S j) by lia.
    + intros j' u' Hne Hj'. replace (S k0 + j') with (k0 + S j') by lia.
      apply Hrest; [lia|done].
Qed.

Lemma open_sessions_sessions (h : nat) (us : list value) :
  open_sessions [] (sessions h us) = [].
Proof.
  revert h. induction us as [|u us IH]; intros h; [done|].
  cbn [sessions session app open_sessions].
  rewrite filter_cons_False by (intros H; by apply H).
  rewrite filter_nil. apply IH.
Qed.

Lemma launches_of_sessions (h : nat) (us : list value) :
  List.filter is_launch (sessions h us) = map Launch (seq h (length us)).
Proof.
  revert h. induction us as [|u us IH]; intros h; [done|].
  simpl. by rewrite IH.
Qed.

(** the labels of a raw outcome are labels of the header row *)
Lemma pair_cells_key (r : gmap string string) (hs : list string)
    (cs : list (option string)) (key : string) :
  is_Some (pair_cells r hs cs !! key) -> is_Some (r !! key) \/ key ∈ hs.
Proof.
  revert r cs. induction hs as [|h hs IH]; intros r [|c cs] H; simpl in *;
    try (by left).
  rewrite pair_cells_cons in H. apply IH in H as [H|H].
  - destruct (decide (h = key)) as [->|Hne].
    + right. by left.
    + left. by rewrite lookup_insert_ne in H.
  - right. by right.
Qed.

Lemma missing_key_of_page (hs : list string) (cs : list (option string)) :
  ¬ ("Version" ∈ hs /\ "Vulnerabilities" ∈ hs /\ "Date" ∈ hs) ->
  is_Some (missing_key (pair_cells ∅ hs cs)).
Proof.
  intros Hnot. unfold missing_key.
  destruct (pair_cells ∅ hs cs !! "Version") eqn:H1; [|by eexists].
  destruct (pair_cells ∅ hs cs !! "Date") eqn:H2; [|by eexists].
  destruct (pair_cells ∅ hs cs !! "Vulnerabilities") eqn:H3; [|by eexists].
  exfalso. apply Hnot.
  assert (forall key, is_Some (pair_cells ∅ hs cs !! key) -> key ∈ hs) as Hin.
  { intros key H. apply pair_cells_key in H as [H|H]; [|done].
    rewrite lookup_empty in H. by destruct H. }
  repeat split; apply Hin; eauto.
Qed.

(** what [scrape_data] leaves alone: whatever is no record, no browser and
    no variable of its own *)
Lemma kept_scrape_data (P : state -> Prop) (br : browser) (deps : list loc) :
  (forall s f, P s -> P (set_heap f s)) ->
  (forall s f, P s -> P (set_log f s)) ->
  (forall s f, P s -> P (set_first_rows f s)) ->
  (forall s f, P s -> P (set_failed_url f s)) ->
  (forall s d, P s -> P (set_driver d s)) ->
  (forall s i, P s -> P (set_i i s)) ->
  (forall s f, P s -> P (set_rowData f s)) ->
  preserves P (scrape_data br deps).
Proof.
  intros H1 H2 H3 H4 H5 H6 H7.
  unfold scrape_data, scrape_loop, format_loop, driver_quit, scrape_one,
    scrape_page, scrape_failed, driver_get, driver_close, format_one.
  preserve; eauto; try (apply preserves_store; intros; by apply H1).
  match goal with
  | |- preserves _ (match ?p with Unreachable => _ | Versions _ _ => _ end) =>
      destruct p
  end; preserve; eauto.
  unfold read_cell. preserve; eauto.
Qed.

(** * The JSON text read back *)

Lemma literal_escape_char (c : ascii) (tail : string) :
  Reader.literal (Json.escape_char c +:+ tail)
  = '(t, rest) ← Reader.literal tail; Some (String c t, rest).
Proof.
  destruct c as [[] [] [] [] [] [] [] []]; reflexivity.
Qed.

Lemma literal_escape (s rest : string) :
  Reader.literal (Json.escape s +:+ String Json.quote rest) = Some (s, rest).
Proof.
  induction s as [|c s IH]; [done|].
  simpl Json.escape. rewrite append_assoc, literal_escape_char, IH. done.
Qed.

(** a string written by the encoder is read back as it was *)
Lemma text_encode_str (s rest : string) :
  Reader.text (Json.encode_str s +:+ rest) = Some (s, rest).
Proof.
  unfold Json.encode_str. rewrite append_cons. cbn [Reader.text].
  change (Str.code Json.quote =? 34) with true. cbv iota.
  rewrite append_assoc, append_cons, append_nil_l. apply literal_escape.
Qed.

Lemma skip_encode_str (s r : string) :
  Reader.skip (Json.encode_str s +:+ r) = Json.encode_str s +:+ r.
Proof. reflexivity. Qed.

Lemma skip_nl_indent2 (r : string) :
  Reader.skip (Json.nl +:+ Json.indent2 +:+ r) = Reader.skip r.
Proof. reflexivity. Qed.

Lemma skip_nl_indent1 (r : string) :
  Reader.skip (Json.nl +:+ Json.indent1 +:+ r) = Reader.skip r.
Proof. reflexivity. Qed.

Lemma skip_indent1 (r : string) :
  Reader.skip (Json.indent1 +:+ r) = Reader.skip r.
Proof. reflexivity. Qed.

Lemma skip_nl (r : string) : Reader.skip (Json.nl +:+ r) = Reader.skip r.
Proof. reflexivity. Qed.

Lemma member_text_line (key v : string) :
  Json.member key (VStr v) = Ok (member_line key v).
Proof. reflexivity. Qed.

(** one member is read, and the reader goes on with what follows it *)
Lemma members_step (fuel : nat) (key v tail : string) :
  Reader.members (S fuel) (Json.nl +:+ member_line key v +:+ tail)
  = match Reader.skip tail with
    | String "," r4 =>
        '(ms, r5) ← Reader.members fuel r4; Some ((key, v) :: ms, r5)
    | String "}" r4 => Some ([(key, v)], r4)
    | _ => None
    end.
Proof.
  unfold member_line. cbn [Reader.members].
  rewrite !append_assoc, skip_nl_indent2, skip_encode_str, text_encode_str.
  cbn [mbind option_bind]. 
  change (Reader.skip (": " +:+ Json.encode_str v +:+ tail))
    with (String ":" (" " +:+ Json.encode_str v +:+ tail)).
  cbv iota.
  change (Reader.skip (" " +:+ Json.encode_str v +:+ tail))
    with (Reader.skip (Json.encode_str v +:+ tail)).
  rewrite skip_encode_str, text_encode_str. reflexivity.
Qed.

Lemma object_json_text (l v d u : string) :
  Json.object (Dependency (VStr l) (VStr v) (VStr d) (VStr u))
  = Ok (object_text l v d u).
Proof. reflexivity. Qed.

Lemma json_form_texts (d : dependency) :
  json_form d = Dependency (VStr (member_text (library d)))
                           (VStr (member_text (vulnerabilities d)))
                           (VStr (member_text (date d)))
                           (VStr (member_text (url d))).
Proof. by destruct d as [[] [] [] []]. Qed.

Lemma object_read (fuel : nat) (l v d u tail : string) :
  4 ≤ fuel ->
  Reader.object fuel (Json.indent1 +:+ object_text l v d u +:+ tail)
  = Some ([("library", l); ("vulnerabilities", v); ("date", d); ("url", u)],
          tail).
Proof.
  intros Hf. destruct fuel as [|[|[|[|fuel]]]]; try lia.
  unfold Reader.object, object_text.
  rewrite !append_assoc, skip_indent1.
  change (Reader.skip ("{" +:+ ?r)) with (String "{" r). cbv iota.
  match goal with
  | |- context [Reader.skip (Json.nl +:+ member_line ?k ?x +:+ ?r)] =>
      change (Reader.skip (Json.nl +:+ member_line k x +:+ r))
        with (Json.encode_str k +:+ ": " +:+ Json.encode_str x +:+ r)
  end.
  unfold Json.encode_str at 1. rewrite append_cons. cbv iota.
  rewrite members_step.
  change (Reader.skip ("," +:+ ?r)) with (String "," r). cbv iota.
  rewrite members_step.
  change (Reader.skip ("," +:+ ?r)) with (String "," r). cbv iota.
  rewrite members_step.
  change (Reader.skip ("," +:+ ?r)) with (String "," r). cbv iota.
  rewrite members_step.
  rewrite skip_nl_indent1.
  change (Reader.skip ("}" +:+ tail)) with (Reader.skip (String "}" tail)).
  reflexivity.
Qed.

Lemma object_form (d : dependency) :
  Json.object (json_form d)
  = Ok (object_text (member_text (library d)) (member_text (vulnerabilities d))
                    (member_text (date d)) (member_text (url d))).
Proof. by rewrite json_form_texts. Qed.

Lemma items_cons (d : dependency) (l : list dependency) :
  Json.items (map json_form (d :: l)) =
  rest ← Json.items (map json_form l);
  Ok (match l with
      | [] => Json.indent1
              +:+ object_text (member_text (library d))
                    (member_text (vulnerabilities d))
                    (member_text (date d)) (member_text (url d))
              +:+ Json.nl
      | _ => Json.indent1
             +:+ object_text (member_text (library d))
                   (member_text (vulnerabilities d))
                   (member_text (date d)) (member_text (url d))
             +:+ "," +:+ Json.nl +:+ rest
      end).
Proof.
  cbn [map Json.items]. rewrite object_form. cbn [mbind result_bind].
  destruct (Json.items (map json_form l)); [|done]. by destruct l.
Qed.

Lemma elements_nl (fuel : nat) (s : string) :
  Reader.elements fuel (Json.nl +:+ s) = Reader.elements fuel s.
Proof. by destruct fuel. Qed.

Lemma items_length (l : list dependency) (body : string) :
  Json.items (map json_form l) = Ok body -> length l ≤ String.length body.
Proof.
  revert body. induction l as [|d l IH]; intros body H; [simpl; lia|].
  rewrite items_cons in H.
  destruct (Json.items (map json_form l)) as [rest|]; [|done].
  specialize (IH rest eq_refl). simpl in H. injection H as <-.
  destruct l; rewrite !length_append; simpl in *; lia.
Qed.

Lemma items_head (d : dependency) (l : list dependency) (body : string) :
  Json.items (map json_form (d :: l)) = Ok body ->
  exists x, body = Json.indent1 +:+ "{" +:+ x.
Proof.
  rewrite items_cons.
  destruct (Json.items (map json_form l)) as [rest|]; [|done].
  simpl. intros [= <-]. unfold object_text.
  destruct l; rewrite !append_assoc; by eexists.
Qed.

(** the elements of the array are read back, one for each record and in
    their order *)
Lemma elements_read (l : list dependency) (fuel : nat) (body tail : string) :
  l ≠ [] -> length l + 3 ≤ fuel ->
  Json.items (map json_form l) = Ok body ->
  Reader.elements fuel (body +:+ "]" +:+ tail) = Some (map read_back l, tail).
Proof.
  revert fuel body. induction l as [|d l IH]; intros fuel body Hne Hf H; [done|].
  rewrite items_cons in H.
  destruct (Json.items (map json_form l)) as [rest|] eqn:Hrest; [|done].
  simpl in H. injection H as <-.
  destruct fuel as [|fuel]; [simpl in Hf; lia|]. cbn [Reader.elements].
  destruct l as [|d' l].
  - rewrite !append_assoc, object_read by (simpl in Hf; lia).
    cbn [mbind option_bind]. rewrite skip_nl.
    change (Reader.skip ("]" +:+ tail)) with (Reader.skip (String "]" tail)).
    reflexivity.
  - rewrite !append_assoc, object_read by (simpl in Hf; lia).
    cbn [mbind option_bind].
    change (Reader.skip ("," +:+ ?r)) with (String "," r). cbv iota.
    rewrite elements_nl.
    rewrite (IH fuel rest) by (try done; simpl in *; lia).
    reflexivity.
Qed.

(** the text [json.dump] writes for records in their JSON form is read back
    as those records, one after the other *)
Lemma loads_dumps (l : list dependency) (text : string) :
  Json.dumps (map json_form l) = Ok text ->
  Reader.loads text = Some (map read_back l).
Proof.
  destruct l as [|d l]; [by intros [= <-]|].
  unfold Json.dumps. change (map json_form (d :: l))
    with (json_form d :: map json_form l).
  change (json_form d :: map json_form l) with (map json_form (d :: l)).
  destruct (Json.items (map json_form (d :: l))) as [body|] eqn:Hbody; [|done].
  simpl. intros [= <-].
  destruct (items_head d l body Hbody) as (x & Hx).
  pose proof (items_length _ _ Hbody) as Hlen.
  unfold Reader.loads.
  change (Reader.skip ("[" +:+ ?r)) with (String "[" r). cbv iota.
  rewrite skip_nl. rewrite Hx at 1. rewrite !append_assoc, skip_indent1.
  change (Reader.skip ("{" +:+ ?r)) with (String "{" r). cbv iota.
  rewrite elements_nl.
  rewrite <- (append_nil_r (body +:+ "]")) at 2. rewrite append_assoc.
  rewrite (elements_read (d :: l)); [reflexivity|done| |exact Hbody].
  rewrite !length_append. simpl in *. lia.
Qed.

(** ** The layout of the text *)

Lemma escape_char_line (c : ascii) :
  Str.all not_newline (Json.escape_char c) = true.
Proof. destruct c as [[] [] [] [] [] [] [] []]; reflexivity. Qed.

Lemma escape_line (s : string) : Str.all not_newline (Json.escape s) = true.
Proof.
  induction s as [|c s IH]; [done|].
  simpl Json.escape. by rewrite all_app, escape_char_line, IH.
Qed.

Lemma line_free (s : string) :
  Str.all not_newline s = true -> free_of Json.newline s.
Proof. intros H. by apply (all_free not_newline). Qed.

Lemma encode_str_line (s : string) :
  Str.all not_newline (Json.encode_str s) = true.
Proof.
  unfold Json.encode_str. rewrite all_cons, all_app, escape_line. reflexivity.
Qed.

Lemma member_line_line (key v : string) :
  Str.all not_newline (member_line key v) = true.
Proof.
  unfold member_line. by rewrite !all_app, !encode_str_line.
Qed.

Lemma member_line_indentation (key v tail : string) :
  indentation (member_line key v +:+ tail) = 8.
Proof. reflexivity. Qed.

(** a line and what follows it *)
Lemma lines_cons (a r : string) :
  Str.all not_newline a = true ->
  map indentation (lines (a +:+ Json.nl +:+ r))
  = indentation a :: map indentation (lines r).
Proof.
  intros Ha. unfold lines.
  change (Json.nl +:+ r) with (String Json.newline r).
  by rewrite split_app, (split_free _ _ (line_free _ Ha)).
Qed.

Lemma lines_last (a : string) :
  Str.all not_newline a = true ->
  map indentation (lines a) = [indentation a].
Proof.
  intros Ha. unfold lines. by rewrite (split_free _ _ (line_free _ Ha)).
Qed.

(** the six lines of an object, then what follows its closing brace *)
Lemma object_lines (l v d u after r : string) :
  Str.all not_newline after = true ->
  map indentation
    (lines (Json.indent1 +:+ object_text l v d u +:+ after +:+ Json.nl +:+ r))
  = [4; 8; 8; 8; 8; 4] ++ map indentation (lines r).
Proof.
  intros Hafter. unfold object_text. rewrite !append_assoc.
  rewrite <- (append_assoc Json.indent1 "{"), lines_cons by done.
  rewrite <- (append_assoc (member_line "library" l) ","), lines_cons
    by (by rewrite all_app, member_line_line).
  rewrite <- (append_assoc (member_line "vulnerabilities" v) ","), lines_cons
    by (by rewrite all_app, member_line_line).
  rewrite <- (append_assoc (member_line "date" d) ","), lines_cons
    by (by rewrite all_app, member_line_line).
  rewrite lines_cons by apply member_line_line.
  rewrite <- (append_assoc "}" after), <- (append_assoc Json.indent1).
  rewrite lines_cons by (by rewrite !all_app, Hafter).
  reflexivity.
Qed.

Lemma items_layout (l : list dependency) (body : string) :
  l ≠ [] -> Json.items (map json_form l) = Ok body ->
  map indentation (lines (body +:+ "]"))
  = concat (replicate (length l) [4; 8; 8; 8; 8; 4]) ++ [0].
Proof.
  revert body. induction l as [|d l IH]; intros body Hne H; [done|].
  rewrite items_cons in H.
  destruct (Json.items (map json_form l)) as [rest|] eqn:Hrest; [|done].
  simpl in H. injection H as <-. destruct l as [|d' l].
  - rewrite !append_assoc.
    rewrite <- (append_nil_l (Json.nl +:+ "]")), object_lines by done.
    reflexivity.
  - rewrite !append_assoc, object_lines by done.
    rewrite (IH rest) by done. reflexivity.
Qed.

(** the text is laid out as an array of objects indented by four spaces *)
Lemma dumps_layout (l : list dependency) (text : string) :
  Json.dumps (map json_form l) = Ok text ->
  map indentation (lines text) = pretty_layout (length l).
Proof.
  destruct l as [|d l]; [by intros [= <-]|].
  unfold Json.dumps. change (map json_form (d :: l))
    with (json_form d :: map json_form l).
  change (json_form d :: map json_form l) with (map json_form (d :: l)).
  destruct (Json.items (map json_form (d :: l))) as [body|] eqn:Hbody; [|done].
  simpl mbind. intros [= <-].
  rewrite lines_cons by done.
  by rewrite (items_layout (d :: l) body).
Qed.

(** ** The name of the file *)

Lemma digit_value_digit (n : Z) : Str.digit_value (Fmt.digit n) = (n mod 10)%Z.
Proof.
  unfold Str.digit_value, Fmt.digit, Str.code.
  pose proof (Z.mod_pos_bound n 10 ltac:(lia)) as H.
  rewrite nat_ascii_embedding by lia. lia.
Qed.

Lemma number_pad2 (n : Z) : (0 <= n < 100)%Z -> number (Fmt.pad2 n) = Some n.
Proof.
  intros H. unfold number, Fmt.pad2. cbn [number_from].
  rewrite !digit_isdigit, !digit_value_digit. f_equal.
  Z.div_mod_to_equations. lia.
Qed.

Lemma number_pad4 (n : Z) : (0 <= n < 10000)%Z -> number (Fmt.pad4 n) = Some n.
Proof.
  intros H. unfold number, Fmt.pad4, Fmt.pad2.
  rewrite !append_cons, append_nil_l. cbn [number_from].
  rewrite !digit_isdigit, !digit_value_digit. f_equal.
  Z.div_mod_to_equations. lia.
Qed.

(** the name of the file is the date in eight digits *)
Lemma strftime_stamp (now : datetime) :
  (0 <= year now < 10000)%Z -> (0 <= month now < 100)%Z ->
  (0 <= day now < 100)%Z ->
  date_stamp (year now) (month now) (day now) (Fmt.strftime_Ymd now).
Proof.
  intros Hy Hm Hd. exists (Fmt.pad4 (year now)), (Fmt.pad2 (month now)),
    (Fmt.pad2 (day now)).
  split; [reflexivity|]. repeat split; try reflexivity.
  - by apply number_pad4.
  - by apply number_pad2.
  - by apply number_pad2.
Qed.

(** * Properties of [scrape_data] *)

(** what the scrape phase has done when [scrape_data] stops, whether it
    returns or raises *)
Lemma scrape_data_final (br : browser) (deps : list loc) (s : state) :
  deps ≠ [] ->
  let s' := (scrape_data br deps s).2 in
  first_rows_of_version_table s' = raw_rows br 0 (urls_of s deps)
  /\ failed_url s' = failures br 0 (urls_of s deps) ∅
  /\ log s' = log s ++ sessions (launches s) (urls_of s deps)
                ++ [Quit (launches s + length deps - 1)].
Proof.
  intros Hne. destruct (scrape_data_run br deps s Hne) as (s2 & Hs2 & ->).
  destruct Hs2 as [_ _ _ _ _ Hrows Hfailed Hlog]. simpl.
  split; [|split].
  - by apply rows_format_loop.
  - by apply failed_format_loop.
  - by apply log_format_loop.
Qed.

Lemma scrape_data_ok (br : browser) (deps : list loc) (s : state) :
  deps ≠ [] ->
  (forall k dep, deps !! k = Some dep ->
     normalizable (row_of_page (br k (url (heap s dep)))) = true
     /\ is_text (library (heap s dep)) = true) ->
  (scrape_data br deps s).1 = Ok deps.
Proof.
  intros Hne Hall. destruct (scrape_data_run br deps s Hne) as (s2 & Hs2 & ->).
  destruct Hs2 as [Hheap _ _ _ _ Hrows _ _]. simpl.
  destruct (format_loop_ok deps (length deps) 0 s2) as (s3 & Hrun).
  - intros i [_ Hi]. simpl in Hi.
    destruct (lookup_lt_is_Some_2 deps i Hi) as [dep Hdep].
    destruct (Hall i dep Hdep) as [Hn Ht].
    exists (row_of_page (br i (url (heap s dep)))), dep.
    rewrite Hrows, Hheap. repeat split; try done.
    by rewrite (raw_rows_lookup br 0 i _ _ (urls_of_lookup s deps i dep Hdep)).
  - unfold format_loop. by rewrite Hrun.
Qed.

(** C1, as stated, fails: a record whose page shows a date in another
    pattern makes [scrape_data] raise, so no list of any length comes back. *)
Lemma scrape_data_can_abort :
  ¬ (forall (br : browser) (deps : list loc) (s : state),
       exists out s', scrape_data br deps s = (Ok out, s')
                      /\ length out = length deps).
Proof.
  intros H.
  destruct (H (fun _ _ => Versions ["Version"; "Vulnerabilities"; "Date"]
                            [Some "1.0"; Some "0"; Some "2024-01-05"])
              [0] initial) as (out & s' & Hrun & _).
  apply (f_equal fst) in Hrun. vm_compute in Hrun. discriminate.
Qed.

(** C1, amended: for a list of N >= 1 records the scrape phase appends one
    raw outcome per record, in the order of the list, whatever the pages do;
    when [scrape_data] returns, it returns the list it was given, record for
    record; and it does return when every raw outcome can be formatted and
    every library cell holds text or nothing, which is so in particular when
    every scrape fails. *)
Theorem scrape_data_keeps_every_record (br : browser) (dependencies : list loc)
    (s : state) :
  dependencies ≠ [] ->
  let r := scrape_data br dependencies s in
  first_rows_of_version_table r.2 = raw_rows br 0 (urls_of s dependencies)
  /\ length (first_rows_of_version_table r.2) = length dependencies
  /\ (forall out, r.1 = Ok out -> out = dependencies)
  /\ ((forall k dep, dependencies !! k = Some dep ->
         normalizable (row_of_page (br k (url (heap s dep)))) = true
         /\ is_text (library (heap s dep)) = true) ->
      r.1 = Ok dependencies)
  /\ ((forall k u, br k u = Unreachable) ->
      (forall dep, dep ∈ dependencies -> is_text (library (heap s dep)) = true) ->
      r.1 = Ok dependencies).
Proof.
  intros Hne r. subst r.
  destruct (scrape_data_final br dependencies s Hne) as (Hrows & _ & _).
  split; [exact Hrows|split; [|split; [|split]]].
  - rewrite Hrows, raw_rows_length. unfold urls_of. by rewrite length_map.
  - intros out. apply scrape_data_returns_its_argument.
  - by apply scrape_data_ok.
  - intros Hbr Hlib. apply scrape_data_ok; [done|].
    intros k dep Hdep. rewrite Hbr. split; [by vm_compute|].
    apply Hlib. by eapply list_elem_of_lookup_2.
Qed.

Lemma scrape_data_keeps_every_record_witness :
  (scrape_data (fun _ _ => Unreachable) [0] initial).1 = Ok [0].
Proof.
  destruct (scrape_data_keeps_every_record (fun _ _ => Unreachable) [0] initial)
    as (_ & _ & _ & _ & H); [discriminate|].
  apply H; [reflexivity|].
  intros dep _. reflexivity.
Defined.

(** C4: a record whose navigation or element lookup raises gets the default
    outcome with the three empty fields, its url is filed under the position
    of the record, the browser is sent to the url once, and the loop goes on
    to the next record; when the record at position [k] is the only one that
    fails, the failure map the run ends with is exactly [k] mapped to the
    url of that record. *)
Theorem failed_scrape_is_recorded (br : browser) (dependencies : list loc)
    (s : state) (k : nat) (dep : loc) :
  dependencies !! k = Some dep ->
  br k (url (heap s dep)) = Unreachable ->
  let u := url (heap s dep) in
  (forall s0, url (heap s0 dep) = u ->
     exists s1, scrape_one br k dep s0 = (Ok tt, s1)
       /\ first_rows_of_version_table s1 =
          first_rows_of_version_table s0 ++ [default_row]
       /\ failed_url s1 = <[k := u]> (failed_url s0)
       /\ log s1 = log s0 ++ [Launch (launches s0); Get (launches s0) u;
                             Close (launches s0)])
  /\ default_row !! "Version" = Some EmptyString
  /\ default_row !! "Vulnerabilities" = Some EmptyString
  /\ default_row !! "Date" = Some EmptyString
  /\ ((forall j d, j ≠ k -> dependencies !! j = Some d ->
         completes (br j (url (heap s d))) = true) ->
      let s' := (scrape_data br dependencies s).2 in
      failed_url s' = {[ k := u ]}
      /\ first_rows_of_version_table s' !! k = Some default_row
      /\ length (first_rows_of_version_table s') = length dependencies).
Proof.
  intros Hdep Hbr u.
  split; [|split; [|split; [|split]]]; [| by vm_compute..|].
  - intros s0 Hu. destruct (scrape_one_spec br k dep s0) as (i' & ->).
    eexists. split; [reflexivity|]. unfold scraped, launches. simpl.
    subst u. rewrite Hu, Hbr. done.
  - intros Hothers s'. subst s' u.
    assert (dependencies ≠ []) as Hne by (by destruct dependencies).
    destruct (scrape_data_final br dependencies s Hne) as (Hrows & Hfailed & _).
    rewrite Hrows, Hfailed. split; [|split].
    + rewrite (failures_one br 0 k _ (url (heap s dep))); try done.
      * by apply urls_of_lookup.
      * intros j' u' Hne' Hj'. unfold urls_of in Hj'.
        rewrite list_lookup_fmap in Hj'.
        destruct (dependencies !! j') as [d|] eqn:Hd; simplify_eq/=.
        by apply Hothers.
    + rewrite (raw_rows_lookup br 0 k _ (url (heap s dep)))
        by (by apply urls_of_lookup).
      simpl. by rewrite Hbr.
    + rewrite raw_rows_length. unfold urls_of. by rewrite length_map.
Qed.

Lemma failed_scrape_is_recorded_witness :
  failed_url (scrape_data
    (fun k _ => match k with
                | 1 => Unreachable
                | _ => Versions ["Version"; "Vulnerabilities"; "Date"]
                                [Some "1.0"; Some "2 issues"; Some "Jan 5, 2024"]
                end) [0; 1; 2] initial).2 = {[ 1 := VNaN ]}.
Proof.
  refine (proj1 (proj2 (proj2 (proj2 (proj2
    (failed_scrape_is_recorded _ [0; 1; 2] initial 1 1 eq_refl eq_refl)))) _)).
  intros [|[|[|j]]] d Hj Hd; try done.
Defined.

(** C7: the body run for a record launches one browser and closes that
    very handle before the body ends, whether the page is read to the end,
    the navigation or a lookup raises, or a cell has no label; over the whole
    loop the sessions follow one another, one per record and each on a handle
    of its own, and none is left open. *)
Theorem browser_closed_every_time (br : browser) (dependencies : list loc)
    (s : state) :
  (forall k dep s0, exists s1,
     scrape_one br k dep s0 = (Ok tt, s1)
     /\ log s1 = log s0 ++ [Launch (launches s0);
                            Get (launches s0) (url (heap s0 dep));
                            Close (launches s0)])
  /\ (exists s1,
        scrape_loop br dependencies s = (Ok tt, s1)
        /\ log s1 = log s ++ sessions (launches s) (urls_of s dependencies))
  /\ List.filter is_launch (sessions (launches s) (urls_of s dependencies))
     = map Launch (seq (launches s) (length dependencies))
  /\ open_sessions [] (sessions (launches s) (urls_of s dependencies)) = [].
Proof.
  split; [|split; [|split]].
  - intros k dep s0. destruct (scrape_one_spec br k dep s0) as (i' & ->).
    eexists. split; reflexivity.
  - destruct (scrape_loop_spec br dependencies s) as (s1 & Hrun & Hpost).
    exists s1. split; [exact Hrun|]. apply Hpost.
  - rewrite launches_of_sessions. unfold urls_of. by rewrite length_map.
  - apply open_sessions_sessions.
Qed.

(** C10: when the page of a record is read to the end but its header row
    lacks one of the three labels, the record keeps the outcome read from
    the page, the handler does not run for it, and [scrape_data] raises
    instead of returning; the exception is the lookup error for the first
    label the outcome lacks when the records before it can be formatted. *)
Theorem missing_label_aborts_run (br : browser) (dependencies : list loc)
    (s : state) (k : nat) (dep : loc) (hs : list string)
    (cs : list (option string)) :
  dependencies !! k = Some dep ->
  br k (url (heap s dep)) = Versions hs cs ->
  length cs ≤ length hs ->
  ¬ ("Version" ∈ hs /\ "Vulnerabilities" ∈ hs /\ "Date" ∈ hs) ->
  let r := scrape_data br dependencies s in
  (exists e, r.1 = Raise e)
  /\ first_rows_of_version_table r.2 !! k = Some (pair_cells ∅ hs cs)
  /\ failure_key k (br k (url (heap s dep))) = None
  /\ (exists key, missing_key (pair_cells ∅ hs cs) = Some key
        /\ ((forall j d, j < k -> dependencies !! j = Some d ->
               normalizable (row_of_page (br j (url (heap s d)))) = true
               /\ is_text (library (heap s d)) = true) ->
            r.1 = Raise (KeyError key))).
Proof.
  intros Hdep Hbr Hlen Hnot r. subst r.
  assert (dependencies ≠ []) as Hne by (by destruct dependencies).
  assert (row_of_page (br k (url (heap s dep))) = pair_cells ∅ hs cs) as Hrow.
  { rewrite Hbr. unfold row_of_page, completes.
    by rewrite bool_decide_eq_true_2. }
  destruct (missing_key_of_page hs cs Hnot) as [key Hkey].
  destruct (scrape_data_final br dependencies s Hne) as (Hrows & _ & _).
  pose proof (raw_rows_lookup br 0 k _ _ (urls_of_lookup s _ k dep Hdep)) as Hk.
  simpl in Hk. rewrite Hrow in Hk.
  destruct (scrape_data_run br dependencies s Hne) as (s2 & Hs2 & Hrun).
  destruct Hs2 as [Hheap _ _ _ _ Hrows2 _ _].
  apply lookup_lt_Some in Hdep as Hlt.
  split; [|split; [|split]].
  - rewrite Hrun. simpl. unfold format_loop.
    destruct (format_loop_aborts dependencies (length dependencies) 0 k s2
                (pair_cells ∅ hs cs)) as (e & s3 & ->); [lia| |by eexists|].
    + by rewrite Hrows2.
    + by exists e.
  - by rewrite Hrows.
  - rewrite Hbr. unfold failure_key, completes.
    by rewrite bool_decide_eq_true_2.
  - exists key. split; [exact Hkey|]. intros Hpre.
    rewrite Hrun. simpl. unfold format_loop.
    destruct (format_loop_first_missing dependencies (length dependencies) k s2
                (pair_cells ∅ hs cs) key) as (s3 & ->); try done.
    + intros i Hi.
      destruct (lookup_lt_is_Some_2 dependencies i ltac:(lia)) as [d Hd].
      destruct (Hpre i d Hi Hd) as [Hn Ht].
      exists (row_of_page (br i (url (heap s d)))), d.
      rewrite Hrows2, Hheap. repeat split; try done.
      by rewrite (raw_rows_lookup br 0 i _ _ (urls_of_lookup s _ i d Hd)).
    + by rewrite Hrows2.
Qed.

Lemma missing_label_aborts_run_witness :
  (scrape_data (fun _ _ => Versions ["Release"; "Vulnerabilities"; "Date"]
                             [Some "1.0"; Some "0"; Some "Jan 5, 2024"])
               [0] initial).1 = Raise (KeyError "Version").
Proof.
  destruct (missing_label_aborts_run
    (fun _ _ => Versions ["Release"; "Vulnerabilities"; "Date"]
                         [Some "1.0"; Some "0"; Some "Jan 5, 2024"])
    [0] initial 0 0 ["Release"; "Vulnerabilities"; "Date"]
    [Some "1.0"; Some "0"; Some "Jan 5, 2024"] eq_refl eq_refl)
    as (_ & _ & _ & key & Hkey & H).
  - simpl. lia.
  - intros (H & _). rewrite !elem_of_cons, elem_of_nil in H.
    destruct H as [H|[H|[H|[]]]]; discriminate.
  - vm_compute in Hkey. injection Hkey as <-. apply H. intros j d Hj. lia.
Defined.

(** * Properties of the formatters *)


Lemma formatDate_text (s : string) :
  s ≠ EmptyString ->
  formatDate (VStr s) = match Strptime.strptime s with
                        | Ok d => Ok (VDatetime d)
                        | Raise e => Raise e
                        end.
Proof. by destruct s. Qed.

(** C3: [formatDate] gives the absent marker for an empty or missing input;
    a text that matches the pattern and names a date of the calendar gives
    that date, so "Jan 5, 2024" gives 2024-01-05; every other text, such as
    "2024-01-05", raises [ValueError], which nothing swallows. *)
Theorem formatDate_spec :
  formatDate (VStr EmptyString) = Ok VNaN
  /\ formatDate VNaN = Ok VNaN
  /\ formatDate (VStr "Jan 5, 2024")
     = Ok (VDatetime (Strptime.at_midnight 2024 1 5))
  /\ formatDate (VStr "2024-01-05") = Raise ValueError
  /\ (forall s y m d, Pattern.names_date s y m d ->
        formatDate (VStr s) = Ok (VDatetime (Strptime.at_midnight y m d)))
  /\ (forall s, s ≠ EmptyString ->
        (¬ exists y m d, Pattern.names_date s y m d) ->
        formatDate (VStr s) = Raise ValueError).
Proof.
  split; [reflexivity|split; [reflexivity|split; [reflexivity|
    split; [reflexivity|split]]]].
  - intros s y m d H. rewrite formatDate_text.
    + by rewrite (strptime_complete _ y m d H).
    + destruct H as [(mon & ? & ? & ? & ? & -> & Hm & _) _].
      by destruct (month_text_three m mon Hm) as (a & b & c & -> & _).
  - intros s Hne Hnot. rewrite formatDate_text by done.
    destruct (Strptime.strptime s) as [dt|e] eqn:Hp.
    + exfalso. apply Hnot. apply strptime_sound in Hp as (y & m & d & H & _).
      by exists y, m, d.
    + apply strptime_raises in Hp as ->. reflexivity.
Qed.

Lemma formatDate_spec_witness :
  formatDate (VStr "Dec 31,  1999")
  = Ok (VDatetime (Strptime.at_midnight 1999 12 31)).
Proof.
  apply (proj1 (proj2 (proj2 (proj2 (proj2 formatDate_spec))))).
  split; [|reflexivity].
  exists "Dec", " ", "31", "  ", "1999".
  split; [reflexivity|]. split; [split; [lia|reflexivity]|].
  split; [split; [discriminate|reflexivity]|].
  split.
  - right. exists "3"%char, "1"%char.
    split; [reflexivity|]. split; [reflexivity|]. split; [reflexivity|].
    split; [reflexivity|]. vm_compute. split; discriminate.
  - split; [split; [discriminate|reflexivity]|].
    exists "1"%char, "9"%char, "9"%char, "9"%char.
    repeat (split; [reflexivity|]). reflexivity.
Defined.



(** * Properties of the loader and the writers *)

(** C2, as stated, fails: on a sheet with a header row and one row below it
    the loader returns no record at all, not one. *)
Lemma load_excel_drops_first_row :
  ¬ (forall (sh : sheet) (others : list sheet) (s : state),
       11 ≤ Pandas.width sh ->
       exists locs s', load_excel (sh :: others) s = (Ok locs, s')
                       /\ length locs = length sh - 1).
Proof.
  intros H.
  destruct (H [replicate 11 (VStr "h"); replicate 11 (VStr "x")] [] initial)
    as (locs & s' & Hrun & Hlen).
  - simpl. lia.
  - apply (f_equal fst) in Hrun. vm_compute in Hrun.
    injection Hrun as <-. simpl in Hlen. lia.
Qed.

(** C2, amended: the loader reads the first sheet of a workbook that has at
    least eleven columns; pandas takes row 0 for the column labels and the
    loader drops the row after it, so the records are the rows from row 2
    on, one record per row and in the order of the rows, with the library
    from column 5, the vulnerabilities from column 6, the date from column 8
    and the url from column 10, all counted from 0.  A field is what is
    read in its cell: the text or the date of the cell, and for an empty
    cell the marker of its column. *)
Theorem load_excel_spec (sh : sheet) (others : list sheet) (s : state) :
  11 ≤ Pandas.width sh ->
  exists s',
    load_excel (sh :: others) s = (Ok (seq (next_loc s) (length sh - 2)), s')
    /\ (forall j, j < length sh - 2 ->
          heap s' (next_loc s + j) =
          Dependency (sheet_cell sh (j + 2) 5) (sheet_cell sh (j + 2) 6)
                     (sheet_cell sh (j + 2) 8) (sheet_cell sh (j + 2) 10))
    /\ (forall l, l < next_loc s -> heap s' l = heap s l).
Proof.
  intros Hw.
  destruct (load_excel_run sh others s Hw) as (s' & Hrun & _ & Hnew & Hold).
  exists s'. split; [exact Hrun|]. split; [exact Hnew|exact Hold].
Qed.

Lemma load_excel_spec_witness :
  exists s',
    load_excel [[replicate 11 (VStr "label"); replicate 11 (VStr "units");
                 [VNaN; VNaN; VNaN; VNaN; VNaN; VStr "foo-1.0.jar"; VStr "2";
                  VNaN; VStr "Jan 5, 2024"; VNaN; VStr "http://foo"]]] initial
    = (Ok [0], s')
    /\ heap s' 0 = Dependency (VStr "foo-1.0.jar") (VStr "2")
                              (VStr "Jan 5, 2024") (VStr "http://foo").
Proof.
  destruct (load_excel_spec
    [replicate 11 (VStr "label"); replicate 11 (VStr "units");
     [VNaN; VNaN; VNaN; VNaN; VNaN; VStr "foo-1.0.jar"; VStr "2";
      VNaN; VStr "Jan 5, 2024"; VNaN; VStr "http://foo"]] [] initial)
    as (s' & Hrun & Hnew & _).
  - simpl. lia.
  - exists s'. split; [exact Hrun|]. apply (Hnew 0). simpl. lia.
Defined.

(** the ISO-8601 text of a date at midnight: the year in four digits, the
    month and the day in two, and the time *)
Lemma isoformat_midnight (y m d : Z) :
  Strptime.valid_date y m d = true ->
  exists yyyy mm dd,
    Fmt.isoformat (Strptime.at_midnight y m d)
    = yyyy +:+ "-" +:+ mm +:+ "-" +:+ dd +:+ "T00:00:00"
    /\ String.length yyyy = 4 /\ String.length mm = 2 /\ String.length dd = 2
    /\ number yyyy = Some y /\ number mm = Some m /\ number dd = Some d.
Proof.
  intros H. unfold Strptime.valid_date in H.
  repeat (apply andb_true_iff in H as [H ?]).
  assert (Strptime.days_in_month y m <= 31)%Z as Hd31.
  { unfold Strptime.days_in_month.
    repeat match goal with |- context [if ?b then _ else _] => destruct b end;
      lia. }
  exists (Fmt.pad4 y), (Fmt.pad2 m), (Fmt.pad2 d).
  split; [reflexivity|]. repeat split; try reflexivity.
  - apply number_pad4. lia.
  - apply number_pad2. lia.
  - apply number_pad2. lia.
Qed.

(** C6: [write_json] always succeeds and writes one file.  Its name is the
    date of the day, as the four digits of the year, the two of the month
    and the two of the day, followed by _dependencies.json.  Its text, read
    back as JSON, is the whole list of records, one object for each record
    of the list and in the order of the list, with the four members of the
    record: a text is what it was, an absent marker is the empty string and
    a date is its ISO-8601 text, which for the date a scraped text was
    parsed to is the year, the month, the day and T00:00:00.  The text is
    laid out as [json.dump] lays out an array with an indentation of four
    spaces: a line for each bracket, brace and member. *)
Theorem write_json_spec (now : datetime) (dependencies : list loc) (s : state) :
  (1000 <= year now <= 9999)%Z -> (1 <= month now <= 12)%Z ->
  (1 <= day now <= 31)%Z ->
  (json_value VNaN = VStr EmptyString
   /\ json_value VNaN64 = VStr EmptyString
   /\ (forall d, json_value (VDatetime d) = VStr (Fmt.isoformat d))
   /\ (forall t, json_value (VStr t) = VStr t))
  /\ (forall y m d, Strptime.valid_date y m d = true ->
        exists yyyy mm dd,
          Fmt.isoformat (Strptime.at_midnight y m d)
          = yyyy +:+ "-" +:+ mm +:+ "-" +:+ dd +:+ "T00:00:00"
          /\ String.length yyyy = 4 /\ String.length mm = 2
          /\ String.length dd = 2
          /\ number yyyy = Some y /\ number mm = Some m /\ number dd = Some d)
  /\ (exists name text s',
        write_json now dependencies s = (Ok tt, s')
        /\ files s' = files s ++ [(name, text)]
        /\ (exists stamp,
              name = stamp +:+ "_dependencies.json"
              /\ date_stamp (year now) (month now) (day now) stamp)
        /\ Reader.loads text
           = Some (map (fun dep => read_back (heap s dep)) dependencies)
        /\ map indentation (lines text) = pretty_layout (length dependencies)
        /\ Json.dumps (map (fun dep => json_form (heap s dep)) dependencies)
           = Ok text)
  /\ Fmt.isoformat (Strptime.at_midnight 2024 1 5) = "2024-01-05T00:00:00"
  /\ Fmt.strftime_Ymd (Datetime 2024 6 30 23 59 58 0) = "20240630"
  /\ Json.dumps [json_form (Dependency (VStr "foobar-9.9.9.jar") VNaN
                   (VDatetime (Strptime.at_midnight 2024 1 5)) (VStr "http://x"))]
     = Ok example_json.
Proof.
  intros Hy Hm Hd.
  split; [by repeat split|]. split; [apply isoformat_midnight|].
  split; [|by repeat split].
  destruct (write_json_run now dependencies s) as (text & s' & H1 & H2 & H3 & _).
  exists (Fmt.strftime_Ymd now +:+ "_dependencies.json"), text, s'.
  split; [exact H1|]. split; [exact H3|]. split.
  { exists (Fmt.strftime_Ymd now). split; [reflexivity|].
    apply strftime_stamp; lia. }
  rewrite <- (map_map (heap s) json_form) in H2.
  split; [|split].
  - rewrite (loads_dumps _ _ H2). by rewrite map_map.
  - rewrite (dumps_layout _ _ H2). by rewrite length_map.
  - by rewrite map_map in H2.
Qed.

Lemma write_json_spec_witness :
  exists name text s',
    write_json (Datetime 2024 6 30 12 0 0 0) [0; 1]
      (set_heap (fun h => <[0 := Dependency (VStr "foobar-9.9.9.jar") VNaN
                  (VDatetime (Strptime.at_midnight 2024 1 5)) (VStr "http://x")]>
                 (<[1 := Dependency (VStr "baz-.jar") VNaN VNaN64 VNaN]> h))
                initial)
    = (Ok tt, s')
    /\ files s' = [(name, text)]
    /\ (exists stamp, name = stamp +:+ "_dependencies.json"
                      /\ date_stamp 2024 6 30 stamp)
    /\ Reader.loads text
       = Some [[("library", "foobar-9.9.9.jar"); ("vulnerabilities", "");
                ("date", "2024-01-05T00:00:00"); ("url", "http://x")];
               [("library", "baz-.jar"); ("vulnerabilities", "");
                ("date", ""); ("url", "")]].
Proof.
  destruct (write_json_spec (Datetime 2024 6 30 12 0 0 0) [0; 1]
    (set_heap (fun h => <[0 := Dependency (VStr "foobar-9.9.9.jar") VNaN
                (VDatetime (Strptime.at_midnight 2024 1 5)) (VStr "http://x")]>
               (<[1 := Dependency (VStr "baz-.jar") VNaN VNaN64 VNaN]> h))
              initial))
    as (_ & _ & (name & text & s' & Hrun & Hfiles & Hname & Hloads & _) & _);
    simpl; try lia.
  exists name, text, s'. split; [exact Hrun|]. split; [exact Hfiles|].
  split; [exact Hname|exact Hloads].
Defined.

(** [write_json] does not touch the workbook *)
Lemma book_write_json (b : list (string * cells)) (now : datetime)
    (deps : list loc) :
  preserves (fun s => book s = b) (write_json now deps).
Proof. apply kept_write_json; by intros. Qed.

(** C9: [write_json] works on the dictionaries of the caller: when it has
    returned, every record of the list is in its JSON form, with the empty
    string where the absent marker was and the ISO-8601 text where a date
    was, and no other record has changed; the values [write_excel] hands to
    the cells of the sheet after it are therefore those texts, for as many
    cells as it sets: all of them when it returns, which it does when the
    workbook has a sheet and a cell takes every one of the texts. *)
Theorem write_json_mutates_records (now : datetime) (dependencies : list loc)
    (s : state) :
  let s' := (write_json now dependencies s).2 in
  (forall dep, dep ∈ dependencies -> heap s' dep = json_form (heap s dep))
  /\ (forall l, l ∉ dependencies -> heap s' l = heap s l)
  /\ (forall now2,
        let handed :=
          flat_map (fun rd =>
            [(rd.1, 6, json_value (library (heap s rd.2)));
             (rd.1, 7, json_value (vulnerabilities (heap s rd.2)));
             (rd.1, 9, json_value (date (heap s rd.2)))])
            (enumerate_from 3 dependencies) in
        let r := (write_json now dependencies ;; write_excel now2 dependencies) s in
        (exists n, sheet_cells r.2 = sheet_cells s ++ take n handed)
        /\ (r.1 = Ok tt -> sheet_cells r.2 = sheet_cells s ++ handed)
        /\ (book s ≠ [] -> forallb takes handed = true -> r.1 = Ok tt)).
Proof.
  pose proof (book_write_json (book s) now dependencies s eq_refl) as Hbook.
  destruct (write_json_run now dependencies s)
    as (text & s1 & Hrun & _ & _ & Hcells & Hin & Hout).
  rewrite Hrun in *. simpl in Hbook. simpl.
  split; [exact Hin|split; [exact Hout|]].
  intros now2. rewrite run_bind, Hrun.
  assert (forall r, flat_map (cells_of s1) (enumerate_from r dependencies) =
    flat_map (fun rd =>
      [(rd.1, 6, json_value (library (heap s rd.2)));
       (rd.1, 7, json_value (vulnerabilities (heap s rd.2)));
       (rd.1, 9, json_value (date (heap s rd.2)))])
      (enumerate_from r dependencies)) as Hflat.
  { clear Hrun Hout. induction dependencies as [|dep deps IH]; intros r; [done|].
    simpl. unfold cells_of at 1. simpl.
    rewrite (Hin dep) by (by left). simpl. do 3 f_equal.
    apply IH. intros d Hd. apply Hin. by right. }
  destruct (book s1) as [|first rest] eqn:Hb.
  - rewrite (write_excel_no_sheet now2 dependencies s1 Hb). simpl.
    split; [exists 0; by rewrite take_0, app_nil_r, Hcells|].
    split; [done|]. intros Hne. by rewrite <- Hbook in Hne.
  - rewrite (write_excel_run now2 dependencies s1 first rest Hb).
    rewrite (Hflat 3). simpl. rewrite Hcells.
    set (handed := flat_map _ _).
    split; [destruct (taken_prefix handed) as (n & ->); by exists n|].
    destruct (forallb takes handed) eqn:Hall.
    + split; [intros _; by rewrite taken_all|done].
    + split; [done|intros _ H; done].
Qed.

(** a record with an absent marker and a date, before and after *)
Example write_json_then_write_excel :
  let s0 := set_heap (fun h => <[0 := Dependency (VStr "foobar-9.9.9.jar") VNaN
                 (VDatetime (Strptime.at_midnight 2024 1 5)) (VStr "http://x")]> h)
               initial in
  let now := Datetime 2024 6 30 12 0 0 0 in
  let s2 := ((write_json now [0] ;; write_excel now [0]) s0).2 in
  heap s2 0 = Dependency (VStr "foobar-9.9.9.jar") (VStr EmptyString)
                (VStr "2024-01-05T00:00:00") (VStr "http://x")
  /\ sheet_cells s2 = [(3, 6, VStr "foobar-9.9.9.jar");
                       (3, 7, VStr EmptyString);
                       (3, 9, VStr "2024-01-05T00:00:00")]
  /\ files s2 = [("20240630_dependencies.json", example_json)].
Proof. vm_compute. repeat split. Qed.

(** * Remarks *)

(** The inner loop takes the loop variable of the outer loop for its own
    counter.  A record whose page has more cells than labels is therefore
    filed under the index of the first cell without a label: here the record
    at position 2 is filed under 1. *)
Example failure_filed_under_cell_index :
  failed_url (scrape_data
    (fun k _ => match k with
                | 2 => Versions ["Version"] [Some "1.0"; Some "extra"]
                | _ => Versions ["Version"; "Vulnerabilities"; "Date"]
                                [Some "1.0"; Some "0"; Some "Jan 5, 2024"]
                end) [0; 1; 2] initial).2 = {[ 1 := VNaN ]}.
Proof. by vm_compute. Qed.

(** [write_excel] puts the record at position [j] on the row [load_excel]
    read it from: row [j + 2] counted from 0 is row [j + 3] counted from 1,
    and the columns 5, 6 and 8 are the columns 6, 7 and 9. *)
Lemma write_excel_row_of_record (deps : list loc) (j : nat) (dep : loc)
    (s : state) :
  deps !! j = Some dep ->
  enumerate_from 3 deps !! j = Some ((j + 2) + 1, dep)
  /\ cells_of s ((j + 2) + 1, dep) =
     [((j + 2) + 1, 5 + 1, library (heap s dep));
      ((j + 2) + 1, 6 + 1, vulnerabilities (heap s dep));
      ((j + 2) + 1, 8 + 1, date (heap s dep))].
Proof.
  intros H. split; [|reflexivity].
  rewrite (enumerate_from_lookup 3 deps j dep H). do 2 f_equal. lia.
Qed.

(** A sheet with fewer than eleven columns has no url column: the loader
    raises. *)
Lemma load_excel_narrow_sheet (sh : sheet) (others : list sheet) (s : state) :
  Pandas.width sh < 11 ->
  exists e, (load_excel (sh :: others) s).1 = Raise e.
Proof.
  intros Hw. unfold load_excel, Pandas.read_excel, Pandas.iloc_window,
    Pandas.iloc_column. cbn [ncols rows].
  assert ((5 <? 12 `min` Pandas.width sh - 5) = false) as H5
    by (apply Nat.ltb_ge; lia).
  rewrite run_bind. unfold lift at 1. cbv iota beta.
  rewrite run_bind. unfold lift at 1.
  destruct (0 <? _); cbv iota beta; [|by eexists].
  rewrite run_bind. unfold lift at 1.
  destruct (1 <? _); cbv iota beta; [|by eexists].
  rewrite run_bind. unfold lift at 1.
  destruct (3 <? _); cbv iota beta; [|by eexists].
  rewrite run_bind. unfold lift at 1. cbn [ncols rows]. rewrite H5. by eexists.
Qed.

(** the whole run on a small workbook: two label rows, then two records,
    the second of which cannot be reached *)
Example run_example :
  let record (l v d u : string) : list value :=
    replicate 5 VNaN ++ [VStr l; VStr v; VNaN; VStr d; VNaN; VStr u] in
  let wb : workbook :=
    [[replicate 11 (VStr "label"); replicate 11 (VStr "unit");
      record "foo-bar-1.2.3.jar" "2 old" "Jan 1, 2020" "http://a";
      record "baz-0.1.jar" "none" "Feb 2, 2021" "http://b"]] in
  let br : browser := fun k _ =>
    match k with
    | 0 => Versions ["Version"; "Vulnerabilities"; "Date"]
                    [Some "9.9.9"; Some "3 known issues"; Some "Jan 5, 2024"]
    | _ => Unreachable
    end in
  let now := Datetime 2024 6 30 12 0 0 0 in
  let r := run wb br now now initial in
  r.1 = Ok tt
  /\ map (heap r.2) [0; 1] =
     [Dependency (VStr "foobar-9.9.9.jar") (VStr "3")
                 (VStr "2024-01-05T00:00:00") (VStr "http://a");
      Dependency (VStr "baz-.jar") (VStr EmptyString)
                 (VStr EmptyString) (VStr "http://b")]
  /\ failed_url r.2 = {[ 1 := VStr "http://b" ]}
  /\ log r.2 = [Launch 0; Get 0 (VStr "http://a"); Close 0;
                Launch 1; Get 1 (VStr "http://b"); Close 1; Quit 1].
Proof. vm_compute. repeat split. Qed.

(** the url a record was loaded with is the url it has when [scrape_data]
    stops *)
Lemma url_of_loaded_record (sh : sheet) (others : list sheet) (br : browser)
    (s : state) (j : nat) :
  11 ≤ Pandas.width sh -> j < length sh - 2 ->
  exists deps s1,
    load_excel (sh :: others) s = (Ok deps, s1)
    /\ deps !! j = Some (next_loc s + j)
    /\ url (heap (scrape_data br deps s1).2 (next_loc s + j))
       = sheet_cell sh (j + 2) 10.
Proof.
  intros Hw Hj.
  destruct (load_excel_run sh others s Hw) as (s1 & Hrun & _ & Hnew & _).
  exists (seq (next_loc s) (length sh - 2)), s1.
  split; [exact Hrun|]. split; [by apply lookup_seq|].
  rewrite (urls_scrape_data (fun l => url (heap s1 l)) br _ s1) by (by intros l).
  by rewrite (Hnew j Hj).
Qed.

Example formatVulnerability_examples :
  formatVulnerability (VStr "3 known issues") = Ok (VStr "3")
  /\ formatVulnerability (VStr EmptyString) = Ok VNaN
  /\ formatVulnerability VNaN = Ok VNaN
  /\ formatVulnerability (VStr "  ") = Raise IndexError.
Proof. repeat split. Qed.

(** * More on the formatters *)

Lemma free_of_cat (c : ascii) (l : list string) :
  Forall (free_of c) l -> free_of c (cat l).
Proof.
  induction 1 as [|x l Hx Hl IH]; simpl; [apply free_of_nil|].
  apply free_of_app. by split.
Qed.

Lemma final_segment_free (c : ascii) (tok ext : string) :
  final_segment tok ext -> free_of c tok -> free_of c ext.
Proof.
  intros [_ [->|[pre ->]]] H; [done|].
  apply free_of_app in H as [_ H]. by apply free_of_app in H as [_ H].
Qed.

(** the result for a name given by its tokens *)
Lemma formatLibrary_tokens (toks : list string) (tok ext version : string) :
  Forall (free_of "-") (toks ++ [tok]) ->
  final_segment tok ext ->
  Str.join "-" (toks ++ [tok]) ≠ EmptyString ->
  formatLibrary (VStr (Str.join "-" (toks ++ [tok]))) (VStr version)
  = Ok (VStr (cat toks +:+ "-" +:+ version +:+ "." +:+ ext)).
Proof.
  intros Hfree Hext Hne. unfold formatLibrary.
  destruct (Str.join "-" (toks ++ [tok])) as [|c n] eqn:Hname; [done|].
  simpl is_absent. cbv iota. rewrite <- Hname.
  rewrite split_join by (done || by destruct toks).
  rewrite last_snoc, init_snoc, join_empty_cat.
  by rewrite (last_split_final tok ext Hext).
Qed.

Lemma name_tokens (name : string) :
  exists toks tok ext,
    name = Str.join "-" (toks ++ [tok])
    /\ Forall (free_of "-") (toks ++ [tok])
    /\ final_segment tok ext.
Proof.
  destruct (exists_last (split_nonempty "-" name)) as (toks & tok & Hsplit).
  exists toks, tok, (Str.last (Str.split "." tok)).
  rewrite <- Hsplit. split; [by rewrite join_split|].
  split; [apply split_pieces_free|apply final_segment_last].
Qed.

(** X2: a name that [formatLibrary] has produced is a name it reads back:
    formatting the result again with another version gives what formatting
    the first name with that version gives, as long as the first version
    holds no hyphen.  The sheet a run writes is the sheet the next run
    loads. *)
Theorem formatLibrary_again (name v1 v2 formatted : string) :
  formatLibrary (VStr name) (VStr v1) = Ok (VStr formatted) ->
  free_of "-" v1 ->
  formatLibrary (VStr formatted) (VStr v2) = formatLibrary (VStr name) (VStr v2).
Proof.
  intros Hfirst Hv1.
  destruct (name_tokens name) as (toks & tok & ext & -> & Hfree & Hext).
  assert (Str.join "-" (toks ++ [tok]) ≠ EmptyString) as Hne.
  { intros Heq. rewrite Heq in Hfirst. discriminate. }
  rewrite (formatLibrary_tokens toks tok ext v1 Hfree Hext Hne) in Hfirst.
  injection Hfirst as <-.
  rewrite (formatLibrary_tokens toks tok ext v2 Hfree Hext Hne).
  apply Forall_app in Hfree as [Htoks Htok].
  inversion Htok as [|? ? Htok' _]; subst.
  pose proof (final_segment_free "-" tok ext Hext Htok') as Hext_free.
  pose proof (formatLibrary_tokens [cat toks] (v1 +:+ "." +:+ ext) ext v2) as H.
  simpl in H. rewrite append_nil_r in H. apply H.
  - constructor; [by apply free_of_cat|]. constructor; [|constructor].
    apply free_of_app. split; [done|]. apply free_of_app. split; [|done].
    unfold free_of, Str.contains. simpl. intuition discriminate.
  - split; [apply Hext|]. right. by exists v1.
  - destruct (cat toks); discriminate.
Qed.

Lemma formatLibrary_again_witness :
  formatLibrary (VStr "foobar-9.9.9.jar") (VStr "10.0")
  = formatLibrary (VStr "foo-bar-1.2.3.jar") (VStr "10.0").
Proof.
  apply (formatLibrary_again "foo-bar-1.2.3.jar" "9.9.9" "10.0" "foobar-9.9.9.jar").
  - reflexivity.
  - unfold free_of, Str.contains. simpl. intuition discriminate.
Defined.

(** ** [formatVulnerability] and the first word *)

Lemma rev_string_rev_string (a b s : string) :
  Str.rev_string a (Str.rev_string b s) = Str.rev_string (s +:+ a) b.
Proof.
  revert a b. induction s as [|c s IH]; intros a b; [done|].
  simpl Str.rev_string at 2. rewrite IH. by rewrite append_cons.
Qed.

Lemma rev_string_involutive (s : string) :
  Str.rev_string EmptyString (Str.rev_string EmptyString s) = s.
Proof. rewrite rev_string_rev_string. simpl. apply append_nil_r. Qed.

Lemma rev_string_nonempty (acc s : string) :
  s ≠ EmptyString -> Str.rev_string acc s ≠ EmptyString.
Proof.
  revert acc. induction s as [|c s IH]; intros acc Hne; [done|]. simpl.
  destruct s as [|c' s]; [done|]. by apply IH.
Qed.

Lemma flush_nonempty (cur : string) (k : list string) :
  cur ≠ EmptyString ->
  Str.flush cur k = Str.rev_string EmptyString cur :: k.
Proof. by destruct cur. Qed.

Lemma split_ws_aux_word (tok rest cur : string) :
  Str.all (fun c => negb (Str.isspace c)) tok = true ->
  Str.split_ws_aux cur (tok +:+ rest) =
  Str.split_ws_aux (Str.rev_string cur tok) rest.
Proof.
  revert cur. induction tok as [|c tok IH]; intros cur H; [done|].
  unfold Str.all in H. simpl in H. apply andb_true_iff in H as [Hc H].
  rewrite append_cons. simpl. apply negb_true_iff in Hc. rewrite Hc.
  by apply IH.
Qed.

Lemma split_ws_aux_spaces (ws rest : string) :
  Str.all Str.isspace ws = true ->
  Str.split_ws_aux EmptyString (ws +:+ rest) =
  Str.split_ws_aux EmptyString rest.
Proof.
  induction ws as [|c ws IH]; intros H; [done|].
  unfold Str.all in H. simpl in H. apply andb_true_iff in H as [Hc H].
  rewrite append_cons. simpl. rewrite Hc. simpl. by apply IH.
Qed.

(** X1: [formatVulnerability] gives the first word of a text: after any
    leading whitespace, the characters up to the next whitespace or the end.
    A text of whitespace alone has no first word and raises [IndexError];
    the word it gives is a text it gives back unchanged. *)
Theorem formatVulnerability_first_word (ws tok rest : string) :
  Str.all Str.isspace ws = true ->
  tok ≠ EmptyString ->
  Str.all (fun c => negb (Str.isspace c)) tok = true ->
  (rest = EmptyString
   \/ exists c r, rest = String c r /\ Str.isspace c = true) ->
  formatVulnerability (VStr (ws +:+ tok +:+ rest)) = Ok (VStr tok)
  /\ formatVulnerability (VStr tok) = Ok (VStr tok)
  /\ (ws ≠ EmptyString -> formatVulnerability (VStr ws) = Raise IndexError).
Proof.
  intros Hws Hne Htok Hrest.
  assert (forall pre rest, Str.all Str.isspace pre = true ->
            (rest = EmptyString
             \/ exists c r, rest = String c r /\ Str.isspace c = true) ->
            formatVulnerability (VStr (pre +:+ tok +:+ rest)) = Ok (VStr tok))
    as Hmain.
  { clear rest Hrest. intros pre rest Hpre Hr. unfold formatVulnerability.
    assert (pre +:+ tok +:+ rest ≠ EmptyString) as Hne'.
    { destruct pre; [|done]. rewrite append_nil_l. by destruct tok. }
    destruct (pre +:+ tok +:+ rest) as [|c0 n0] eqn:Heq; [done|].
    simpl is_absent. cbv iota. rewrite <- Heq. unfold Str.split_ws.
    rewrite split_ws_aux_spaces, split_ws_aux_word by done.
    pose proof (rev_string_nonempty EmptyString tok Hne) as Hrev.
    destruct Hr as [->|(c & r & -> & Hc)].
    - simpl Str.split_ws_aux. rewrite flush_nonempty by done.
      by rewrite rev_string_involutive.
    - simpl Str.split_ws_aux. rewrite Hc, flush_nonempty by done.
      by rewrite rev_string_involutive. }
  split; [by apply Hmain|split].
  - specialize (Hmain EmptyString EmptyString eq_refl (or_introl eq_refl)).
    by rewrite append_nil_l, append_nil_r in Hmain.
  - intros Hws_ne. unfold formatVulnerability.
    destruct ws as [|c ws']; [done|]. simpl is_absent. cbv iota.
    unfold Str.split_ws.
    rewrite <- (append_nil_r (String c ws')), split_ws_aux_spaces by done.
    reflexivity.
Qed.

Lemma formatVulnerability_first_word_witness :
  formatVulnerability (VStr "  3 known issues") = Ok (VStr "3").
Proof.
  apply (formatVulnerability_first_word "  " "3" " known issues").
  - reflexivity.
  - discriminate.
  - reflexivity.
  - right. by exists " "%char, "known issues".
Defined.

(** X3: a date [formatDate] gives is a date of the calendar at midnight, so
    the text [write_json] puts in its place is the day followed by
    T00:00:00; the only other thing it gives is the absent marker, for the
    empty text. *)
Theorem formatDate_result (s : string) (v : value) :
  formatDate (VStr s) = Ok v ->
  (s = EmptyString /\ v = VNaN)
  \/ (exists y m d,
        Pattern.names_date s y m d
        /\ v = VDatetime (Datetime y m d 0 0 0 0)
        /\ Strptime.valid_date y m d = true
        /\ json_value v =
           VStr (Fmt.pad4 y +:+ "-" +:+ Fmt.pad2 m +:+ "-" +:+ Fmt.pad2 d
                 +:+ "T00:00:00")).
Proof.
  destruct s as [|c s]; [intros [= <-]; by left|].
  rewrite formatDate_text by done.
  destruct (Strptime.strptime (String c s)) as [dt|e] eqn:Hp; [|done].
  intros [= <-]. right.
  apply strptime_sound in Hp as (y & m & d & Hn & ->).
  exists y, m, d. split; [done|]. split; [done|]. split; [apply Hn|].
  reflexivity.
Qed.

Lemma formatDate_result_witness :
  ("Jan 5, 2024" = EmptyString /\ VDatetime (Datetime 2024 1 5 0 0 0 0) = VNaN)
  \/ (exists y m d,
        Pattern.names_date "Jan 5, 2024" y m d
        /\ VDatetime (Datetime 2024 1 5 0 0 0 0) = VDatetime (Datetime y m d 0 0 0 0)
        /\ Strptime.valid_date y m d = true
        /\ json_value (VDatetime (Datetime 2024 1 5 0 0 0 0)) =
           VStr (Fmt.pad4 y +:+ "-" +:+ Fmt.pad2 m +:+ "-" +:+ Fmt.pad2 d
                 +:+ "T00:00:00")).
Proof. exact (formatDate_result "Jan 5, 2024" _ eq_refl). Defined.

(** * More on [scrape_data] *)

(** X4: when the first body row has more cells than the header row has
    labels, the pairing of cells with labels raises inside the [try] block:
    the record gets the default outcome and the browser is closed, but the
    url is filed under the number of labels, which is where the inner loop
    has left [i], and not under the position of the record. *)
Theorem cell_overflow_filed_under_label_count (br : browser) (k : nat)
    (dep : loc) (s : state) (hs : list string) (cs : list (option string)) :
  br k (url (heap s dep)) = Versions hs cs ->
  length hs < length cs ->
  exists s1,
    scrape_one br k dep s = (Ok tt, s1)
    /\ first_rows_of_version_table s1 =
       first_rows_of_version_table s ++ [default_row]
    /\ failed_url s1 = <[length hs := url (heap s dep)]> (failed_url s)
    /\ log s1 = log s ++ [Launch (launches s); Get (launches s) (url (heap s dep));
                          Close (launches s)].
Proof.
  intros Hbr Hlen. destruct (scrape_one_spec br k dep s) as (i' & ->).
  eexists. split; [reflexivity|]. unfold scraped, launches. simpl.
  rewrite Hbr. unfold file_failure, failure_key, row_of_page, completes.
  rewrite bool_decide_eq_false_2 by lia. done.
Qed.

Lemma cell_overflow_filed_under_label_count_witness :
  exists s1,
    scrape_one (fun _ _ => Versions ["Version"] [Some "1.0"; Some "extra"])
               7 0 initial = (Ok tt, s1)
    /\ first_rows_of_version_table s1 = [] ++ [default_row]
    /\ failed_url s1 = <[1 := VNaN]> ∅
    /\ log s1 = [] ++ [Launch 0; Get 0 VNaN; Close 0].
Proof.
  apply (cell_overflow_filed_under_label_count
           (fun _ _ => Versions ["Version"] [Some "1.0"; Some "extra"])
           7 0 initial ["Version"] [Some "1.0"; Some "extra"]).
  - reflexivity.
  - simpl. lia.
Defined.

Lemma file_failure_cases (k : nat) (p : page) (u : value) (m : gmap nat value) :
  p = Unreachable \/ completes p = true ->
  file_failure k p u m = match p with
                         | Unreachable => <[k := u]> m
                         | Versions _ _ => m
                         end.
Proof.
  unfold file_failure, failure_key. destruct p as [|hs cs]; [done|].
  intros [H|H]; [done|]. by rewrite H.
Qed.

(** the failure map when no page has more cells than labels *)
Lemma failures_lookup (br : browser) (us : list value) (k0 i : nat)
    (m : gmap nat value) :
  (forall j u, us !! j = Some u ->
     br (k0 + j) u = Unreachable \/ completes (br (k0 + j) u) = true) ->
  failures br k0 us m !! i =
  match (if decide (k0 ≤ i) then us !! (i - k0) else None) with
  | Some u => match br i u with
              | Unreachable => Some u
              | Versions _ _ => m !! i
              end
  | None => m !! i
  end.
Proof.
  revert k0 m. induction us as [|u us IH]; intros k0 m H.
  - simpl. by destruct (decide (k0 ≤ i)).
  - simpl failures. rewrite IH.
    2:{ intros j u' Hj. replace (S k0 + j) with (k0 + S j) by lia. by apply H. }
    specialize (H 0 u eq_refl). rewrite Nat.add_0_r in H.
    rewrite (file_failure_cases k0 (br k0 u) u m H).
    destruct (decide (S k0 ≤ i)) as [Hle|Hnle].
    + rewrite decide_True by lia.
      replace (i - k0) with (S (i - S k0)) by lia. simpl.
      assert (match br k0 u with
              | Unreachable => <[k0:=u]> m
              | Versions _ _ => m
              end !! i = m !! i) as Hm.
      { destruct (br k0 u); [|done]. by rewrite lookup_insert_ne by lia. }
      rewrite Hm. reflexivity.
    + destruct (decide (k0 ≤ i)) as [Hle|Hnle'].
      * assert (i = k0) as -> by lia. rewrite Nat.sub_diag. simpl.
        destruct (br k0 u); [by rewrite lookup_insert_eq|done].
      * destruct (br k0 u); [|done]. by rewrite lookup_insert_ne by lia.
Qed.

(** X5: when no page shows more cells than labels, the failure map
    [scrape_data] ends with holds, for every position, the url of the record
    at that position if its navigation or lookup raised, and nothing
    otherwise, however many records fail. *)
Theorem failure_map_is_exact (br : browser) (dependencies : list loc)
    (s : state) :
  dependencies ≠ [] ->
  (forall k dep, dependencies !! k = Some dep ->
     br k (url (heap s dep)) = Unreachable
     \/ completes (br k (url (heap s dep))) = true) ->
  forall k,
    failed_url (scrape_data br dependencies s).2 !! k =
    match dependencies !! k with
    | Some dep => match br k (url (heap s dep)) with
                  | Unreachable => Some (url (heap s dep))
                  | Versions _ _ => None
                  end
    | None => None
    end.
Proof.
  intros Hne Hall k.
  destruct (scrape_data_final br dependencies s Hne) as (_ & -> & _).
  rewrite failures_lookup.
  - rewrite decide_True by lia. rewrite Nat.sub_0_r.
    unfold urls_of. rewrite list_lookup_fmap.
    destruct (dependencies !! k) as [dep|]; simpl; [|done].
    by destruct (br k (url (heap s dep))).
  - intros j u Hj. unfold urls_of in Hj. rewrite list_lookup_fmap in Hj.
    destruct (dependencies !! j) as [dep|] eqn:Hd; simplify_eq/=.
    by apply Hall.
Qed.

Lemma failure_map_is_exact_witness :
  failed_url (scrape_data
    (fun k _ => match k with
                | 1 => Versions ["Version"; "Vulnerabilities"; "Date"]
                                [Some "1.0"; Some "0"; Some "Jan 5, 2024"]
                | _ => Unreachable
                end) [0; 1; 2] initial).2 !! 2 = Some VNaN.
Proof.
  refine (failure_map_is_exact _ [0; 1; 2] initial _ _ 2); [discriminate|].
  intros [|[|k]] dep Hk; [by left|by right|by left].
Defined.

(** ** What the formatting phase writes *)

Lemma format_one_effect (deps : list loc) (i : nat) (s s' : state) :
  format_one deps i s = (Ok tt, s') ->
  exists row dep,
    first_rows_of_version_table s !! i = Some row
    /\ deps !! i = Some dep
    /\ formatted_from row (heap s dep) (heap s' dep)
    /\ (forall l, l ≠ dep -> heap s' l = heap s l)
    /\ first_rows_of_version_table s' = first_rows_of_version_table s.
Proof.
  unfold format_one, index, lookup_key. mrun.
  repeat (case_match; simpl; try done). simplify_eq. intros [= <-].
  eexists _, _. split; [done|]. split; [done|]. simpl.
  rewrite !fn_lookup_insert. simpl. split.
  - eexists _, _, _. by repeat split.
  - split; [|done]. intros l Hl. by rewrite !fn_lookup_insert_ne.
Qed.

Lemma format_one_raise (deps : list loc) (i : nat) (s s' : state) (e : exn) :
  format_one deps i s = (Raise e, s') -> heap s' = heap s.
Proof.
  unfold format_one, index, lookup_key. mrun.
  repeat (case_match; simpl; try done); by intros [= <- <-].
Qed.

Lemma format_one_frame (deps : list loc) (i : nat) (s : state) (l : loc) :
  l ∉ deps -> heap (format_one deps i s).2 l = heap s l.
Proof.
  intros Hl. destruct (format_one deps i s) as [[[]|e] s'] eqn:Hrun; simpl.
  - apply format_one_effect in Hrun as (row & dep & _ & Hdep & _ & Hother & _).
    apply Hother. intros ->. apply Hl. by eapply list_elem_of_lookup_2.
  - by rewrite (format_one_raise _ _ _ _ _ Hrun).
Qed.

Lemma format_loop_effect (deps : list loc) (n i0 : nat) (s s' : state) :
  NoDup deps ->
  for_each (seq i0 n) (format_one deps) s = (Ok tt, s') ->
  (forall i dep, i0 ≤ i < i0 + n -> deps !! i = Some dep ->
     exists row, first_rows_of_version_table s !! i = Some row
                 /\ formatted_from row (heap s dep) (heap s' dep))
  /\ (forall l, (forall i, i0 ≤ i < i0 + n -> deps !! i ≠ Some l) ->
        heap s' l = heap s l)
  /\ first_rows_of_version_table s' = first_rows_of_version_table s.
Proof.
  intros Hnd. revert i0 s. induction n as [|n IH]; intros i0 s Hrun.
  - simpl in Hrun. injection Hrun as <-.
    split; [intros; lia|]. by split.
  - change (seq i0 (S n)) with (i0 :: seq (S i0) n) in Hrun.
    rewrite for_each_cons in Hrun.
    destruct (format_one deps i0 s) as [[[]|e] s1] eqn:Hone; [|done].
    apply format_one_effect in Hone
      as (row0 & dep0 & Hrow0 & Hdep0 & Hfmt0 & Hother0 & Hrows0).
    destruct (IH (S i0) s1 Hrun) as (Hin & Hout & Hrows).
    assert (forall i, S i0 ≤ i -> deps !! i ≠ Some dep0) as Hlater.
    { intros i Hi Hd. pose proof (NoDup_lookup _ _ _ _ Hnd Hd Hdep0). lia. }
    split; [|split].
    + intros i dep Hi Hdep. destruct (decide (i = i0)) as [->|Hne].
      * rewrite Hdep0 in Hdep. injection Hdep as <-.
        exists row0. split; [done|].
        rewrite (Hout dep0) by (intros j Hj; apply Hlater; lia). done.
      * destruct (Hin i dep ltac:(lia) Hdep) as (row & Hrow & Hfmt).
        exists row. rewrite Hrows0 in Hrow. split; [done|].
        rewrite <- (Hother0 dep); [done|].
        intros ->. apply (Hlater i); [lia|done].
    + intros l Hl. rewrite Hout by (intros j Hj; apply Hl; lia).
      apply Hother0. intros ->. by apply (Hl i0); [lia|].
    + by rewrite Hrows.
Qed.

Lemma scrape_data_formats (br : browser) (deps : list loc) (s : state)
    (out : list loc) :
  NoDup deps ->
  (scrape_data br deps s).1 = Ok out ->
  forall k dep, deps !! k = Some dep ->
    formatted_from (row_of_page (br k (url (heap s dep))))
                   (heap s dep) (heap (scrape_data br deps s).2 dep).
Proof.
  intros Hnd Hok k dep Hdep.
  assert (deps ≠ []) as Hne by (by destruct deps).
  destruct (scrape_data_run br deps s Hne) as (s2 & Hs2 & Hrun).
  rewrite Hrun in Hok |- *. simpl in *.
  destruct Hs2 as [Hheap _ _ _ _ Hrows _ _].
  unfold format_loop in *.
  destruct (for_each (seq 0 (length deps)) (format_one deps) s2)
    as [[[]|e] s3] eqn:Hloop; [|done].
  destruct (format_loop_effect _ _ _ _ _ Hnd Hloop) as (Hin & _ & _).
  apply lookup_lt_Some in Hdep as Hlt.
  destruct (Hin k dep ltac:(lia) Hdep) as (row & Hrow & Hfmt).
  rewrite Hrows in Hrow.
  rewrite (raw_rows_lookup br 0 k _ _ (urls_of_lookup s _ k dep Hdep)) in Hrow.
  simpl in Hrow. injection Hrow as <-. simpl. by rewrite Hheap in Hfmt.
Qed.

(** X7: when [scrape_data] returns on a list that names no record twice,
    every record holds what the three formatters make of its raw outcome:
    the library name formatted from the old name and the scraped version,
    the first word of the scraped vulnerabilities text, the scraped date
    parsed, and the url it had. *)
Theorem scrape_data_formats_every_record (br : browser)
    (dependencies : list loc) (s : state) (out : list loc) :
  NoDup dependencies ->
  (scrape_data br dependencies s).1 = Ok out ->
  forall k dep, dependencies !! k = Some dep ->
    formatted_from (row_of_page (br k (url (heap s dep))))
                   (heap s dep) (heap (scrape_data br dependencies s).2 dep).
Proof. apply scrape_data_formats. Qed.

Lemma scrape_data_formats_every_record_witness :
  formatted_from
    (row_of_page (Versions ["Version"; "Vulnerabilities"; "Date"]
                           [Some "9.9.9"; Some "3 known issues"; Some "Jan 5, 2024"]))
    (heap (set_heap (fun h => <[0 := Dependency (VStr "foo-bar-1.2.3.jar")
                                  VNaN VNaN (VStr "http://a")]> h) initial) 0)
    (heap (scrape_data
             (fun _ _ => Versions ["Version"; "Vulnerabilities"; "Date"]
                [Some "9.9.9"; Some "3 known issues"; Some "Jan 5, 2024"])
             [0]
             (set_heap (fun h => <[0 := Dependency (VStr "foo-bar-1.2.3.jar")
                                  VNaN VNaN (VStr "http://a")]> h) initial)).2 0).
Proof.
  refine (scrape_data_formats_every_record
           (fun _ _ => Versions ["Version"; "Vulnerabilities"; "Date"]
              [Some "9.9.9"; Some "3 known issues"; Some "Jan 5, 2024"])
           [0] _ [0] _ _ 0 0 _).
  - apply NoDup_singleton.
  - by vm_compute.
  - reflexivity.
Defined.

(** ** What [scrape_data] leaves alone, besides the urls *)

Section HeapFrame.

Variables (l : loc) (v : dependency).

Lemma record_scrape_one br k dep :
  preserves (fun s => heap s l = v) (scrape_one br k dep).
Proof.
  unfold scrape_one, scrape_page, scrape_failed, driver_get, driver_close.
  preserve; try done.
  match goal with
  | |- preserves _ (match ?p with Unreachable => _ | Versions _ _ => _ end) =>
      destruct p
  end; preserve; try done.
  unfold read_cell. preserve; done.
Qed.

End HeapFrame.

Section OutputFrame.

Variables (f : list (string * string)) (t : option string)
          (c : list (nat * nat * value)) (n : loc).

Definition outputs_kept (s : state) : Prop :=
  outputs_are f t c s /\ next_loc s = n.

Lemma outputs_scrape_data br deps : preserves outputs_kept (scrape_data br deps).
Proof.
  unfold scrape_data, scrape_loop, format_loop, driver_quit, scrape_one,
    scrape_page, scrape_failed, driver_get, driver_close, format_one.
  preserve; try done; try (apply preserves_store; by intros).
  match goal with
  | |- preserves _ (match ?p with Unreachable => _ | Versions _ _ => _ end) =>
      destruct p
  end; preserve; try done.
  unfold read_cell. preserve; done.
Qed.

End OutputFrame.

(** X6: [scrape_data] writes to the records of its list and to nothing
    else: a record the list does not name is what it was, no file and no
    cell is written, and no record is created, whether the call returns or
    raises. *)
Theorem scrape_data_frame (br : browser) (dependencies : list loc) (s : state) :
  let s' := (scrape_data br dependencies s).2 in
  (forall l, l ∉ dependencies -> heap s' l = heap s l)
  /\ files s' = files s
  /\ sheet_title s' = sheet_title s
  /\ sheet_cells s' = sheet_cells s
  /\ next_loc s' = next_loc s.
Proof.
  simpl. split.
  - intros l Hl.
    assert (preserves (fun s0 => heap s0 l = heap s l)
                      (scrape_data br dependencies)) as Hp.
    { unfold scrape_data, scrape_loop, format_loop, driver_quit.
      preserve; try done.
      - apply record_scrape_one.
      - intros s0 Hs0. by rewrite format_one_frame. }
    by apply Hp.
  - destruct (outputs_scrape_data (files s) (sheet_title s) (sheet_cells s)
                (next_loc s) br dependencies s) as [(H1 & H2 & H3) H4]; [by repeat split|].
    done.
Qed.

Lemma quit_in_sessions (h0 h : nat) (us : list value) :
  Quit h ∉ sessions h0 us.
Proof.
  revert h0. induction us as [|u us IH]; intros h0 H.
  - by apply elem_of_nil in H.
  - simpl in H. rewrite !elem_of_cons in H.
    destruct H as [H|[H|[H|H]]]; try discriminate. by apply IH in H.
Qed.

Lemma close_last_in_sessions (h0 : nat) (us : list value) :
  us ≠ [] -> Close (h0 + length us - 1) ∈ sessions h0 us.
Proof.
  revert h0. induction us as [|u us IH]; intros h0 Hne; [done|].
  change (sessions h0 (u :: us)) with (session h0 u ++ sessions (S h0) us).
  apply elem_of_app. destruct us as [|u' us].
  - left. simpl. replace (h0 + 1 - 1) with h0 by lia.
    unfold session. rewrite !elem_of_cons. tauto.
  - right. replace (h0 + length (u :: u' :: us) - 1)
      with (S h0 + length (u' :: us) - 1) by (simpl; lia).
    by apply IH.
Qed.

(** X14: every browser is closed, but only the one of the last record is
    also quit: with at least one record, what [scrape_data] adds to the log
    is the sessions of the records, one after the other, and then one quit,
    on the handle of the last record, which is closed by then. *)
Theorem only_last_browser_is_quit (br : browser) (dependencies : list loc)
    (s : state) :
  dependencies ≠ [] ->
  let last := launches s + length dependencies - 1 in
  exists added,
    log (scrape_data br dependencies s).2 = log s ++ added
    /\ added = sessions (launches s) (urls_of s dependencies) ++ [Quit last]
    /\ (forall h, Quit h ∈ added -> h = last)
    /\ Close last ∈ sessions (launches s) (urls_of s dependencies).
Proof.
  intros Hne. simpl.
  destruct (scrape_data_final br dependencies s Hne) as (_ & _ & Hlog).
  eexists. split; [exact Hlog|]. split; [done|]. split.
  - intros h Hh. apply elem_of_app in Hh as [Hh|Hh].
    + by apply quit_in_sessions in Hh.
    + apply list_elem_of_singleton in Hh. by injection Hh.
  - replace (length dependencies) with (length (urls_of s dependencies))
      by (unfold urls_of; by rewrite length_map).
    apply close_last_in_sessions. unfold urls_of. by destruct dependencies.
Qed.

Lemma only_last_browser_is_quit_witness :
  exists added,
    log (scrape_data (fun _ _ => Unreachable) [0; 1] initial).2 = [] ++ added
    /\ added = sessions 0 (urls_of initial [0; 1]) ++ [Quit (0 + 2 - 1)]
    /\ (forall h, Quit h ∈ added -> h = 0 + 2 - 1)
    /\ Close (0 + 2 - 1) ∈ sessions 0 (urls_of initial [0; 1]).
Proof.
  apply (only_last_browser_is_quit (fun _ _ => Unreachable) [0; 1] initial).
  discriminate.
Defined.

(** * The characters of what the formatters return *)

Section Characters.

Variable p : ascii -> bool.








End Characters.









(** * More on the loader, the writers and [run] *)

Lemma load_excel_narrow (sh : sheet) (others : list sheet) (s : state) :
  Pandas.width sh < 11 ->
  load_excel (sh :: others) s = (Raise IndexError, s).
Proof.
  intros Hw. unfold load_excel, Pandas.read_excel, Pandas.iloc_window,
    Pandas.iloc_column. cbn [ncols rows].
  assert ((5 <? 12 `min` Pandas.width sh - 5) = false) as H5
    by (apply Nat.ltb_ge; lia).
  rewrite run_bind. unfold lift at 1. cbv iota beta.
  rewrite run_bind. unfold lift at 1.
  destruct (0 <? _); cbv iota beta; [|done].
  rewrite run_bind. unfold lift at 1.
  destruct (1 <? _); cbv iota beta; [|done].
  rewrite run_bind. unfold lift at 1.
  destruct (3 <? _); cbv iota beta; [|done].
  rewrite run_bind. unfold lift at 1. cbn [ncols rows]. by rewrite H5.
Qed.

(** X13: a first sheet with fewer than eleven columns has no url column:
    the loader raises [IndexError] before it has built a record, and [run]
    stops there with the state it started in. *)
Theorem narrow_sheet_stops_run (sh : sheet) (others : list sheet)
    (br : browser) (now1 now2 : datetime) (s : state) :
  Pandas.width sh < 11 ->
  load_excel (sh :: others) s = (Raise IndexError, s)
  /\ run (sh :: others) br now1 now2 s = (Raise IndexError, s).
Proof.
  intros Hw. split; [by apply load_excel_narrow|].
  unfold run. by rewrite run_bind, load_excel_narrow.
Qed.

Lemma narrow_sheet_stops_run_witness :
  run [[replicate 10 (VStr "label"); replicate 10 (VStr "x");
        replicate 10 (VStr "y")]] (fun _ _ => Unreachable)
      (Datetime 2024 6 30 0 0 0 0) (Datetime 2024 6 30 0 0 0 0) initial
  = (Raise IndexError, initial).
Proof.
  refine (proj2 (narrow_sheet_stops_run _ [] _ _ _ initial _)).
  simpl. lia.
Defined.

Lemma cells_of_length (s : state) (l : list (nat * loc)) :
  length (flat_map (cells_of s) l) = 3 * length l.
Proof. induction l as [|x l IH]; simpl; [done|]. rewrite IH. lia. Qed.





(** X11: [write_json] called again on the records it has converted changes
    none of them and writes the same text: the conversion is done once. *)
Theorem write_json_twice (now1 now2 : datetime) (dependencies : list loc)
    (s : state) :
  let s1 := (write_json now1 dependencies s).2 in
  let s2 := (write_json now2 dependencies s1).2 in
  (forall l, heap s2 l = heap s1 l)
  /\ exists text,
       files s1 = files s
         ++ [(Fmt.strftime_Ymd now1 +:+ "_dependencies.json", text)]
       /\ files s2 = files s1
         ++ [(Fmt.strftime_Ymd now2 +:+ "_dependencies.json", text)].
Proof.
  destruct (write_json_run now1 dependencies s)
    as (text1 & s1 & Hrun1 & Ht1 & Hf1 & _ & Hin1 & Hout1).
  rewrite Hrun1. simpl.
  destruct (write_json_run now2 dependencies s1)
    as (text2 & s2 & Hrun2 & Ht2 & Hf2 & _ & Hin2 & Hout2).
  rewrite Hrun2. simpl.
  assert (map (fun dep => json_form (heap s1 dep)) dependencies
          = map (fun dep => json_form (heap s dep)) dependencies) as Hsame.
  { apply map_ext_in. intros dep Hdep. apply list_elem_of_In in Hdep.
    by rewrite (Hin1 dep Hdep), json_form_idem. }
  split.
  - intros l. destruct (decide (l ∈ dependencies)) as [Hl|Hl].
    + by rewrite (Hin2 l Hl), (Hin1 l Hl), json_form_idem.
    + by apply Hout2.
  - exists text1. split; [done|]. rewrite Hf2. do 3 f_equal.
    rewrite Hsame in Ht2. congruence.
Qed.

(** ** [run] as a whole *)

Lemma preserves_alloc (P : state -> Prop) (d : dependency) :
  (forall s g n, P s -> P (set_next_loc n (set_heap g s))) ->
  preserves P (alloc d).
Proof. intros H s Hs. apply H, Hs. Qed.

Lemma kept_load_excel (P : state -> Prop) (wb : workbook) :
  (forall s g n, P s -> P (set_next_loc n (set_heap g s))) ->
  preserves P (load_excel wb).
Proof.
  intros H. unfold load_excel, load_row.
  repeat first [preserve_step | progress cbv zeta].
  by apply preserves_alloc.
Qed.

Lemma written_load_excel f c b wb : preserves (written_are f c b) (load_excel wb).
Proof. apply kept_load_excel. by intros. Qed.

Lemma written_scrape_data f c b br deps :
  preserves (written_are f c b) (scrape_data br deps).
Proof. apply kept_scrape_data; by intros. Qed.

(** X9: [run] writes the JSON file before it touches the workbook and
    undoes nothing.  On a workbook that has a sheet: if [run] raises, either
    nothing is written, or the exception is [IllegalCharacterError] and the
    JSON file is written and the workbook file has gained the bare copy of
    its first sheet, without a cell of the records; if [run] returns, the
    JSON file is written and the workbook file has gained the copy with
    three cells for each record set on it. *)
Theorem run_leaves_what_it_wrote (wb : workbook) (br : browser)
    (now1 now2 : datetime) (s : state) (first : string * cells)
    (rest : list (string * cells)) :
  book s = first :: rest ->
  let r := run wb br now1 now2 s in
  match r.1 with
  | Raise e =>
      (files r.2 = files s /\ book r.2 = book s
       /\ sheet_cells r.2 = sheet_cells s)
      \/ (e = IllegalCharacterError
          /\ exists text title,
               files r.2 = files s
                 ++ [(Fmt.strftime_Ymd now1 +:+ "_dependencies.json", text)]
               /\ (title ∉ map fst (book s))
               /\ book r.2 = (title, first.2) :: book s)
  | Ok _ =>
      exists deps text title handed,
        (load_excel wb s).1 = Ok deps
        /\ files r.2 = files s
             ++ [(Fmt.strftime_Ymd now1 +:+ "_dependencies.json", text)]
        /\ (title ∉ map fst (book s))
        /\ length handed = 3 * length deps
        /\ sheet_cells r.2 = sheet_cells s ++ handed
        /\ book r.2 = (title, first.2 ++ map keeps handed) :: book s
  end.
Proof.
  intros Hbook. simpl. unfold run. rewrite run_bind.
  pose proof (written_load_excel (files s) (sheet_cells s) (book s) wb s
    ltac:(by repeat split)) as Hload.
  destruct (load_excel wb s) as [[deps|e] s1] eqn:Hl; simpl in *;
    [|left; by destruct Hload as (? & ? & ?)].
  rewrite run_bind.
  pose proof (written_scrape_data (files s1) (sheet_cells s1) (book s1)
    br deps s1 ltac:(by repeat split)) as Hscrape.
  pose proof (scrape_data_returns_its_argument br deps s1) as Hsame.
  destruct (scrape_data br deps s1) as [[deps'|e] s2] eqn:Hs; simpl in *.
  2:{ left. destruct Hload as (H1 & H2 & H3). destruct Hscrape as (H4 & H5 & H6).
      repeat split; congruence. }
  rewrite (Hsame deps' eq_refl). clear Hsame.
  rewrite run_bind.
  pose proof (book_write_json (book s2) now1 deps s2 eq_refl) as Hb3.
  destruct (write_json_run now1 deps s2)
    as (text & s3 & Hrun3 & _ & Hf3 & Hc3 & _ & _).
  rewrite Hrun3 in *. simpl in Hb3.
  destruct Hload as (Hlf & Hlc & Hlb). destruct Hscrape as (Hsf & Hsc & Hsb).
  assert (book s3 = first :: rest) as Hbook3 by congruence.
  rewrite (write_excel_run now2 deps s3 first rest Hbook3).
  set (handed := flat_map (cells_of s3) (enumerate_from 3 deps)).
  set (title := new_title now2 (map fst (book s3)) first.1).
  assert (title ∉ map fst (book s)) as Hfresh.
  { subst title. replace (book s) with (book s3) by congruence.
    apply new_title_fresh. }
  destruct (forallb takes handed) eqn:Hall; simpl.
  - exists deps, text, title, handed. split; [done|].
    split; [by rewrite Hf3, Hsf, Hlf|]. split; [done|].
    split; [subst handed; by rewrite cells_of_length, enumerate_from_length|].
    rewrite (taken_all _ Hall).
    split; [by rewrite Hc3, Hsc, Hlc|by rewrite Hb3, Hsb, Hlb].
  - right. split; [done|]. exists text, title.
    split; [by rewrite Hf3, Hsf, Hlf|]. split; [done|].
    by rewrite Hb3, Hsb, Hlb.
Qed.

Lemma run_leaves_what_it_wrote_witness :
  let r :=
    run [[replicate 11 (VStr "label"); replicate 11 (VStr "unit");
          replicate 5 VNaN
          ++ [VStr "foo-1.0.jar"; VStr "2"; VNaN; VStr "Jan 5, 2024"; VNaN;
              VStr "http://foo"]]]
        (fun _ _ => Versions ["Version"; "Vulnerabilities"; "Date"]
                      [Some (String "001" "2.0"); Some "0"; Some "Jan 5, 2024"])
        (Datetime 2024 6 30 0 0 0 0) (Datetime 2024 6 30 0 0 0 0) initial in
  r.1 = Raise IllegalCharacterError
  /\ exists text title,
       files r.2 = [("20240630_dependencies.json", text)]
       /\ book r.2 = [(title, []); ("Sheet1", [])].
Proof.
  pose proof (run_leaves_what_it_wrote
    [[replicate 11 (VStr "label"); replicate 11 (VStr "unit");
      replicate 5 VNaN
      ++ [VStr "foo-1.0.jar"; VStr "2"; VNaN; VStr "Jan 5, 2024"; VNaN;
          VStr "http://foo"]]]
    (fun _ _ => Versions ["Version"; "Vulnerabilities"; "Date"]
                  [Some (String "001" "2.0"); Some "0"; Some "Jan 5, 2024"])
    (Datetime 2024 6 30 0 0 0 0) (Datetime 2024 6 30 0 0 0 0) initial
    ("Sheet1", []) [] eq_refl) as H.
  cbv zeta in H |- *.
  match type of H with
  | match ?r with _ => _ end =>
      assert (r = Raise IllegalCharacterError) as Hr by (by vm_compute);
      rewrite Hr in H |- *
  end.
  split; [reflexivity|].
  destruct H as [(Hf & _)|(_ & text & title & Hf & _ & Hb)].
  - exfalso. vm_compute in Hf. discriminate Hf.
  - exists text, title. split; [exact Hf|exact Hb].
Defined.

(** X8: a first sheet with at most one row under the label row gives no
    record, and with no record [scrape_data] raises [UnboundLocalError] at
    the call after its loop: [run] stops there without a browser launched
    and without anything written. *)
Theorem run_without_records (sh : sheet) (others : list sheet) (br : browser)
    (now1 now2 : datetime) (s : state) :
  11 ≤ Pandas.width sh ->
  length sh ≤ 2 ->
  let r := run (sh :: others) br now1 now2 s in
  r.1 = Raise UnboundLocalError
  /\ log r.2 = log s
  /\ files r.2 = files s
  /\ sheet_cells r.2 = sheet_cells s.
Proof.
  intros Hw Hlen. simpl. unfold run. rewrite run_bind.
  pose proof (kept_load_excel
    (fun s' => log s' = log s /\ files s' = files s
               /\ sheet_cells s' = sheet_cells s) (sh :: others)
    ltac:(by intros) s ltac:(by repeat split)) as Hload.
  destruct (load_excel_run sh others s Hw) as (s1 & Hrun & _).
  rewrite Hrun in *. replace (length sh - 2) with 0 by lia.
  simpl in Hload. simpl. by repeat split; apply Hload.
Qed.

Lemma run_without_records_witness :
  (run [[replicate 11 (VStr "label"); replicate 11 (VStr "unit")]]
       (fun _ _ => Unreachable)
       (Datetime 2024 6 30 0 0 0 0) (Datetime 2024 6 30 0 0 0 0) initial).1
  = Raise UnboundLocalError.
Proof.
  refine (proj1 (run_without_records _ [] _ _ _ initial _ _)); simpl; lia.
Defined.




(** ** A library column with nothing in it *)

Lemma format_one_numpy_nan (deps : list loc) (i : nat) (s : state)
    (row : gmap string string) (dep : loc) :
  first_rows_of_version_table s !! i = Some row ->
  missing_key row = None ->
  deps !! i = Some dep ->
  library (heap s dep) = VNaN64 ->
  format_one deps i s = (Raise AttributeError, set_i i s).
Proof.
  intros Hrow Hkey Hdep Hlib.
  unfold missing_key in Hkey.
  unfold format_one, index, lookup_key. mrun. rewrite Hrow. simpl.
  destruct (row !! "Version"); [|done].
  destruct (row !! "Date"); [|done].
  destruct (row !! "Vulnerabilities"); [|done].
  simpl. rewrite Hdep. simpl. by rewrite Hlib.
Qed.

Lemma empty_column_cell (sh : sheet) (r c : nat) :
  1 ≤ r -> holds_text sh c = false -> holds_date sh c = false ->
  sheet_cell sh r c = VNaN64.
Proof.
  intros Hr Ht Hd. unfold sheet_cell. rewrite Ht, Hd.
  destruct (decide (r < length sh)) as [Hlt|Hge].
  - destruct (lookup_lt_is_Some_2 sh r Hlt) as [row Hrow].
    rewrite (nth_lookup_Some sh r [] row Hrow).
    assert (In row (drop 1 sh)) as Hin.
    { apply list_elem_of_In, list_elem_of_lookup. exists (r - 1).
      rewrite lookup_drop. by replace (1 + (r - 1)) with r by lia. }
    destruct (row !! c) as [[t| |d| |]|] eqn:Hc; try done.
    + apply not_true_iff_false in Ht. exfalso. apply Ht, existsb_exists.
      exists row. by rewrite Hc.
    + apply not_true_iff_false in Hd. exfalso. apply Hd, existsb_exists.
      exists row. by rewrite Hc.
  - rewrite nth_overflow by lia. done.
Qed.

(** X15: a library column with nothing under the label row is read as the
    [nan] of numpy, which the test of [formatLibrary] does not take for an
    absent name: when the page of the first record gives the three labels,
    [formatLibrary] raises [AttributeError] at the first record and [run]
    stops there, with the pages scraped and nothing written. *)
Theorem empty_library_column_stops_run (sh : sheet) (others : list sheet)
    (br : browser) (now1 now2 : datetime) (s : state) :
  11 ≤ Pandas.width sh ->
  3 ≤ length sh ->
  holds_text sh 5 = false ->
  holds_date sh 5 = false ->
  missing_key (row_of_page (br 0 (sheet_cell sh 2 10))) = None ->
  let r := run (sh :: others) br now1 now2 s in
  (forall j, j < length sh - 2 -> sheet_cell sh (j + 2) 5 = VNaN64)
  /\ (forall v, formatLibrary VNaN64 v = Raise AttributeError)
  /\ r.1 = Raise AttributeError
  /\ files r.2 = files s
  /\ book r.2 = book s
  /\ length (first_rows_of_version_table r.2) = length sh - 2.
Proof.
  intros Hw Hlen Ht Hd Hkey. cbv zeta.
  split; [intros j _; apply empty_column_cell; [lia|done..]|].
  split; [done|].
  unfold run. rewrite run_bind.
  pose proof (written_load_excel (files s) (sheet_cells s) (book s)
    (sh :: others) s ltac:(by repeat split)) as Hload.
  destruct (load_excel_run sh others s Hw) as (s1 & Hl & _ & Hnew & _).
  rewrite Hl in *. simpl in Hload.
  set (deps := seq (next_loc s) (length sh - 2) : list loc).
  assert (deps !! 0 = Some (next_loc s + 0)) as H0
    by (apply lookup_seq; split; [done|lia]).
  assert (deps ≠ []) as Hne by (intros E; by rewrite E in H0).
  assert (length deps = length sh - 2) as Hdl by apply length_seq.
  pose proof (written_scrape_data (files s1) (sheet_cells s1) (book s1)
    br deps s1 ltac:(by repeat split)) as Hscrape.
  pose proof (scrape_data_final br deps s1 Hne) as (Hrows & _ & _).
  destruct (scrape_data_run br deps s1 Hne) as (s2 & Hs2 & Hrun).
  rewrite run_bind. rewrite Hrun in *. clear Hrun.
  destruct Hs2 as [Hheap _ _ _ _ Hraw _ _].
  assert (format_one deps 0 s2 = (Raise AttributeError, set_i 0 s2)) as Hone.
  { apply (format_one_numpy_nan deps 0 s2
             (row_of_page (br 0 (sheet_cell sh 2 10))) (next_loc s + 0)).
    - rewrite Hraw.
      rewrite (raw_rows_lookup br 0 0 _ _ (urls_of_lookup s1 deps 0 _ H0)).
      simpl. by rewrite (Hnew 0) by lia.
    - exact Hkey.
    - exact H0.
    - rewrite Hheap, (Hnew 0) by lia. simpl.
      apply empty_column_cell; [lia|done..]. }
  unfold format_loop in *.
  destruct deps as [|d0 deps'] eqn:Edeps; [done|].
  cbn [length seq] in *. rewrite for_each_cons, Hone in *.
  cbn [fst snd] in *.
  destruct Hload as (Hlf & _ & Hlb). destruct Hscrape as (Hsf & _ & Hsb).
  split; [done|]. split; [by rewrite Hsf, Hlf|]. split; [by rewrite Hsb, Hlb|].
  rewrite Hrows, raw_rows_length. unfold urls_of. by rewrite length_map.
Qed.

Lemma empty_library_column_stops_run_witness :
  (run [[replicate 11 (VStr "label"); replicate 5 (VStr "unit");
         replicate 6 VNaN
         ++ [VStr "2"; VNaN; VStr "Jan 5, 2024"; VNaN; VStr "http://foo"]]]
       (fun _ _ => Unreachable)
       (Datetime 2024 6 30 0 0 0 0) (Datetime 2024 6 30 0 0 0 0) initial).1
  = Raise AttributeError.
Proof.
  refine (proj1 (proj2 (proj2 (empty_library_column_stops_run _ [] _ _ _
            initial _ _ _ _ _)))); try reflexivity; simpl; lia.
Defined.
